(** * SDF_to_CSV: the record / pharmacology merge pipeline of [app.py]

    A shallow embedding of the data pipeline of the Streamlit script
    [src/app.py]: collecting molecules, flattening their properties into
    one rectangular table, normalising the CAS number on both sides,
    aggregating the pharmacology sheet per CAS and building the two
    output tables.

    The script is written against pandas and RDKit.  Their operations are
    modelled here by what they do to the values the script hands them:

    - a table cell is a Python object: [None], the float [nan] that
      pandas uses for an empty sheet cell and for the holes of a left
      merge, a [str], or an [int];
    - columns hold Python objects (object dtype, pandas 1.x / 2.x), so
      [.astype(str)] is Python's [str] applied to every element:
      [None] becomes ["None"] and [nan] becomes ["nan"]; the script pins
      no pandas, and the module [ByVersion] gives the same pipeline under
      pandas 1.x / 2.x and under pandas 3, where a column of text has the
      [str] dtype and [.astype(str)] keeps a null a null: what depends on
      the JoinKey of a missing identifier is stated there, for both;
    - a [str] is a sequence of 8-bit characters; [strip] and [lower] are
      the ASCII parts of Python's methods;
    - a [DataFrame] is its list of column labels and its list of rows.

    Exceptions are values of [result]; every function of the script that
    can raise returns one. *)

From Stdlib Require Import List String Ascii ZArith Bool Arith Lia.
From Stdlib Require Import Sorted DecimalString.
Import ListNotations.
Local Open Scope string_scope.
Local Open Scope list_scope.

(* ===================================================================== *)
(** ** Python values and strings *)
(* ===================================================================== *)

Module Py.

(** The objects found in table cells. *)
Inductive object : Type :=
| PyNone                (* None *)
| NaN                   (* float('nan'), numpy.nan *)
| Str (s : string)      (* str *)
| Int (z : Z).          (* int *)

Definition object_eq_dec (a b : object) : {a = b} + {a <> b}.
Proof.
  decide equality; [apply string_dec | apply Z.eq_dec].
Defined.

Definition object_eqb (a b : object) : bool :=
  if object_eq_dec a b then true else false.

(** [str(x)] *)
Definition str (x : object) : string :=
  match x with
  | PyNone => "None"
  | NaN => "nan"
  | Str s => s
  | Int z => NilZero.string_of_int (Z.to_int z)
  end.

(** [str.isspace] on one ASCII character: tab, line feed, vertical tab,
    form feed, carriage return, the four separators 28..31 and space. *)
Definition is_space (a : ascii) : bool :=
  let n := nat_of_ascii a in
  (((9 <=? n) && (n <=? 13)) || ((28 <=? n) && (n <=? 32)))%nat.

Fixpoint lstrip (s : string) : string :=
  match s with
  | EmptyString => EmptyString
  | String a r => if is_space a then lstrip r else s
  end.

Fixpoint rstrip (s : string) : string :=
  match s with
  | EmptyString => EmptyString
  | String a r =>
      match rstrip r with
      | EmptyString => if is_space a then EmptyString else String a EmptyString
      | r' => String a r'
      end
  end.

(** [s.strip()] *)
Definition strip (s : string) : string := rstrip (lstrip s).

Definition lower_char (a : ascii) : ascii :=
  let n := nat_of_ascii a in
  if ((65 <=? n) && (n <=? 90))%nat then ascii_of_nat (n + 32) else a.

(** [s.lower()] *)
Fixpoint lower (s : string) : string :=
  match s with
  | EmptyString => EmptyString
  | String a r => String (lower_char a) (lower r)
  end.

(** [sep.join(parts)] *)
Definition join (sep : string) (parts : list string) : string :=
  String.concat sep parts.

(** The order of [str] values: code point by code point. *)
Definition str_lt (s t : string) : Prop := String.compare s t = Lt.

Fixpoint insert_sorted (s : string) (l : list string) : list string :=
  match l with
  | [] => [s]
  | x :: r =>
      match String.compare s x with
      | Lt => s :: l
      | Eq => l
      | Gt => x :: insert_sorted s r
      end
  end.

(** [sorted(set(l))]: the distinct strings of [l] in ascending order. *)
Definition sorted_set (l : list string) : list string :=
  fold_right insert_sorted [] l.

(** A [dict] with [str] keys: insertion-ordered; assigning to a key
    that is present replaces its value and keeps its place. *)
Definition dict : Type := list (string * object).

Fixpoint dict_set (k : string) (v : object) (d : dict) : dict :=
  match d with
  | [] => [(k, v)]
  | (k', v') :: r =>
      if String.eqb k' k then (k, v) :: r else (k', v') :: dict_set k v r
  end.

Fixpoint dict_get (k : string) (d : dict) : option object :=
  match d with
  | [] => None
  | (k', v') :: r => if String.eqb k' k then Some v' else dict_get k r
  end.

Definition keys (d : dict) : list string := map fst d.

(** Exceptions raised on the paths of the script. *)
Inductive exn : Type :=
| IndexError
| KeyError
| MergeError
| NotModelled.   (* grouping on keys that are not [str]: outside this model *)

Inductive result (A : Type) : Type :=
| Ok (a : A)
| Raise (e : exn).
Arguments Ok {A} a.
Arguments Raise {A} e.

Definition bind {A B} (r : result A) (k : A -> result B) : result B :=
  match r with
  | Ok a => k a
  | Raise e => Raise e
  end.

End Py.

Import Py.

Notation "x <- c ;; k" := (Py.bind c (fun x => k))
  (at level 61, c at next level, right associativity).

(* ===================================================================== *)
(** ** pandas *)
(* ===================================================================== *)

Module Pd.

(** A table: the column labels (any Python object: the labels of the
    pharmacology table are the cells of its header row) and the rows,
    each holding one cell per label. *)
Record DataFrame : Type := mkDF {
  columns : list object;
  rows : list (list object)
}.

(** [pd.isna] on one cell. *)
Definition isna (x : object) : bool :=
  match x with
  | PyNone | NaN => true
  | _ => false
  end.

Definition notna (x : object) : bool := negb (isna x).

(** Position of the first column labelled [l]. *)
Fixpoint index_of (l : object) (ls : list object) : option nat :=
  match ls with
  | [] => None
  | x :: r =>
      if object_eqb x l then Some 0
      else option_map S (index_of l r)
  end.

(** [l in df.columns] *)
Definition mem (l : object) (ls : list object) : bool :=
  existsb (object_eqb l) ls.

Fixpoint remove_nth {A} (n : nat) (l : list A) : list A :=
  match l, n with
  | [], _ => []
  | _ :: r, 0 => r
  | x :: r, S n' => x :: remove_nth n' r
  end.

Fixpoint replace_nth {A} (n : nat) (v : A) (l : list A) : list A :=
  match l, n with
  | [], _ => []
  | _ :: r, 0 => v :: r
  | x :: r, S n' => x :: replace_nth n' v r
  end.

(** The cell of row [r] in column number [i]. *)
Definition cell (i : nat) (r : list object) : object := nth i r NaN.

(** [df[l]] as the list of its cells. *)
Definition series (l : object) (df : DataFrame) : result (list object) :=
  match index_of l (columns df) with
  | Some i => Ok (map (cell i) (rows df))
  | None => Raise KeyError
  end.

(** [df[l] = vals]: overwrite the column in place when the label
    exists, append a new last column otherwise. *)
Definition setitem (l : object) (vals : list object) (df : DataFrame)
  : DataFrame :=
  match index_of l (columns df) with
  | Some i =>
      mkDF (columns df)
           (map (fun rv => replace_nth i (snd rv) (fst rv))
                (combine (rows df) vals))
  | None =>
      mkDF (columns df ++ [l])
           (map (fun rv => fst rv ++ [snd rv]) (combine (rows df) vals))
  end.

(** [df[l] = v] for a scalar [v]. *)
Definition setitem_scalar (l : object) (v : object) (df : DataFrame)
  : DataFrame :=
  setitem l (repeat v (List.length (rows df))) df.

(** [df[[l1, ..., ln]]] *)
Fixpoint positions (ls cols : list object) : result (list nat) :=
  match ls with
  | [] => Ok []
  | l :: r =>
      match index_of l cols with
      | Some i => ps <- positions r cols ;; Ok (i :: ps)
      | None => Raise KeyError
      end
  end.

Definition select (ls : list object) (df : DataFrame) : result DataFrame :=
  ps <- positions ls (columns df) ;;
  Ok (mkDF ls (map (fun r => map (fun i => cell i r) ps) (rows df))).

(** [df.drop(columns=[l])] *)
Definition drop (l : object) (df : DataFrame) : result DataFrame :=
  match index_of l (columns df) with
  | Some i => Ok (mkDF (remove_nth i (columns df))
                       (map (remove_nth i) (rows df)))
  | None => Raise KeyError
  end.

(** [Series.unique()]: the distinct values in order of first
    appearance (a hash table filled from left to right). *)
Fixpoint unique_from (seen : list string) (l : list string) : list string :=
  match l with
  | [] => []
  | x :: r =>
      if existsb (String.eqb x) seen then unique_from seen r
      else x :: unique_from (x :: seen) r
  end.

Definition unique (l : list string) : list string := unique_from [] l.

(** [pd.DataFrame(records)] for a list of dicts: the columns are the
    keys in order of first appearance, a key missing from a record
    gives [nan]. *)
Definition from_records (records : list dict) : DataFrame :=
  let cols := unique (flat_map keys records) in
  mkDF (map Str cols)
       (map (fun d => map (fun k => match dict_get k d with
                                     | Some v => v
                                     | None => NaN
                                     end) cols) records).

(** [Index.duplicated()]: true at every occurrence but the first. *)
Fixpoint duplicated_from (seen l : list object) : list bool :=
  match l with
  | [] => []
  | x :: r => mem x seen :: duplicated_from (x :: seen) r
  end.

Definition duplicated (l : list object) : list bool := duplicated_from [] l.

(** Labels that the suffixes turned into duplicates. *)
Definition new_duplicates (orig renamed : list object) : bool :=
  existsb (fun p => fst p && negb (snd p))
          (combine (duplicated renamed) (duplicated orig)).

(** Two join keys match when they are equal; missing keys match each
    other. *)
Definition key_match (a b : object) : bool :=
  object_eqb a b || (isna a && isna b).

(** [left.merge(right, on=on, how="left", suffixes=(lsuffix, rsuffix))].
    The key column of [right] is dropped; a label found on both sides
    gets the side's suffix; the rows follow the order of [left], the
    matches of one left row the order of [right]; a left row without a
    match is kept once, with [nan] in every column of [right]. *)
Definition merge_left (on : object) (lsuffix rsuffix : string)
           (left right : DataFrame) : result DataFrame :=
  match index_of on (columns left), index_of on (columns right) with
  | Some lk, Some rk =>
      let rcols := remove_nth rk (columns right) in
      let overlap c := mem c (columns left) && mem c rcols in
      let llabels :=
        map (fun c => if overlap c then Str (str c ++ lsuffix) else c)
            (columns left) in
      let rlabels :=
        map (fun c => if overlap c then Str (str c ++ rsuffix) else c)
            rcols in
      if new_duplicates (columns left) llabels
         || new_duplicates rcols rlabels
      then Raise MergeError
      else
        Ok (mkDF (llabels ++ rlabels)
              (flat_map
                 (fun lr =>
                    match filter (fun rr => key_match (cell lk lr) (cell rk rr))
                                 (rows right) with
                    | [] => [lr ++ repeat NaN (List.length rcols)]
                    | ms => map (fun rr => lr ++ remove_nth rk rr) ms
                    end)
                 (rows left)))
  | _, _ => Raise KeyError
  end.

(** The keys of a grouping, when every one of them is a [str]. *)
Fixpoint str_keys (l : list object) : result (list string) :=
  match l with
  | [] => Ok []
  | Str s :: r => ks <- str_keys r ;; Ok (s :: ks)
  | _ :: _ => Raise NotModelled
  end.

(** [df.groupby(key, dropna=False).agg(f).reset_index()]: one row per
    distinct key, the keys in ascending order ([sort=True] is the
    default of [groupby]); the key column comes first, then every other
    column of [df] in its place, holding [f] of the cells of the group
    in row order. *)
Definition groupby_agg (key : object) (f : list object -> object)
           (df : DataFrame) : result DataFrame :=
  match index_of key (columns df) with
  | None => Raise KeyError
  | Some ki =>
      ks <- str_keys (map (cell ki) (rows df)) ;;
      Ok (mkDF (key :: remove_nth ki (columns df))
            (map (fun k =>
                    let group :=
                      filter (fun r => object_eqb (cell ki r) (Str k))
                             (rows df) in
                    Str k ::
                      remove_nth ki
                        (map (fun j => f (map (cell j) group))
                             (seq 0 (List.length (columns df)))))
                 (sorted_set ks)))
  end.

(** [Series.astype(str)] on an object column. *)
Definition astype_str (col : list object) : list object :=
  map (fun c => Str (str c)) col.

(** [Series.str.strip()]: an element that is not a [str] gives [nan]. *)
Definition str_strip (col : list object) : list object :=
  map (fun c => match c with Str s => Str (strip s) | _ => NaN end) col.

(** [df[mask]] for a boolean column [mask] aligned with the rows. *)
Definition boolean_index (mask : list bool) (df : DataFrame) : DataFrame :=
  mkDF (columns df)
       (map fst (filter (fun rb => snd rb) (combine (rows df) mask))).

End Pd.

Import Pd.

(* ===================================================================== *)
(** ** RDKit *)
(* ===================================================================== *)

Module Chem.

(** A molecule as the script sees it: its SDF properties and the
    result of [Chem.MolToSmiles], [None] standing for an exception. *)
Record Mol : Type := mkMol {
  props : list (string * string);
  smiles : option string
}.

Definition GetPropNames (m : Mol) : list string := map fst (props m).

Definition HasProp (m : Mol) (p : string) : bool :=
  existsb (String.eqb p) (GetPropNames m).

(** [m.GetProp(p)]; the script calls it under [m.HasProp(p)] only. *)
Definition GetProp (m : Mol) (p : string) : string :=
  match find (fun kv => String.eqb (fst kv) p) (props m) with
  | Some kv => snd kv
  | None => EmptyString
  end.

End Chem.

Import Chem.

(* ===================================================================== *)
(** ** app.py *)
(* ===================================================================== *)

(** An uploaded SDF file: its name and what [ForwardSDMolSupplier]
    yields, [None] for a record that does not parse. *)
Record upload : Type := mkUpload {
  name : string;
  records : list (option Mol)
}.

(** The pharmacology sheet as [pd.read_excel(file, header=None)] returns
    it: a grid of cells without header. *)
Definition sheet : Type := list (list object).

(** Rows of [raw] whose first cell is ['Ligand CAS RN']:
    [raw.index[raw.iloc[:, 0] == "Ligand CAS RN"]]. *)
Definition header_rows (raw : sheet) : list nat :=
  map fst
      (filter (fun ir => match snd ir with
                         | c :: _ => object_eqb c (Str "Ligand CAS RN")
                         | [] => false
                         end)
              (combine (seq 0 (List.length raw)) raw)).

(** Lines 47-63. *)
Definition load_pharmacology_excel (raw : sheet) : result DataFrame :=
  match header_rows raw with
  | [] => Raise IndexError
  | header_row_idx :: _ =>
      let new_header := nth header_row_idx raw [] in
      Ok (mkDF new_header (skipn (header_row_idx + 1) raw))
  end.

(** Lines 66-83: the choices offered for the parameter, the distinct
    non-null values of the column in ascending order ([sort_values()]
    then [unique()]).  A failure of the loader is caught here and leaves
    the list empty. *)
Definition pharm_param_options (uploaded_pharm_file : option sheet)
  : list string :=
  match uploaded_pharm_file with
  | None => []
  | Some raw =>
      match load_pharmacology_excel raw with
      | Ok pharm_preview =>
          match series (Str "Parameter") pharm_preview with
          | Ok col => sorted_set (map str (filter notna col))
          | Raise _ => []
          end
      | Raise _ => []
      end
  end.

(** Lines 85-95 with the selection left at its default: ["IC50"] when it
    is offered, the first choice otherwise, nothing without choices. *)
Definition default_param (pharm_param_options : list string)
  : option string :=
  if existsb (String.eqb "IC50") pharm_param_options then Some "IC50"
  else hd_error pharm_param_options.

(** The expression [col.astype(str).str.strip()] of lines 107, 176, 189. *)
Definition cas_norm_of (col : list object) : list object :=
  str_strip (astype_str col).

(** Lines 109-111. *)
Definition agg_unique (series : list object) : object :=
  let vals := unique (map str (filter notna series)) in
  match vals with
  | [] => PyNone
  | _ => Str (join " | " vals)
  end.

(** Lines 99-119. *)
Definition aggregate_pharmacology_by_cas (pharm_df : DataFrame)
  : result DataFrame :=
  pharm_df <-
    (if mem (Str "cas_norm") (columns pharm_df) then Ok pharm_df
     else
       ids <- series (Str "Ligand CAS RN") pharm_df ;;
       Ok (setitem (Str "cas_norm") (cas_norm_of ids) pharm_df)) ;;
  groupby_agg (Str "cas_norm") agg_unique pharm_df.

(** Lines 137-145: the molecules that parse, each with its file name. *)
Definition read_molecules (uploaded_sdf_files : list upload)
  : list (Mol * string) :=
  flat_map
    (fun up_file =>
       flat_map (fun m => match m with
                          | Some m => [(m, name up_file)]
                          | None => []
                          end)
                (records up_file))
    uploaded_sdf_files.

(** Line 151. *)
Definition all_props (all_mols : list (Mol * string)) : list string :=
  sorted_set (flat_map (fun ms => GetPropNames (fst ms)) all_mols).

(** Lines 156-166: one row of the SDF table. *)
Definition sdf_row (all_props : list string) (idx : nat) (ms : Mol * string)
  : dict :=
  let m := fst ms in
  let row := [("ID", Int (Z.of_nat idx));
              ("SourceFile", Str (snd ms));
              ("SMILES", match smiles m with
                         | Some s => Str s
                         | None => PyNone
                         end)] in
  fold_left
    (fun row p =>
       dict_set p (if HasProp m p then Str (GetProp m p) else PyNone) row)
    all_props row.

(** Lines 154-168. *)
Definition sdf_rows (all_mols : list (Mol * string)) : list dict :=
  let props := all_props all_mols in
  map (fun ims => sdf_row props (fst ims) (snd ims))
      (combine (seq 1 (List.length all_mols)) all_mols).

(** Lines 170-179: the SDF table with its [cas_norm] column. *)
Definition build_sdf_df (all_mols : list (Mol * string)) : DataFrame :=
  let sdf_df := from_records (sdf_rows all_mols) in
  match series (Str "cas.rn") sdf_df with
  | Ok cas_rn => setitem (Str "cas_norm") (cas_norm_of cas_rn) sdf_df
  | Raise _ => setitem_scalar (Str "cas_norm") PyNone sdf_df
  end.

Definition base_cols : list object :=
  [Str "SMILES"; Str "cas.index.name"; Str "cas.rn"; Str "cas_norm"].

(** Lines 221-222: the body of the loop. *)
Definition add_col (sdf_df : DataFrame) (col : object) : DataFrame :=
  if mem col (columns sdf_df) then sdf_df
  else setitem_scalar col PyNone sdf_df.

(** Lines 220-222. *)
Definition add_missing_base_cols (sdf_df : DataFrame) : DataFrame :=
  fold_left add_col base_cols sdf_df.

(** [pharm_df[mask]] of lines 212-215. *)
Definition select_parameter (selected_param : string) (pharm_df : DataFrame)
  : result DataFrame :=
  param_series <- series (Str "Parameter") pharm_df ;;
  let mask :=
    map (fun c => String.eqb (lower (str c)) (lower selected_param))
        param_series in
  Ok (boolean_index mask pharm_df).

(** Lines 219-237. *)
Definition join_parameter (sdf_df pharm_param : DataFrame)
  : result DataFrame :=
  let sdf_df := add_missing_base_cols sdf_df in
  left <- select base_cols sdf_df ;;
  right <- select [Str "cas_norm"; Str "Parameter"; Str "Value"] pharm_param ;;
  param_df_export <- merge_left (Str "cas_norm") "_x" "_y" left right ;;
  param_df_export <- drop (Str "cas_norm") param_df_export ;;
  parameter <- series (Str "Parameter") param_df_export ;;
  value <- series (Str "Value") param_df_export ;;
  Ok (boolean_index
        (map (fun pv => notna (fst pv) && notna (snd pv))
             (combine parameter value))
        param_df_export).

(** Lines 210-251: the parameter-focused table, when there is one. *)
Definition parameter_table (sdf_df pharm_df : DataFrame)
           (selected_param : option string) : result (option DataFrame) :=
  match selected_param with
  | Some (String a s) =>
      if mem (Str "Parameter") (columns pharm_df)
         && mem (Str "Value") (columns pharm_df)
      then
        pharm_param <- select_parameter (String a s) pharm_df ;;
        match rows pharm_param with
        | [] => Ok None
        | _ :: _ =>
            param_df_export <- join_parameter sdf_df pharm_param ;;
            Ok (Some param_df_export)
        end
      else Ok None
  | _ => Ok None
  end.

(** Line 189. *)
Definition with_cas_norm (pharm_df : DataFrame) : result DataFrame :=
  ids <- series (Str "Ligand CAS RN") pharm_df ;;
  Ok (setitem (Str "cas_norm") (cas_norm_of ids) pharm_df).

(** What a run shows. *)
Inductive outcome : Type :=
| PleaseUpload                 (* line 284 *)
| NoValidMolecules             (* line 148 *)
| Tables (merged_full_df : DataFrame) (param_df_export : option DataFrame).

(** Lines 123-284. *)
Definition main_logic (uploaded_sdf_files : list upload)
           (uploaded_pharm_file : option sheet)
           (selected_param : option string) : result outcome :=
  match uploaded_sdf_files with
  | [] => Ok PleaseUpload
  | _ :: _ =>
      let all_mols := read_molecules uploaded_sdf_files in
      match all_mols with
      | [] => Ok NoValidMolecules
      | _ :: _ =>
          let sdf_df := build_sdf_df all_mols in
          match uploaded_pharm_file with
          | None => Ok (Tables sdf_df None)
          | Some raw =>
              pharm_df <- load_pharmacology_excel raw ;;
              pharm_df <- with_cas_norm pharm_df ;;
              pharm_agg <- aggregate_pharmacology_by_cas pharm_df ;;
              merged_full_df <-
                merge_left (Str "cas_norm") "" "_pharm" sdf_df pharm_agg ;;
              param_df_export <-
                parameter_table sdf_df pharm_df selected_param ;;
              Ok (Tables merged_full_df param_df_export)
          end
      end
  end.

(** A run with the parameter left at the sidebar's default. *)
Definition run (uploaded_sdf_files : list upload)
           (uploaded_pharm_file : option sheet) : result outcome :=
  main_logic uploaded_sdf_files uploaded_pharm_file
             (default_param (pharm_param_options uploaded_pharm_file)).

(* ===================================================================== *)
(** ** Reference definitions used in the statements *)
(* ===================================================================== *)

(** Deduplication by value that keeps the first occurrence of every
    string: the head stays, its later copies are removed. *)
Fixpoint first_occurrences (l : list string) : list string :=
  match l with
  | [] => []
  | x :: r => x :: filter (fun y => negb (String.eqb y x)) (first_occurrences r)
  end.

(** Adding a key to the ordered key set of a [dict]. *)
Definition add_key (ks : list string) (k : string) : list string :=
  if existsb (String.eqb k) ks then ks else ks ++ [k].

(** The keys of a record row over the property universe [universe]: the
    three fixed ones, then the universe in its order (a property that
    bears one of the fixed names takes that column). *)
Definition record_columns (universe : list string) : list string :=
  fold_left add_key universe ["ID"; "SourceFile"; "SMILES"].

(** Every row has one cell per column. *)
Definition rectangular (df : DataFrame) : Prop :=
  Forall (fun r => List.length r = List.length (columns df)) (rows df).

Fixpoint distinct (ls : list object) : bool :=
  match ls with
  | [] => true
  | x :: r => negb (mem x r) && distinct r
  end.

(** A table with pairwise distinct labels and one cell per column in
    every row. *)
Definition well_formed (df : DataFrame) : bool :=
  distinct (columns df)
  && forallb (fun r => List.length r =? List.length (columns df))%nat
             (rows df).

(** The table read from the sheet, when there is one, is well formed. *)
Definition sheet_well_formed (uploaded_pharm_file : option sheet) : bool :=
  match uploaded_pharm_file with
  | Some raw =>
      match load_pharmacology_excel raw with
      | Ok pharm_df => well_formed pharm_df
      | Raise _ => true
      end
  | None => true
  end.

(** The JoinKeys of the pharmacology rows: the [cas_norm] column that
    line 189 computes; none without a sheet. *)
Definition pharm_join_keys (uploaded_pharm_file : option sheet)
  : list object :=
  match uploaded_pharm_file with
  | Some raw =>
      match (pharm_df <- load_pharmacology_excel raw ;;
             series (Str "Ligand CAS RN") pharm_df) with
      | Ok ids => cas_norm_of ids
      | Raise _ => []
      end
  | None => []
  end.

(** The JoinKey cell of a row of the SDF table. *)
Definition record_key (sdf_df : DataFrame) (row : list object) : object :=
  match index_of (Str "cas_norm") (columns sdf_df) with
  | Some lk => cell lk row
  | None => NaN
  end.

(** The JoinKey of an identifier cell: its [str], stripped. *)
Definition join_key (c : object) : string := strip (str c).

(** The columns the aggregated table would have without the identifier
    column. *)
Definition columns_without_identifier (pharm_df : DataFrame) : list object :=
  Str "cas_norm"
  :: filter (fun c => negb (object_eqb c (Str "Ligand CAS RN"))
                      && negb (object_eqb c (Str "cas_norm")))
            (columns pharm_df).

(** The aggregated table of a sheet, through lines 186-192. *)
Definition aggregated (raw : sheet) : result DataFrame :=
  pharm_df <- load_pharmacology_excel raw ;;
  pharm_df <- with_cas_norm pharm_df ;;
  aggregate_pharmacology_by_cas pharm_df.

(** [sdf_df[base_cols]] of line 224, after lines 220-222. *)
Definition ligand_identity (sdf_df : DataFrame) : result DataFrame :=
  select base_cols (add_missing_base_cols sdf_df).

(** [pharm_param[["cas_norm", "Parameter", "Value"]]] of line 225: the
    rows of the sheet whose [Parameter] is the selected one. *)
Definition measurements (raw : sheet) (selected_param : string)
  : result DataFrame :=
  pharm_df <- load_pharmacology_excel raw ;;
  pharm_df <- with_cas_norm pharm_df ;;
  pharm_param <- select_parameter selected_param pharm_df ;;
  select [Str "cas_norm"; Str "Parameter"; Str "Value"] pharm_param.

(** Column [col] exists and holds [None] in every row. *)
Definition column_is_none (df : DataFrame) (col : object) : Prop :=
  exists i, index_of col (columns df) = Some i
            /\ Forall (fun r => cell i r = PyNone) (rows df).

(** A string of white space only (or empty). *)
Fixpoint all_space (s : string) : bool :=
  match s with
  | EmptyString => true
  | String a r => is_space a && all_space r
  end.

(** The suffix ["_pharm"] makes two columns of the sheet collide: the
    condition under which the merge of line 194 raises [MergeError]. *)
Definition suffix_clash (sdf_df pharm_df : DataFrame) : bool :=
  let X := filter (fun c => negb (object_eqb c (Str "cas_norm")))
                  (columns pharm_df) in
  new_duplicates
    X
    (map (fun c => if mem c (columns sdf_df) && mem c X
                   then Str (str c ++ "_pharm") else c) X).

(** *** Sample inputs *)

(** A sheet with two title rows, the header and three measurements; the
    first identifier met is ["B"]. *)
Definition sheet_b_a : sheet :=
  [[Str "Ligand pharmacology"; NaN; NaN];
   [NaN; NaN; NaN];
   [Str "Ligand CAS RN"; Str "Parameter"; Str "Value"];
   [Str "B"; Str "IC50"; Str "10"];
   [Str "A"; Str "IC50"; Str "20"];
   [Str "B"; Str "MIC"; Str "10"]].

(** One file with one ligand, formaldehyde. *)
Definition files_one : list upload :=
  [mkUpload "ligands.sdf"
     [Some (mkMol [("cas.rn", "50-00-0"); ("cas.index.name", "Formaldehyde")]
                  (Some "C=O"))]].

(** Two files; the second molecule has no [cas.rn] and no name, the
    third is formaldehyde again; one record does not parse. *)
Definition files_two : list upload :=
  [mkUpload "first set.sdf"
     [Some (mkMol [("cas.rn", "50-00-0"); ("cas.index.name", "Formaldehyde")]
                  (Some "C=O"));
      None;
      Some (mkMol [("mw", "46.07")] (Some "CCO"))];
   mkUpload "second.sdf"
     [Some (mkMol [("cas.rn", "50-00-0")] None)]].

(** A file whose molecules carry neither [cas.index.name] nor a
    pharmacology match for the second one. *)
Definition files_no_name : list upload :=
  [mkUpload "plain.sdf"
     [Some (mkMol [("cas.rn", "50-00-0"); ("Value", "in SDF")] (Some "C=O"));
      Some (mkMol [("cas.rn", " 64-17-5")] (Some "CCO"))]].

(** Measurements of two substances; one [IC50] row has no value, one row
    has no identifier. *)
Definition sheet_ic50 : sheet :=
  [[Str "Ligand pharmacology data"; NaN; NaN];
   [Str "Ligand CAS RN"; Str "Parameter"; Str "Value"];
   [Str "50-00-0"; Str "IC50"; Str "10"];
   [Str "64-17-5"; Str "IC50"; Str "20"];
   [Str "50-00-0"; Str "ic50"; NaN];
   [Str "50-00-0"; Str "MIC"; Int 3];
   [NaN; Str "MIC"; Str "7"]].

(** The table read from [sheet_ic50]. *)
Definition pharm_ic50 : DataFrame :=
  mkDF [Str "Ligand CAS RN"; Str "Parameter"; Str "Value"]
       [[Str "50-00-0"; Str "IC50"; Str "10"];
        [Str "64-17-5"; Str "IC50"; Str "20"];
        [Str "50-00-0"; Str "ic50"; NaN];
        [Str "50-00-0"; Str "MIC"; Int 3];
        [NaN; Str "MIC"; Str "7"]].

(** [pharm_ic50] after line 189. *)
Definition pharm_ic50_keyed : DataFrame :=
  mkDF [Str "Ligand CAS RN"; Str "Parameter"; Str "Value"; Str "cas_norm"]
       [[Str "50-00-0"; Str "IC50"; Str "10"; Str "50-00-0"];
        [Str "64-17-5"; Str "IC50"; Str "20"; Str "64-17-5"];
        [Str "50-00-0"; Str "ic50"; NaN; Str "50-00-0"];
        [Str "50-00-0"; Str "MIC"; Int 3; Str "50-00-0"];
        [NaN; Str "MIC"; Str "7"; Str "nan"]].

(** A sheet whose label cell reads ["Ligand CAS"]: no cell of the first
    column is ["Ligand CAS RN"]. *)
Definition sheet_no_header : sheet :=
  [[Str "Ligand pharmacology data"; NaN; NaN];
   [Str "Ligand CAS"; Str "Parameter"; Str "Value"];
   [Str "50-00-0"; Str "IC50"; Str "10"]].

(** A sheet with a column [Value], as the SDF file [files_no_name] has,
    and identifiers padded or blank. *)
Definition sheet_blank : sheet :=
  [[Str "Ligand CAS RN"; Str "Value"; Str "Parameter"];
   [Str "64-17-5 "; Int 20; Str "IC50"];
   [Str "  "; Int 5; Str "IC50"]].

(** The table read from [sheet_blank]. *)
Definition pharm_blank : DataFrame :=
  mkDF [Str "Ligand CAS RN"; Str "Value"; Str "Parameter"]
       [[Str "64-17-5 "; Int 20; Str "IC50"];
        [Str "  "; Int 5; Str "IC50"]].

(** A file with a molecule whose [cas.rn] is blank. *)
Definition files_blank : list upload :=
  [mkUpload "blank.sdf"
     [Some (mkMol [("cas.rn", " ")] (Some "C"))]].

(** The tables of a run that produced them. *)
Definition merged_of (r : result outcome) : DataFrame :=
  match r with
  | Ok (Tables merged_full_df _) => merged_full_df
  | _ => mkDF [] []
  end.

Definition param_of (r : result outcome) : option DataFrame :=
  match r with
  | Ok (Tables _ param_df_export) => param_df_export
  | _ => None
  end.

(** The runs on the sample inputs, evaluated. *)
Definition merged_two : DataFrame :=
  Eval vm_compute in merged_of (run files_two (Some sheet_ic50)).

Definition param_two : DataFrame :=
  Eval vm_compute in
    match param_of (run files_two (Some sheet_ic50)) with
    | Some p => p
    | None => mkDF [] []
    end.

Definition merged_no_name : DataFrame :=
  Eval vm_compute in merged_of (run files_no_name (Some sheet_blank)).

Definition param_no_name : DataFrame :=
  Eval vm_compute in
    match param_of (run files_no_name (Some sheet_blank)) with
    | Some p => p
    | None => mkDF [] []
    end.

Definition merged_blank : DataFrame :=
  Eval vm_compute in merged_of (run files_blank (Some sheet_blank)).

Definition param_blank : DataFrame :=
  Eval vm_compute in
    match param_of (run files_blank (Some sheet_blank)) with
    | Some p => p
    | None => mkDF [] []
    end.

(* ===================================================================== *)
(** ** File names and the two lists of line 144-145 *)
(* ===================================================================== *)

(** [s.replace(" ", "_")] *)
Fixpoint replace_space (s : string) : string :=
  match s with
  | EmptyString => EmptyString
  | String a r =>
      String (if Ascii.eqb a " "%char then "_"%char else a) (replace_space r)
  end.

(** Lines 128-134: the prefix of the download names.  [stem] stands for
    [Path(name).stem] of pathlib; the main part runs with at least one
    file. *)
Definition prefix (stem : string -> string) (uploaded_sdf_files : list upload)
  : option string :=
  match uploaded_sdf_files with
  | [] => None
  | [up_file] => Some (replace_space (stem (name up_file)))
  | up_file :: _ =>
      let first_stem := stem (name up_file) in
      Some (replace_space (first_stem ++ "_and_others"))
  end.

(** Line 265. *)
Definition full_csv_name (prefix : string) : string :=
  prefix ++ "_Ligands_with_Pharmacology_aggregated_by_CAS.csv".

(** Line 279. *)
Definition param_csv_name (prefix selected_param : string) : string :=
  replace_space (prefix ++ "_" ++ selected_param ++ "_summary.csv").

(** [" " in s] *)
Fixpoint has_space (s : string) : bool :=
  match s with
  | EmptyString => false
  | String a r => Ascii.eqb a " "%char || has_space r
  end.

(** Line 142 for one file: the records that parse. *)
Definition parsed (records : list (option Mol)) : list Mol :=
  flat_map (fun m => match m with Some m => [m] | None => [] end) records.

(** Lines 137-145 as the script has them: the list [all_mols] and the
    list [file_tags], extended file by file. *)
Definition all_mols_of (uploaded_sdf_files : list upload) : list Mol :=
  flat_map (fun up_file => parsed (records up_file)) uploaded_sdf_files.

Definition file_tags (uploaded_sdf_files : list upload) : list string :=
  flat_map
    (fun up_file =>
       repeat (name up_file) (List.length (parsed (records up_file))))
    uploaded_sdf_files.

(** The first cell of a sheet row is the header label (line 56). *)
Definition is_header_row (r : list object) : bool :=
  match r with
  | c :: _ => object_eqb c (Str "Ligand CAS RN")
  | [] => false
  end.

(** No property of the universe bears the name of a fixed column. *)
Definition fixed_columns_free (universe : list string) : bool :=
  forallb (fun k => negb (existsb (String.eqb k) universe))
          ["ID"; "SourceFile"; "SMILES"].

(** A string that does not begin with white space. *)
Definition lstripped (s : string) : bool :=
  match s with
  | EmptyString => true
  | String a _ => negb (is_space a)
  end.

(** *** More sample inputs *)

(** A file whose molecules have no [cas.rn]. *)
Definition files_no_cas : list upload :=
  [mkUpload "no cas.sdf"
     [Some (mkMol [("mw", "30.03")] (Some "C=O"));
      Some (mkMol [] (Some "CCO"))]].

(** A sheet that ends with its header row. *)
Definition sheet_header_only : sheet :=
  [[Str "Ligand pharmacology data"; NaN; NaN];
   [Str "Ligand CAS RN"; Str "Parameter"; Str "Value"]].

Definition pharm_header_only : DataFrame :=
  mkDF [Str "Ligand CAS RN"; Str "Parameter"; Str "Value"] [].

(** A sheet with the columns [Value] and [Value_pharm]; the molecules of
    [files_no_name] have a property [Value]. *)
Definition sheet_clash : sheet :=
  [[Str "Ligand CAS RN"; Str "Value"; Str "Value_pharm"];
   [Str "50-00-0"; Int 1; Int 2]].

Definition pharm_clash : DataFrame :=
  mkDF [Str "Ligand CAS RN"; Str "Value"; Str "Value_pharm"]
       [[Str "50-00-0"; Int 1; Int 2]].

(* ===================================================================== *)
(** ** The pandas in use *)
(* ===================================================================== *)

(** The repository pins no pandas, and on the paths of the script two
    generations of the library differ in how they hold text and its
    missing values:

    - pandas 1.x and 2.x keep a column of text as Python objects;
      [.astype(str)] is [str] on every element, a null included;
    - pandas 3 gives a column made of [str] and nulls the [str] dtype,
      which stores every null as [nan]; [.astype(str)] leaves a null a
      null.

    The definitions above are the script under pandas 1.x / 2.x.  The
    module below is the script under either; [groupby] receives the case
    of a null key, which [dropna=False] keeps as the last group. *)
Inductive pandas : Type :=
| pandas2      (* pandas 1.x and 2.x *)
| pandas3.     (* pandas 3 *)

Module ByVersion.

Definition is_str (c : object) : bool :=
  match c with
  | Str _ => true
  | _ => false
  end.

(** A column for which pandas 3 infers the [str] dtype: text and nulls
    only, with some text. *)
Definition str_column (col : list object) : bool :=
  existsb is_str col && forallb (fun c => is_str c || isna c) col.

(** A cell as a column of dtype [str] (flag [true]) stores it. *)
Definition infer_cell (flag : bool) (c : object) : object :=
  if flag && isna c then NaN else c.

(** The dtype inference on a table built from Python objects. *)
Definition infer_string (v : pandas) (df : DataFrame) : DataFrame :=
  match v with
  | pandas2 => df
  | pandas3 =>
      let flags := map (fun j => str_column (map (cell j) (rows df)))
                       (seq 0 (List.length (columns df))) in
      mkDF (columns df)
           (map (fun r => map (fun fc => infer_cell (fst fc) (snd fc))
                              (combine flags r))
                (rows df))
  end.

(** [Series.astype(str)] *)
Definition astype_str (v : pandas) (col : list object) : list object :=
  match v with
  | pandas2 => Pd.astype_str col
  | pandas3 => map (fun c => if isna c then NaN else Str (str c)) col
  end.

(** [pd.DataFrame(records)] *)
Definition from_records (v : pandas) (records : list dict) : DataFrame :=
  infer_string v (Pd.from_records records).

(** [df.groupby(key, dropna=False).agg(f).reset_index()], with the rows
    of a null key gathered in a last group whose key is [nan]. *)
Definition groupby_agg (v : pandas) (key : object) (f : list object -> object)
           (df : DataFrame) : result DataFrame :=
  match index_of key (columns df) with
  | None => Raise KeyError
  | Some ki =>
      let keys := map (cell ki) (rows df) in
      ks <- str_keys (filter notna keys) ;;
      Ok (infer_string v
            (mkDF (key :: remove_nth ki (columns df))
               (map (fun k =>
                       let group :=
                         filter (fun r => key_match (cell ki r) k) (rows df) in
                       k ::
                         remove_nth ki
                           (map (fun j => f (map (cell j) group))
                                (seq 0 (List.length (columns df)))))
                    (map Str (sorted_set ks)
                     ++ (if existsb isna keys then [NaN] else [])))))
  end.

(** The expression [col.astype(str).str.strip()] of lines 107, 176, 189. *)
Definition cas_norm_of (v : pandas) (col : list object) : list object :=
  str_strip (astype_str v col).

(** Lines 99-119. *)
Definition aggregate_pharmacology_by_cas (v : pandas) (pharm_df : DataFrame)
  : result DataFrame :=
  pharm_df <-
    (if mem (Str "cas_norm") (columns pharm_df) then Ok pharm_df
     else
       ids <- series (Str "Ligand CAS RN") pharm_df ;;
       Ok (setitem (Str "cas_norm") (cas_norm_of v ids) pharm_df)) ;;
  groupby_agg v (Str "cas_norm") agg_unique pharm_df.

(** Lines 170-179. *)
Definition build_sdf_df (v : pandas) (all_mols : list (Mol * string))
  : DataFrame :=
  let sdf_df := from_records v (sdf_rows all_mols) in
  match series (Str "cas.rn") sdf_df with
  | Ok cas_rn => setitem (Str "cas_norm") (cas_norm_of v cas_rn) sdf_df
  | Raise _ => setitem_scalar (Str "cas_norm") PyNone sdf_df
  end.

(** [pharm_df[mask]] of lines 212-215; the comparison with a null is
    false. *)
Definition select_parameter (v : pandas) (selected_param : string)
           (pharm_df : DataFrame) : result DataFrame :=
  param_series <- series (Str "Parameter") pharm_df ;;
  let mask :=
    map (fun c => match c with
                  | Str s => String.eqb (lower s) (lower selected_param)
                  | _ => false
                  end)
        (astype_str v param_series) in
  Ok (boolean_index mask pharm_df).

(** Lines 210-251. *)
Definition parameter_table (v : pandas) (sdf_df pharm_df : DataFrame)
           (selected_param : option string) : result (option DataFrame) :=
  match selected_param with
  | Some (String a s) =>
      if mem (Str "Parameter") (columns pharm_df)
         && mem (Str "Value") (columns pharm_df)
      then
        pharm_param <- select_parameter v (String a s) pharm_df ;;
        match rows pharm_param with
        | [] => Ok None
        | _ :: _ =>
            param_df_export <- join_parameter sdf_df pharm_param ;;
            Ok (Some param_df_export)
        end
      else Ok None
  | _ => Ok None
  end.

(** Line 189. *)
Definition with_cas_norm (v : pandas) (pharm_df : DataFrame)
  : result DataFrame :=
  ids <- series (Str "Ligand CAS RN") pharm_df ;;
  Ok (setitem (Str "cas_norm") (cas_norm_of v ids) pharm_df).

(** Lines 123-284. *)
Definition main_logic (v : pandas) (uploaded_sdf_files : list upload)
           (uploaded_pharm_file : option sheet)
           (selected_param : option string) : result outcome :=
  match uploaded_sdf_files with
  | [] => Ok PleaseUpload
  | _ :: _ =>
      let all_mols := read_molecules uploaded_sdf_files in
      match all_mols with
      | [] => Ok NoValidMolecules
      | _ :: _ =>
          let sdf_df := build_sdf_df v all_mols in
          match uploaded_pharm_file with
          | None => Ok (Tables sdf_df None)
          | Some raw =>
              pharm_df <- load_pharmacology_excel raw ;;
              pharm_df <- with_cas_norm v pharm_df ;;
              pharm_agg <- aggregate_pharmacology_by_cas v pharm_df ;;
              merged_full_df <-
                merge_left (Str "cas_norm") "" "_pharm" sdf_df pharm_agg ;;
              param_df_export <-
                parameter_table v sdf_df pharm_df selected_param ;;
              Ok (Tables merged_full_df param_df_export)
          end
      end
  end.

(** A run with the parameter left at the sidebar's default. *)
Definition run (v : pandas) (uploaded_sdf_files : list upload)
           (uploaded_pharm_file : option sheet) : result outcome :=
  main_logic v uploaded_sdf_files uploaded_pharm_file
             (default_param (pharm_param_options uploaded_pharm_file)).

(** The aggregated table of a sheet, through lines 186-192. *)
Definition aggregated (v : pandas) (raw : sheet) : result DataFrame :=
  pharm_df <- load_pharmacology_excel raw ;;
  pharm_df <- with_cas_norm v pharm_df ;;
  aggregate_pharmacology_by_cas v pharm_df.

(** The [cas_norm] column of the pharmacology table after line 189. *)
Definition pharm_keys (v : pandas) (raw : sheet) : result (list object) :=
  pharm_df <- load_pharmacology_excel raw ;;
  pharm_df <- with_cas_norm v pharm_df ;;
  series (Str "cas_norm") pharm_df.

(** [pharm_param[["cas_norm", "Parameter", "Value"]]] of line 225. *)
Definition measurements (v : pandas) (raw : sheet) (selected_param : string)
  : result DataFrame :=
  pharm_df <- load_pharmacology_excel raw ;;
  pharm_df <- with_cas_norm v pharm_df ;;
  pharm_param <- select_parameter v selected_param pharm_df ;;
  select [Str "cas_norm"; Str "Parameter"; Str "Value"] pharm_param.

End ByVersion.

(** *** Reference definitions for the statements on either pandas *)

(** The JoinKey of an identifier cell: the stripped text of the cell;
    under pandas 3 a null cell has the null key. *)
Definition key_of (v : pandas) (c : object) : object :=
  match v with
  | pandas2 => Str (join_key c)
  | pandas3 => if isna c then NaN else Str (join_key c)
  end.

(** The identifier cell of a row of the SDF table, when the table has the
    column [cas.rn]. *)
Definition record_identifier (sdf_df : DataFrame) (row : list object)
  : option object :=
  match index_of (Str "cas.rn") (columns sdf_df) with
  | Some i => Some (cell i row)
  | None => None
  end.

(** The run on [files_two] and [sheet_ic50] under either pandas. *)
Definition merged_two_at (v : pandas) : DataFrame :=
  merged_of (ByVersion.run v files_two (Some sheet_ic50)).

Definition merged_two3 : DataFrame :=
  Eval vm_compute in merged_two_at pandas3.

Definition param_two3 : DataFrame :=
  Eval vm_compute in
    match param_of (ByVersion.run pandas3 files_two (Some sheet_ic50)) with
    | Some p => p
    | None => mkDF [] []
    end.

(* ===================================================================== *)
(** ** The order of strings and [sorted_set] *)
(* ===================================================================== *)

Section StringOrder.

Lemma ascii_compare_refl a : Ascii.compare a a = Eq.
Proof. unfold Ascii.compare. apply N.compare_refl. Qed.

Lemma ascii_compare_lt_trans a b c :
  Ascii.compare a b = Lt -> Ascii.compare b c = Lt -> Ascii.compare a c = Lt.
Proof.
  unfold Ascii.compare. rewrite !N.compare_lt_iff. apply N.lt_trans.
Qed.

Lemma string_compare_refl s : String.compare s s = Eq.
Proof.
  induction s as [|a s IH]; simpl; [reflexivity|].
  now rewrite ascii_compare_refl.
Qed.

Lemma str_lt_irrefl s : ~ str_lt s s.
Proof. unfold str_lt. rewrite string_compare_refl. discriminate. Qed.

Lemma str_lt_trans s t u : str_lt s t -> str_lt t u -> str_lt s u.
Proof.
  unfold str_lt. revert t u.
  induction s as [|a s IH]; intros [|b t] [|c u]; simpl; try discriminate;
    try reflexivity.
  destruct (Ascii.compare a b) eqn:Hab; try discriminate;
    destruct (Ascii.compare b c) eqn:Hbc; try discriminate; intros H1 H2.
  - apply Ascii.compare_eq_iff in Hab, Hbc. subst.
    rewrite ascii_compare_refl. eauto.
  - apply Ascii.compare_eq_iff in Hab. subst. now rewrite Hbc.
  - apply Ascii.compare_eq_iff in Hbc. subst. now rewrite Hab.
  - now rewrite (ascii_compare_lt_trans _ _ _ Hab Hbc).
Qed.

Lemma compare_gt_lt s t : String.compare s t = Gt -> str_lt t s.
Proof.
  unfold str_lt. intros H. rewrite String.compare_antisym, H. reflexivity.
Qed.

Lemma in_insert_sorted x s l :
  In x (insert_sorted s l) <-> x = s \/ In x l.
Proof.
  induction l as [|y l IH]; simpl.
  - intuition.
  - destruct (String.compare s y) eqn:Hc; simpl.
    + apply String.compare_eq_iff in Hc. subst. intuition.
    + intuition.
    + rewrite IH. intuition.
Qed.

Lemma in_sorted_set x l : In x (sorted_set l) <-> In x l.
Proof.
  induction l as [|y l IH]; simpl; [tauto|].
  rewrite in_insert_sorted, IH. intuition.
Qed.

Lemma insert_sorted_sorted s l :
  StronglySorted str_lt l -> StronglySorted str_lt (insert_sorted s l).
Proof.
  induction 1 as [|y l Hs IH Hall]; simpl.
  - repeat constructor.
  - destruct (String.compare s y) eqn:Hc.
    + now constructor.
    + constructor; [now constructor|].
      constructor; [exact Hc|].
      eapply Forall_impl; [|exact Hall].
      intros z Hz. eapply str_lt_trans; eauto.
    + constructor; [exact IH|].
      apply Forall_forall. intros z Hz.
      apply in_insert_sorted in Hz. destruct Hz as [->|Hz].
      * now apply compare_gt_lt.
      * rewrite Forall_forall in Hall. auto.
Qed.

Lemma sorted_set_sorted l : StronglySorted str_lt (sorted_set l).
Proof.
  induction l as [|y l IH]; simpl; [constructor|].
  now apply insert_sorted_sorted.
Qed.

Lemma sorted_NoDup l : StronglySorted str_lt l -> NoDup l.
Proof.
  induction 1 as [|y l Hs IH Hall]; constructor; [|exact IH].
  intros Hin. rewrite Forall_forall in Hall.
  exact (str_lt_irrefl _ (Hall _ Hin)).
Qed.

Lemma sorted_set_NoDup l : NoDup (sorted_set l).
Proof. apply sorted_NoDup, sorted_set_sorted. Qed.

End StringOrder.

(* ===================================================================== *)
(** ** [unique] and [agg_unique] *)
(* ===================================================================== *)

Section Unique.

Lemma existsb_eqb_In x l : existsb (String.eqb x) l = true <-> In x l.
Proof.
  rewrite existsb_exists. split.
  - intros [y [Hy He]]. apply String.eqb_eq in He. now subst.
  - intros H. exists x. split; [exact H | apply String.eqb_refl].
Qed.

Lemma unique_from_ext seen seen' l :
  (forall x, In x seen <-> In x seen') ->
  unique_from seen l = unique_from seen' l.
Proof.
  revert seen seen'. induction l as [|y l IH]; intros seen seen' H; simpl.
  - reflexivity.
  - assert (E : existsb (String.eqb y) seen = existsb (String.eqb y) seen').
    { apply eq_true_iff_eq. rewrite !existsb_eqb_In. apply H. }
    rewrite E. destruct (existsb (String.eqb y) seen').
    + now apply IH.
    + f_equal. apply IH. intros x. simpl. rewrite H. tauto.
Qed.

Lemma in_unique_from x seen l :
  In x (unique_from seen l) <-> In x l /\ ~ In x seen.
Proof.
  revert seen. induction l as [|y l IH]; intros seen; simpl.
  - tauto.
  - destruct (existsb (String.eqb y) seen) eqn:E.
    + apply existsb_eqb_In in E. rewrite IH. split.
      * tauto.
      * intros [[->|H] Hn]; tauto.
    + assert (Hy : ~ In y seen).
      { intros H. apply existsb_eqb_In in H. congruence. }
      simpl. rewrite IH. simpl. split.
      * intros [->|[H Hn]]; [tauto|]. split; [tauto|]. intros Hs. tauto.
      * intros [[->|H] Hn]; [tauto|].
        destruct (string_dec y x) as [->|Hne]; [tauto|]. right. tauto.
Qed.

Lemma unique_from_NoDup seen l : NoDup (unique_from seen l).
Proof.
  revert seen. induction l as [|y l IH]; intros seen; simpl.
  - constructor.
  - destruct (existsb (String.eqb y) seen); [apply IH|].
    constructor; [|apply IH].
    rewrite in_unique_from. simpl. tauto.
Qed.

Lemma filter_neq_id x l :
  ~ In x l -> filter (fun y => negb (String.eqb y x)) l = l.
Proof.
  induction l as [|y l IH]; simpl; intros H; [reflexivity|].
  destruct (String.eqb_spec y x) as [->|Hne]; simpl.
  - tauto.
  - f_equal. tauto.
Qed.

Lemma unique_from_cons_seen x seen l :
  unique_from (x :: seen) l
  = filter (fun y => negb (String.eqb y x)) (unique_from seen l).
Proof.
  revert seen. induction l as [|y l IH]; intros seen; [reflexivity|].
  cbn [unique_from existsb].
  destruct (String.eqb_spec y x) as [->|Hne].
  - cbn [orb]. destruct (existsb (String.eqb x) seen) eqn:E.
    + apply IH.
    + cbn [filter]. rewrite String.eqb_refl. cbn [negb].
      rewrite filter_neq_id; [reflexivity|].
      rewrite in_unique_from. simpl. tauto.
  - cbn [orb]. destruct (existsb (String.eqb y) seen) eqn:E.
    + apply IH.
    + cbn [filter]. destruct (String.eqb_spec y x); [contradiction|].
      cbn [negb]. f_equal. rewrite <- IH.
      apply unique_from_ext. intros z. simpl. tauto.
Qed.

Lemma unique_first_occurrences l : unique l = first_occurrences l.
Proof.
  unfold unique. induction l as [|x l IH]; [reflexivity|].
  cbn [unique_from existsb first_occurrences].
  now rewrite unique_from_cons_seen, IH.
Qed.

Lemma in_unique x l : In x (unique l) <-> In x l.
Proof. unfold unique. rewrite in_unique_from. simpl. tauto. Qed.

End Unique.

(** C7. [agg_unique] takes the values of a group in row order, drops the
    nulls, casts the rest to [str], keeps the first occurrence of every
    distinct string and joins them with [" | "]; without a non-null value
    the result is [None], never an empty string.  The values
    ["5", "5", "7", null] give ["5 | 7"]. *)
Theorem C7_agg_unique :
  forall series : list object,
    let survivors := first_occurrences (map str (filter notna series)) in
    agg_unique series
    = match survivors with
      | [] => PyNone
      | _ :: _ => Str (join " | " survivors)
      end
    /\ NoDup survivors
    /\ (forall s, In s survivors <->
                  exists v, In v series /\ isna v = false /\ str v = s)
    /\ (agg_unique series = PyNone <->
        forall v, In v series -> isna v = true)
    /\ agg_unique [Str "5"; Str "5"; Str "7"; NaN] = Str "5 | 7".
Proof.
  intros series survivors.
  assert (Hs : unique (map str (filter notna series)) = survivors)
    by apply unique_first_occurrences.
  assert (Hin : forall s, In s survivors <->
                  exists v, In v series /\ isna v = false /\ str v = s).
  { intros s. rewrite <- Hs, in_unique, in_map_iff. split.
    - intros [v [Hv Hf]]. apply filter_In in Hf. destruct Hf as [Hf Hn].
      exists v. unfold notna in Hn. apply negb_true_iff in Hn. auto.
    - intros [v [Hv [Hn Hv']]]. exists v. split; [exact Hv'|].
      apply filter_In. split; [exact Hv|]. unfold notna. now rewrite Hn. }
  assert (Ha : agg_unique series
               = match survivors with
                 | [] => PyNone
                 | _ :: _ => Str (join " | " survivors)
                 end).
  { unfold agg_unique. rewrite Hs. now destruct survivors. }
  split; [exact Ha|].
  split; [rewrite <- Hs; apply unique_from_NoDup|].
  split; [exact Hin|].
  split; [|reflexivity].
  rewrite Ha. split.
  - intros H v Hv. destruct (isna v) eqn:Hn; [reflexivity|].
    destruct survivors as [|s0 ss]; [|discriminate].
    exfalso. apply (proj2 (Hin (str v))). exists v. auto.
  - intros H. destruct survivors as [|s0 ss]; [reflexivity|].
    destruct (proj1 (Hin s0) (or_introl eq_refl)) as [v [Hv [Hn _]]].
    rewrite (H v Hv) in Hn. discriminate.
Qed.

(* ===================================================================== *)
(** ** The record rows *)
(* ===================================================================== *)

Section RecordRows.

Lemma keys_dict_set k v d : keys (dict_set k v d) = add_key (keys d) k.
Proof.
  unfold add_key, keys. induction d as [|[k' v'] d IH]; simpl.
  - reflexivity.
  - rewrite (String.eqb_sym k k').
    destruct (String.eqb k' k) eqn:E; simpl.
    + apply String.eqb_eq in E. now subst.
    + rewrite IH. now destruct (existsb (String.eqb k) (map fst d)).
Qed.

Lemma dict_get_set_same k v d : dict_get k (dict_set k v d) = Some v.
Proof.
  induction d as [|[k' v'] d IH]; simpl.
  - now rewrite String.eqb_refl.
  - destruct (String.eqb k' k) eqn:E; simpl.
    + now rewrite String.eqb_refl.
    + now rewrite E.
Qed.

Lemma dict_get_set_other k k' v d :
  k <> k' -> dict_get k (dict_set k' v d) = dict_get k d.
Proof.
  intros Hne. induction d as [|[k0 v0] d IH]; simpl.
  - destruct (String.eqb_spec k' k); [congruence | reflexivity].
  - destruct (String.eqb_spec k0 k'); simpl.
    + subst. destruct (String.eqb_spec k' k); [congruence|].
      destruct (String.eqb_spec k' k); congruence.
    + destruct (String.eqb_spec k0 k); [reflexivity | exact IH].
Qed.

Variable value_of : string -> object.

Lemma keys_fold_set ps d :
  keys (fold_left (fun row p => dict_set p (value_of p) row) ps d)
  = fold_left add_key ps (keys d).
Proof.
  revert d. induction ps as [|p ps IH]; intros d; simpl; [reflexivity|].
  rewrite IH. now rewrite keys_dict_set.
Qed.

Lemma dict_get_fold_other k ps d :
  ~ In k ps ->
  dict_get k (fold_left (fun row p => dict_set p (value_of p) row) ps d)
  = dict_get k d.
Proof.
  revert d. induction ps as [|p ps IH]; intros d H; simpl; [reflexivity|].
  simpl in H. rewrite IH by tauto.
  apply dict_get_set_other. intros ->. tauto.
Qed.

Lemma dict_get_fold_set k ps d :
  In k ps ->
  dict_get k (fold_left (fun row p => dict_set p (value_of p) row) ps d)
  = Some (value_of k).
Proof.
  revert d. induction ps as [|p ps IH]; intros d H; simpl; [contradiction|].
  destruct (in_dec string_dec k ps) as [Hin|Hnin].
  - now apply IH.
  - destruct H as [->|H]; [|contradiction].
    rewrite dict_get_fold_other by exact Hnin.
    apply dict_get_set_same.
Qed.

End RecordRows.

Lemma in_add_key x ks k : In x (add_key ks k) <-> In x ks \/ x = k.
Proof.
  unfold add_key. destruct (existsb (String.eqb k) ks) eqn:E.
  - apply existsb_eqb_In in E. split; [tauto|]. intros [H| ->]; assumption.
  - rewrite in_app_iff. simpl. intuition.
Qed.

Lemma add_key_NoDup ks k : NoDup ks -> NoDup (add_key ks k).
Proof.
  intros H. unfold add_key. destruct (existsb (String.eqb k) ks) eqn:E.
  - exact H.
  - assert (Hn : ~ In k ks).
    { intros Hin. apply existsb_eqb_In in Hin. congruence. }
    clear E. induction H as [|y l Hy Hl IH]; simpl.
    + constructor; [tauto | constructor].
    + simpl in Hn. constructor; [|tauto].
      rewrite in_app_iff. simpl. intuition.
Qed.

Lemma in_fold_add_key x ps ks :
  In x (fold_left add_key ps ks) <-> In x ks \/ In x ps.
Proof.
  revert ks. induction ps as [|p ps IH]; intros ks; simpl; [tauto|].
  rewrite IH, in_add_key. intuition.
Qed.

Lemma fold_add_key_NoDup ps ks : NoDup ks -> NoDup (fold_left add_key ps ks).
Proof.
  revert ks. induction ps as [|p ps IH]; intros ks H; simpl; [exact H|].
  apply IH, add_key_NoDup, H.
Qed.

Lemma record_columns_NoDup universe : NoDup (record_columns universe).
Proof.
  apply fold_add_key_NoDup.
  repeat constructor; simpl; intuition discriminate.
Qed.

Lemma keys_sdf_row universe idx ms :
  keys (sdf_row universe idx ms) = record_columns universe.
Proof.
  unfold sdf_row, record_columns.
  exact (keys_fold_set
           (fun p => if HasProp (fst ms) p then Str (GetProp (fst ms) p)
                     else PyNone) universe _).
Qed.

Lemma in_sdf_rows row all_mols :
  In row (sdf_rows all_mols) ->
  exists idx ms, In ms all_mols /\ row = sdf_row (all_props all_mols) idx ms.
Proof.
  unfold sdf_rows. rewrite in_map_iff. intros [[idx ms] [<- Hin]].
  exists idx, ms. split; [|reflexivity].
  now apply in_combine_r in Hin.
Qed.

Lemma unique_from_app seen a b :
  unique_from seen (a ++ b)
  = unique_from seen a ++ unique_from (a ++ seen) b.
Proof.
  revert seen. induction a as [|x a IH]; intros seen; [reflexivity|].
  cbn [app unique_from].
  destruct (existsb (String.eqb x) seen) eqn:E.
  - rewrite IH. f_equal. apply unique_from_ext. intros y.
    apply existsb_eqb_In in E. simpl. rewrite !in_app_iff.
    split; [tauto|]. intros [->|H]; tauto.
  - cbn [app]. rewrite IH. f_equal. f_equal. apply unique_from_ext.
    intros y. simpl. rewrite !in_app_iff. simpl. tauto.
Qed.

Lemma unique_from_all_seen seen l :
  (forall x, In x l -> In x seen) -> unique_from seen l = [].
Proof.
  induction l as [|x l IH]; intros H; [reflexivity|].
  cbn [unique_from].
  assert (E : existsb (String.eqb x) seen = true)
    by (apply existsb_eqb_In, H; now left).
  rewrite E. apply IH. intros y Hy. apply H. now right.
Qed.

Lemma unique_from_NoDup_id seen l :
  NoDup l -> (forall x, In x l -> ~ In x seen) -> unique_from seen l = l.
Proof.
  intros Hnd. revert seen. induction Hnd as [|x l Hx Hnd IH]; intros seen H;
    [reflexivity|].
  cbn [unique_from].
  assert (E : existsb (String.eqb x) seen = false).
  { destruct (existsb (String.eqb x) seen) eqn:E; [|reflexivity].
    apply existsb_eqb_In in E. exfalso. apply (H x); [now left | exact E]. }
  rewrite E. f_equal. apply IH. intros y Hy [->|Hs]; [contradiction|].
  apply (H y); [now right | exact Hs].
Qed.

(** The keys of a list of dicts that all have the keys [ks]. *)
Lemma unique_same_keys ks (records : list dict) :
  NoDup ks -> records <> [] ->
  (forall d, In d records -> keys d = ks) ->
  unique (flat_map keys records) = ks.
Proof.
  intros Hnd Hne Hk. destruct records as [|d records]; [contradiction|].
  cbn [flat_map]. unfold unique. rewrite unique_from_app.
  rewrite (Hk d (or_introl eq_refl)).
  rewrite unique_from_NoDup_id by (auto; intros x _ []).
  rewrite unique_from_all_seen; [apply app_nil_r|].
  intros x Hx. apply in_flat_map in Hx. destruct Hx as [d' [Hd' Hx]].
  rewrite (Hk d' (or_intror Hd')) in Hx. apply in_or_app. now left.
Qed.

Lemma dict_values_in_key_order (d : dict) :
  NoDup (keys d) ->
  map (fun k => match dict_get k d with Some v => v | None => NaN end)
      (keys d)
  = map snd d.
Proof.
  induction d as [|[k v] d IH]; intros Hnd; [reflexivity|].
  cbn [keys map fst snd] in *. inversion Hnd as [|? ? Hk Hnd']; subst.
  cbn [dict_get]. rewrite String.eqb_refl. f_equal.
  rewrite <- IH by exact Hnd'. apply map_ext_in. intros k' Hk'.
  destruct (String.eqb_spec k k') as [->|Hne]; [contradiction | reflexivity].
Qed.

(** [pd.DataFrame(sdf_rows)]: the columns are the keys of the rows, the
    cells are the values of the dicts; no cell is filled in. *)
Lemma from_records_sdf_rows all_mols :
  all_mols <> [] ->
  from_records (sdf_rows all_mols)
  = mkDF (map Str (record_columns (all_props all_mols)))
         (map (map snd) (sdf_rows all_mols)).
Proof.
  intros Hne. unfold from_records.
  assert (Hk : forall d, In d (sdf_rows all_mols) ->
                         keys d = record_columns (all_props all_mols)).
  { intros d Hd. destruct (in_sdf_rows _ _ Hd) as [idx [ms [_ ->]]].
    apply keys_sdf_row. }
  rewrite (unique_same_keys (record_columns (all_props all_mols))).
  - f_equal. apply map_ext_in. intros d Hd.
    rewrite <- (Hk d Hd). apply dict_values_in_key_order.
    rewrite (Hk d Hd). apply record_columns_NoDup.
  - apply record_columns_NoDup.
  - intros E. apply (f_equal (@List.length _)) in E.
    unfold sdf_rows in E.
    rewrite length_map, length_combine, length_seq, Nat.min_id in E.
    destruct all_mols; [contradiction | discriminate].
  - exact Hk.
Qed.

(** C8. Every record row has the same keys in the same order: [ID],
    [SourceFile], [SMILES] and the property universe, which is the
    ascending list of the distinct property names of all the molecules.
    Every property of the universe has a cell in every row; that cell is
    the molecule's value, or an explicit [None] when the molecule lacks
    the property.  The table built from the rows has these keys as
    columns and the values of the rows as cells. *)
Theorem C8_column_universe :
  forall (all_mols : list (Mol * string)) (row : dict),
    In row (sdf_rows all_mols) ->
    let universe := all_props all_mols in
    StronglySorted str_lt universe
    /\ (forall p, In p universe <->
                  exists ms, In ms all_mols /\ In p (GetPropNames (fst ms)))
    /\ keys row = record_columns universe
    /\ NoDup (keys row)
    /\ (forall k, In k (keys row) <->
                  In k ["ID"; "SourceFile"; "SMILES"] \/ In k universe)
    /\ (exists idx ms,
          In ms all_mols /\ row = sdf_row universe idx ms /\
          forall p, In p universe ->
            dict_get p row
            = Some (if HasProp (fst ms) p then Str (GetProp (fst ms) p)
                    else PyNone))
    /\ from_records (sdf_rows all_mols)
       = mkDF (map Str (record_columns universe))
              (map (map snd) (sdf_rows all_mols)).
Proof.
  intros all_mols row Hrow universe.
  assert (Hne : all_mols <> []).
  { intros ->. exact Hrow. }
  destruct (in_sdf_rows _ _ Hrow) as [idx [ms [Hms ->]]].
  fold universe.
  split; [apply sorted_set_sorted|].
  split.
  { intros p. unfold universe, all_props.
    rewrite in_sorted_set, in_flat_map. reflexivity. }
  split; [apply keys_sdf_row|].
  split; [rewrite keys_sdf_row; apply record_columns_NoDup|].
  split.
  { intros k. rewrite keys_sdf_row. apply in_fold_add_key. }
  split; [|now apply from_records_sdf_rows].
  exists idx, ms. split; [exact Hms|]. split; [reflexivity|].
  intros p Hp. unfold sdf_row.
  exact (dict_get_fold_set
           (fun p => if HasProp (fst ms) p then Str (GetProp (fst ms) p)
                     else PyNone) p universe _ Hp).
Qed.

(* ===================================================================== *)
(** ** Columns, rows and [setitem] *)
(* ===================================================================== *)

Lemma object_eqb_eq a b : object_eqb a b = true <-> a = b.
Proof.
  unfold object_eqb. destruct (object_eq_dec a b); split; congruence.
Qed.

Lemma object_eqb_refl a : object_eqb a a = true.
Proof. now apply object_eqb_eq. Qed.

Lemma object_eqb_neq a b : object_eqb a b = false <-> a <> b.
Proof.
  unfold object_eqb. destruct (object_eq_dec a b); split; congruence.
Qed.

Lemma mem_In l ls : mem l ls = true <-> In l ls.
Proof.
  unfold mem. rewrite existsb_exists. split.
  - intros [x [Hx He]]. apply object_eqb_eq in He. now subst.
  - intros H. exists l. split; [exact H | apply object_eqb_refl].
Qed.

Lemma mem_false l ls : mem l ls = false <-> ~ In l ls.
Proof.
  rewrite <- mem_In. destruct (mem l ls); split; congruence.
Qed.

Lemma index_of_Some l ls i :
  index_of l ls = Some i -> i < List.length ls /\ nth_error ls i = Some l.
Proof.
  revert i. induction ls as [|x ls IH]; intros i; simpl; [discriminate|].
  destruct (object_eqb x l) eqn:E.
  - intros [= <-]. apply object_eqb_eq in E. subst. simpl. split; [lia|auto].
  - destruct (index_of l ls) as [j|]; simpl; [|discriminate].
    intros [= <-]. destruct (IH j eq_refl). simpl. split; [lia|auto].
Qed.

Lemma index_of_None l ls : index_of l ls = None <-> ~ In l ls.
Proof.
  induction ls as [|x ls IH]; simpl; [tauto|].
  destruct (object_eqb x l) eqn:E.
  - apply object_eqb_eq in E. split; [discriminate | tauto].
  - apply object_eqb_neq in E.
    destruct (index_of l ls); simpl.
    + split; [discriminate|]. intros H. exfalso. apply H. right.
      destruct IH as [_ IH]. destruct (in_dec object_eq_dec l ls); [auto|].
      specialize (IH n0). discriminate.
    + split; [|reflexivity]. intros _ [H|H]; [congruence|].
      now apply (proj1 IH).
Qed.

Lemma index_of_In l ls : In l ls -> exists i, index_of l ls = Some i.
Proof.
  intros H. destruct (index_of l ls) as [i|] eqn:E; [eauto|].
  apply index_of_None in E. contradiction.
Qed.

Lemma index_of_mem l ls :
  mem l ls = match index_of l ls with Some _ => true | None => false end.
Proof.
  destruct (index_of l ls) eqn:E.
  - apply mem_In. destruct (index_of_Some _ _ _ E) as [_ H].
    now apply nth_error_In in H.
  - apply mem_false. now apply index_of_None.
Qed.

Lemma index_of_app_l l ls ls' i :
  index_of l ls = Some i -> index_of l (ls ++ ls') = Some i.
Proof.
  revert i. induction ls as [|x ls IH]; intros i; simpl; [discriminate|].
  destruct (object_eqb x l); [auto|].
  destruct (index_of l ls) as [j|]; simpl; [|discriminate].
  intros [= <-]. now rewrite (IH j eq_refl).
Qed.

Lemma index_of_app_new l ls :
  index_of l ls = None -> index_of l (ls ++ [l]) = Some (List.length ls).
Proof.
  induction ls as [|x ls IH]; simpl.
  - now rewrite object_eqb_refl.
  - destruct (object_eqb x l); [discriminate|].
    destruct (index_of l ls); simpl; [discriminate|].
    intros _. now rewrite IH.
Qed.

Lemma cell_replace_nth i v r :
  i < List.length r -> cell i (replace_nth i v r) = v.
Proof.
  unfold cell. revert i. induction r as [|x r IH]; intros [|i]; simpl;
    try lia; [reflexivity|].
  intros H. apply IH. lia.
Qed.

Lemma length_replace_nth {A} i (v : A) r :
  List.length (replace_nth i v r) = List.length r.
Proof.
  revert i. induction r as [|x r IH]; intros [|i]; simpl; auto.
Qed.

Lemma cell_app_last r v : cell (List.length r) (r ++ [v]) = v.
Proof.
  unfold cell. rewrite app_nth2 by lia. now rewrite Nat.sub_diag.
Qed.

Lemma cell_app_l i r r' : i < List.length r -> cell i (r ++ r') = cell i r.
Proof. unfold cell. intros H. now apply app_nth1. Qed.

Lemma distinct_NoDup ls : distinct ls = true -> NoDup ls.
Proof.
  induction ls as [|x ls IH]; simpl; [constructor|].
  intros H. apply andb_true_iff in H. destruct H as [Hx Hd].
  constructor; [|auto]. apply negb_true_iff in Hx. now apply mem_false.
Qed.

Lemma well_formed_true df :
  well_formed df = true -> NoDup (columns df) /\ rectangular df.
Proof.
  unfold well_formed, rectangular. intros H.
  apply andb_true_iff in H. destruct H as [Hd Hr].
  split; [now apply distinct_NoDup|].
  rewrite forallb_forall in Hr. apply Forall_forall.
  intros r Hin. apply Nat.eqb_eq. auto.
Qed.

Lemma columns_setitem l vals df :
  columns (setitem l vals df)
  = if mem l (columns df) then columns df else columns df ++ [l].
Proof.
  unfold setitem. rewrite index_of_mem.
  now destruct (index_of l (columns df)).
Qed.

Lemma length_rows_setitem l vals df :
  List.length vals = List.length (rows df) ->
  List.length (rows (setitem l vals df)) = List.length (rows df).
Proof.
  intros H. unfold setitem.
  destruct (index_of l (columns df)); simpl;
    rewrite length_map, length_combine; lia.
Qed.

Lemma rectangular_setitem l vals df :
  rectangular df -> rectangular (setitem l vals df).
Proof.
  unfold rectangular, setitem. intros H.
  destruct (index_of l (columns df)) as [i|]; simpl;
    apply Forall_forall; intros r Hr; apply in_map_iff in Hr;
    destruct Hr as [[r0 v] [<- Hin]]; apply in_combine_l in Hin;
    rewrite Forall_forall in H; specialize (H _ Hin); simpl.
  - now rewrite length_replace_nth.
  - rewrite !length_app. simpl. lia.
Qed.

Lemma map_snd_combine {A B} (la : list A) (lb : list B) :
  List.length lb = List.length la -> map snd (combine la lb) = lb.
Proof.
  revert lb. induction la as [|a la IH]; intros [|b lb]; simpl;
    try discriminate; [reflexivity|].
  intros [= H]. now rewrite IH.
Qed.

(** Reading back the column that [setitem] has just written. *)
Lemma series_setitem l vals df :
  rectangular df ->
  List.length vals = List.length (rows df) ->
  series l (setitem l vals df) = Ok vals
  /\ exists i, index_of l (columns (setitem l vals df)) = Some i
               /\ map (cell i) (rows (setitem l vals df)) = vals.
Proof.
  intros Hrect Hlen. unfold series, setitem.
  destruct (index_of l (columns df)) as [i|] eqn:E; simpl.
  - rewrite E.
    assert (Hm : map (cell i)
                   (map (fun rv => replace_nth i (snd rv) (fst rv))
                        (combine (rows df) vals)) = vals).
    { rewrite map_map.
      rewrite <- (map_snd_combine (rows df) vals Hlen) at 2.
      apply map_ext_in. intros [r v] Hin. simpl.
      apply cell_replace_nth. apply in_combine_l in Hin.
      unfold rectangular in Hrect. rewrite Forall_forall in Hrect.
      rewrite (Hrect _ Hin). now apply index_of_Some in E. }
    rewrite Hm. split; [reflexivity|]. exists i. auto.
  - rewrite (index_of_app_new _ _ E).
    assert (Hm : map (cell (List.length (columns df)))
                   (map (fun rv => fst rv ++ [snd rv])
                        (combine (rows df) vals)) = vals).
    { rewrite map_map.
      rewrite <- (map_snd_combine (rows df) vals Hlen) at 2.
      apply map_ext_in. intros [r v] Hin. simpl.
      apply in_combine_l in Hin.
      unfold rectangular in Hrect. rewrite Forall_forall in Hrect.
      rewrite <- (Hrect _ Hin). apply cell_app_last. }
    rewrite Hm. split; [reflexivity|]. eauto.
Qed.

Lemma length_series l df col :
  series l df = Ok col -> List.length col = List.length (rows df).
Proof.
  unfold series. destruct (index_of l (columns df)); [|discriminate].
  intros [= <-]. apply length_map.
Qed.

Lemma length_cas_norm_of col :
  List.length (cas_norm_of col) = List.length col.
Proof. unfold cas_norm_of, str_strip, astype_str. now rewrite !length_map. Qed.

(** Both steps of the normalisation in one: the cell cast to [str], then
    stripped. *)
Lemma cas_norm_of_map col :
  cas_norm_of col = map (fun c => Str (strip (str c))) col.
Proof.
  unfold cas_norm_of, str_strip, astype_str. now rewrite map_map.
Qed.

Lemma str_keys_map_Str ks : str_keys (map Str ks) = Ok ks.
Proof.
  induction ks as [|k ks IH]; simpl; [reflexivity|]. now rewrite IH.
Qed.

Lemma remove_nth_filter l ls i :
  NoDup ls -> index_of l ls = Some i ->
  remove_nth i ls = filter (fun c => negb (object_eqb c l)) ls.
Proof.
  intros Hnd. revert i. induction Hnd as [|x ls Hx Hnd IH]; intros i; simpl;
    [discriminate|].
  destruct (object_eqb x l) eqn:E; simpl.
  - intros [= <-]. apply object_eqb_eq in E. subst x.
    symmetry. clear IH Hnd. induction ls as [|y ls IH]; simpl; [reflexivity|].
    simpl in Hx. destruct (object_eqb y l) eqn:E; simpl.
    + apply object_eqb_eq in E. tauto.
    + f_equal. tauto.
  - destruct (index_of l ls) as [j|]; simpl; [|discriminate].
    intros [= <-]. simpl. f_equal. now apply IH.
Qed.

Lemma remove_nth_app_last {A} (ls : list A) x :
  remove_nth (List.length ls) (ls ++ [x]) = ls.
Proof. induction ls as [|y ls IH]; simpl; [reflexivity | now rewrite IH]. Qed.

Lemma filter_notin_id l ls :
  ~ In l ls -> filter (fun c => negb (object_eqb c l)) ls = ls.
Proof.
  induction ls as [|y ls IH]; simpl; intros H; [reflexivity|].
  destruct (object_eqb y l) eqn:E; simpl.
  - apply object_eqb_eq in E. tauto.
  - f_equal. tauto.
Qed.

(* ===================================================================== *)
(** ** The aggregated pharmacology table *)
(* ===================================================================== *)

Lemma NoDup_map_Str ks : NoDup ks -> NoDup (map Str ks).
Proof.
  induction 1 as [|k ks Hk Hnd IH]; simpl; constructor; [|exact IH].
  rewrite in_map_iff. intros [k' [[= ->] Hin]]. contradiction.
Qed.

Lemma with_cas_norm_inv pharm_df df' :
  with_cas_norm pharm_df = Ok df' ->
  exists ids,
    series (Str "Ligand CAS RN") pharm_df = Ok ids
    /\ df' = setitem (Str "cas_norm") (cas_norm_of ids) pharm_df.
Proof.
  unfold with_cas_norm.
  destruct (series (Str "Ligand CAS RN") pharm_df) as [ids|e]; simpl;
    [|discriminate].
  intros [= <-]. eauto.
Qed.

Lemma remove_key_setitem l vals df ki :
  NoDup (columns df) ->
  index_of l (columns (setitem l vals df)) = Some ki ->
  remove_nth ki (columns (setitem l vals df))
  = filter (fun c => negb (object_eqb c l)) (columns df).
Proof.
  intros Hnd. unfold setitem.
  destruct (index_of l (columns df)) as [i|] eqn:E; simpl.
  - rewrite E. intros [= <-]. now apply remove_nth_filter.
  - rewrite (index_of_app_new _ _ E). intros [= <-].
    rewrite remove_nth_app_last. symmetry. apply filter_notin_id.
    now apply index_of_None.
Qed.

Lemma length_remove_nth {A} i (l : list A) :
  i < List.length l -> List.length (remove_nth i l) = List.length l - 1.
Proof.
  revert i. induction l as [|x l IH]; intros [|i]; simpl; try lia.
  intros H. rewrite IH by lia. lia.
Qed.

(** The aggregated table of a pharmacology table that has just received
    its [cas_norm] column. *)
Lemma aggregate_after_cas_norm pharm_df df' :
  rectangular pharm_df ->
  with_cas_norm pharm_df = Ok df' ->
  exists ids ki,
    series (Str "Ligand CAS RN") pharm_df = Ok ids
    /\ index_of (Str "cas_norm") (columns df') = Some ki
    /\ map (cell ki) (rows df') = cas_norm_of ids
    /\ aggregate_pharmacology_by_cas df'
       = Ok (mkDF (Str "cas_norm" :: remove_nth ki (columns df'))
               (map (fun k =>
                       Str k ::
                         remove_nth ki
                           (map (fun j =>
                                   agg_unique
                                     (map (cell j)
                                          (filter
                                             (fun r => object_eqb (cell ki r)
                                                                  (Str k))
                                             (rows df'))))
                                (seq 0 (List.length (columns df')))))
                    (sorted_set (map join_key ids)))).
Proof.
  intros Hrect Hw.
  destruct (with_cas_norm_inv _ _ Hw) as [ids [Hids ->]].
  assert (Hlen : List.length (cas_norm_of ids) = List.length (rows pharm_df)).
  { rewrite length_cas_norm_of. now apply length_series in Hids. }
  destruct (series_setitem (Str "cas_norm") _ _ Hrect Hlen)
    as [_ [ki [Hki Hcol]]].
  exists ids, ki. repeat split; try assumption.
  unfold aggregate_pharmacology_by_cas.
  rewrite index_of_mem, Hki. simpl.
  unfold groupby_agg. rewrite Hki, Hcol.
  rewrite cas_norm_of_map.
  change (map (fun c => Str (strip (str c))) ids)
    with (map (fun c => Str (join_key c)) ids).
  rewrite <- (map_map join_key Str), str_keys_map_Str. reflexivity.
Qed.

(** C4, as the code has it. [groupby] sorts its keys: the aggregated table
    lists the JoinKeys in strictly ascending order of their strings, each
    distinct JoinKey of the input once, whatever the order of the input
    rows. *)
Theorem C4_groups_in_ascending_key_order :
  forall pharm_df df' : DataFrame,
    well_formed pharm_df = true ->
    with_cas_norm pharm_df = Ok df' ->
    exists agg ids keys,
      series (Str "Ligand CAS RN") pharm_df = Ok ids
      /\ aggregate_pharmacology_by_cas df' = Ok agg
      /\ series (Str "cas_norm") agg = Ok (map Str keys)
      /\ StronglySorted str_lt keys
      /\ (forall k, In k keys <-> exists id, In id ids /\ join_key id = k).
Proof.
  intros pharm_df df' Hwf Hw.
  destruct (well_formed_true _ Hwf) as [_ Hrect].
  destruct (aggregate_after_cas_norm _ _ Hrect Hw)
    as [ids [ki [Hids [Hki [Hcol Hagg]]]]].
  eexists. exists ids, (sorted_set (map join_key ids)).
  split; [exact Hids|]. split; [exact Hagg|].
  split.
  { unfold series. cbn [columns rows index_of].
    rewrite object_eqb_refl. rewrite map_map. reflexivity. }
  split; [apply sorted_set_sorted|].
  intros k. rewrite in_sorted_set, in_map_iff.
  split; intros [id H]; exists id; tauto.
Qed.

(** C4, as stated, fails: the sheet lists ["B"] before ["A"], the
    aggregated table lists ["A"] before ["B"]. *)
Lemma C4_counterexample :
  (pharm_df <- load_pharmacology_excel sheet_b_a ;;
   pharm_df <- with_cas_norm pharm_df ;;
   series (Str "cas_norm") pharm_df)
  = Ok [Str "B"; Str "A"; Str "B"]
  /\ (agg <- aggregated sheet_b_a ;; series (Str "cas_norm") agg)
     = Ok [Str "A"; Str "B"]
  /\ [Str "A"; Str "B"] <> map Str (first_occurrences ["B"; "A"; "B"]).
Proof.
  split; [reflexivity|]. split; [reflexivity|]. discriminate.
Qed.

(** C5, as the code has it. The aggregated table has one row per distinct
    JoinKey; its columns are [cas_norm] followed by every column of the
    sheet in sheet order, the identifier column ["Ligand CAS RN"]
    included; only a sheet column that is itself labelled [cas_norm] is
    left out, line 189 having overwritten it. *)
Theorem C5_aggregated_shape :
  forall pharm_df df' : DataFrame,
    well_formed pharm_df = true ->
    with_cas_norm pharm_df = Ok df' ->
    exists agg ids,
      series (Str "Ligand CAS RN") pharm_df = Ok ids
      /\ aggregate_pharmacology_by_cas df' = Ok agg
      /\ columns agg
         = Str "cas_norm"
           :: filter (fun c => negb (object_eqb c (Str "cas_norm")))
                     (columns pharm_df)
      /\ In (Str "Ligand CAS RN") (columns agg)
      /\ rectangular agg
      /\ NoDup (map (cell 0) (rows agg))
      /\ (forall k, In (Str k) (map (cell 0) (rows agg)) <->
                    exists id, In id ids /\ join_key id = k)
      /\ List.length (rows agg) = List.length (sorted_set (map join_key ids)).
Proof.
  intros pharm_df df' Hwf Hw.
  destruct (well_formed_true _ Hwf) as [Hnd Hrect].
  destruct (aggregate_after_cas_norm _ _ Hrect Hw)
    as [ids [ki [Hids [Hki [Hcol Hagg]]]]].
  destruct (with_cas_norm_inv _ _ Hw) as [ids' [Hids' Hdf']].
  rewrite Hids in Hids'. injection Hids' as <-.
  eexists. exists ids.
  split; [exact Hids|]. split; [exact Hagg|].
  cbn [columns rows].
  assert (Hcols : remove_nth ki (columns df')
                  = filter (fun c => negb (object_eqb c (Str "cas_norm")))
                           (columns pharm_df)).
  { subst df'. now apply remove_key_setitem. }
  assert (Hkeys : map (cell 0)
                    (map (fun k =>
                       Str k ::
                         remove_nth ki
                           (map (fun j =>
                                   agg_unique
                                     (map (cell j)
                                          (filter
                                             (fun r => object_eqb (cell ki r)
                                                                  (Str k))
                                             (rows df'))))
                                (seq 0 (List.length (columns df')))))
                    (sorted_set (map join_key ids)))
                  = map Str (sorted_set (map join_key ids))).
  { rewrite map_map. reflexivity. }
  split; [now rewrite Hcols|].
  split.
  { right. rewrite Hcols. apply filter_In. split.
    - unfold series in Hids.
      destruct (index_of (Str "Ligand CAS RN") (columns pharm_df)) eqn:E;
        [|discriminate].
      apply index_of_Some in E. destruct E as [_ E].
      now apply nth_error_In in E.
    - reflexivity. }
  split.
  { unfold rectangular. cbn [columns rows]. apply Forall_forall.
    intros r Hr. apply in_map_iff in Hr. destruct Hr as [k [<- _]].
    pose proof (index_of_Some _ _ _ Hki) as [Hlt _].
    simpl. rewrite !length_remove_nth, length_map, length_seq; try lia.
    now rewrite length_map, length_seq. }
  rewrite Hkeys.
  split.
  { apply NoDup_map_Str, sorted_set_NoDup. }
  split.
  { intros k. rewrite in_map_iff. split.
    - intros [k' [[= ->] Hin]]. apply in_sorted_set, in_map_iff in Hin.
      destruct Hin as [id H]. exists id. tauto.
    - intros [id [Hin Hk]]. exists k. split; [reflexivity|].
      apply in_sorted_set, in_map_iff. exists id. tauto. }
  now rewrite length_map.
Qed.

(** C5, as stated, fails: the aggregated table of a sheet with the
    columns [Ligand CAS RN], [Parameter], [Value] keeps the identifier
    column. *)
Lemma C5_counterexample :
  (agg <- aggregated sheet_b_a ;; Ok (columns agg))
  = Ok [Str "cas_norm"; Str "Ligand CAS RN"; Str "Parameter"; Str "Value"]
  /\ (pharm_df <- load_pharmacology_excel sheet_b_a ;;
      Ok (columns_without_identifier pharm_df))
     = Ok [Str "cas_norm"; Str "Parameter"; Str "Value"]
  /\ (agg <- aggregated sheet_b_a ;; Ok (columns agg))
     <> (pharm_df <- load_pharmacology_excel sheet_b_a ;;
         Ok (columns_without_identifier pharm_df)).
Proof.
  split; [reflexivity|]. split; [reflexivity|]. discriminate.
Qed.

(* ===================================================================== *)
(** ** The SDF table *)
(* ===================================================================== *)

Lemma rectangular_from_records records : rectangular (from_records records).
Proof.
  unfold rectangular, from_records. cbn [columns rows].
  apply Forall_forall. intros r Hr. apply in_map_iff in Hr.
  destruct Hr as [d [<- _]]. now rewrite !length_map.
Qed.

Lemma length_sdf_rows all_mols :
  List.length (sdf_rows all_mols) = List.length all_mols.
Proof.
  unfold sdf_rows. rewrite length_map, length_combine, length_seq. lia.
Qed.

Lemma build_sdf_df_shape all_mols :
  let sdf_df := build_sdf_df all_mols in
  rectangular sdf_df
  /\ List.length (rows sdf_df) = List.length all_mols
  /\ Forall (fun c => exists s, c = Str s) (columns sdf_df)
  /\ In (Str "cas_norm") (columns sdf_df).
Proof.
  set (df0 := from_records (sdf_rows all_mols)).
  assert (H0 : rectangular df0) by apply rectangular_from_records.
  assert (L0 : List.length (rows df0) = List.length all_mols).
  { unfold df0, from_records. cbn [rows].
    now rewrite length_map, length_sdf_rows. }
  assert (S0 : Forall (fun c => exists s, c = Str s) (columns df0)).
  { unfold df0, from_records. cbn [columns]. apply Forall_forall.
    intros c Hc. apply in_map_iff in Hc. destruct Hc as [s [<- _]]. eauto. }
  assert (G : forall vals,
             List.length vals = List.length (rows df0) ->
             let df := setitem (Str "cas_norm") vals df0 in
             rectangular df
             /\ List.length (rows df) = List.length all_mols
             /\ Forall (fun c => exists s, c = Str s) (columns df)
             /\ In (Str "cas_norm") (columns df)).
  { intros vals Hlen df. unfold df.
    split; [now apply rectangular_setitem|].
    split; [now rewrite length_rows_setitem|].
    rewrite columns_setitem.
    destruct (mem (Str "cas_norm") (columns df0)) eqn:E.
    - split; [exact S0 | now apply mem_In].
    - split.
      + apply Forall_app. split; [exact S0|]. repeat constructor. eauto.
      + apply in_or_app. right. now left. }
  cbv zeta. unfold build_sdf_df. fold df0.
  destruct (series (Str "cas.rn") df0) as [cas_rn|e] eqn:E.
  - apply G. rewrite length_cas_norm_of. now apply length_series in E.
  - apply G. apply repeat_length.
Qed.

(* ===================================================================== *)
(** ** The left merge *)
(* ===================================================================== *)

Lemma append_empty_r s : (s ++ "")%string = s.
Proof. induction s as [|a s IH]; simpl; [reflexivity | now rewrite IH]. Qed.

Lemma new_duplicates_same l : new_duplicates l l = false.
Proof.
  unfold new_duplicates. generalize (duplicated l). intros d.
  induction d as [|b d IH]; simpl; [reflexivity|].
  rewrite IH. now destruct b.
Qed.

Lemma rename_empty_suffix (f : object -> bool) cols :
  Forall (fun c => exists s, c = Str s) cols ->
  map (fun c => if f c then Str (str c ++ "") else c) cols = cols.
Proof.
  induction 1 as [|c cols [s ->] _ IH]; simpl; [reflexivity|].
  rewrite IH, append_empty_r. now destruct (f (Str s)).
Qed.

Lemma object_eqb_Str s t : object_eqb (Str s) (Str t) = String.eqb s t.
Proof.
  destruct (String.eqb_spec s t) as [->|Hne].
  - apply object_eqb_refl.
  - apply object_eqb_neq. congruence.
Qed.

Lemma key_match_Str c k :
  key_match c (Str k)
  = match c with Str k0 => String.eqb k0 k | _ => false end.
Proof.
  unfold key_match.
  destruct c as [| |s|z]; cbn [isna andb]; rewrite orb_false_r;
    try (apply object_eqb_neq; discriminate).
  apply object_eqb_Str.
Qed.

(** In a table with one row per key, a key selects at most one row. *)
Lemma filter_unique_key (tailf : string -> list object) c ks :
  NoDup ks ->
  filter (fun rr => key_match c (cell 0 rr))
         (map (fun k => Str k :: tailf k) ks)
  = match c with
    | Str k => if existsb (String.eqb k) ks then [Str k :: tailf k] else []
    | _ => []
    end.
Proof.
  induction 1 as [|k ks Hk Hnd IH]; simpl.
  - destruct c as [| |s|z]; reflexivity.
  - unfold cell at 1. cbn [nth]. rewrite key_match_Str, IH.
    destruct c as [| |s|z]; try reflexivity.
    destruct (String.eqb_spec s k) as [->|Hne]; simpl.
    + destruct (existsb (String.eqb k) ks) eqn:E; [|reflexivity].
      apply existsb_eqb_In in E. contradiction.
    + reflexivity.
Qed.

(** The part of a merged row that comes from the aggregated table. *)
Lemma merge_left_one_row_per_key on lsuffix rsuffix left X tailf ks merged :
  NoDup ks ->
  merge_left on lsuffix rsuffix left
             (mkDF (on :: X) (map (fun k => Str k :: tailf k) ks))
  = Ok merged ->
  exists lk,
    index_of on (columns left) = Some lk
    /\ columns merged
       = map (fun c => if mem c (columns left) && mem c X
                       then Str (str c ++ lsuffix) else c) (columns left)
         ++ map (fun c => if mem c (columns left) && mem c X
                          then Str (str c ++ rsuffix) else c) X
    /\ rows merged
       = map (fun lr =>
                lr ++ match cell lk lr with
                      | Str k => if existsb (String.eqb k) ks then tailf k
                                 else repeat NaN (List.length X)
                      | _ => repeat NaN (List.length X)
                      end)
             (rows left).
Proof.
  intros Hnd. unfold merge_left. cbn [columns rows index_of].
  rewrite object_eqb_refl. cbn [remove_nth].
  destruct (index_of on (columns left)) as [lk|]; [|discriminate].
  match goal with
  | |- (if ?b then _ else _) = _ -> _ => destruct b; [discriminate|]
  end.
  intros [= <-]. exists lk. cbn [columns rows].
  split; [reflexivity|]. split; [reflexivity|].
  induction (rows left) as [|lr lrs IH]; [reflexivity|].
  cbn [flat_map map]. rewrite IH, (filter_unique_key tailf _ _ Hnd).
  destruct (cell lk lr) as [| |k|z]; try reflexivity.
  destruct (existsb (String.eqb k) ks); reflexivity.
Qed.

(* ===================================================================== *)
(** ** The full merged table *)
(* ===================================================================== *)

Lemma main_logic_tables files pharm sel merged p :
  main_logic files pharm sel = Ok (Tables merged p) ->
  let sdf_df := build_sdf_df (read_molecules files) in
  read_molecules files <> []
  /\ match pharm with
     | None => merged = sdf_df /\ p = None
     | Some raw =>
         exists pharm_df df' agg,
           load_pharmacology_excel raw = Ok pharm_df
           /\ with_cas_norm pharm_df = Ok df'
           /\ aggregate_pharmacology_by_cas df' = Ok agg
           /\ merge_left (Str "cas_norm") "" "_pharm" sdf_df agg = Ok merged
           /\ parameter_table sdf_df df' sel = Ok p
     end.
Proof.
  unfold main_logic. destruct files as [|f files]; [discriminate|].
  destruct (read_molecules (f :: files)) as [|ms all_mols] eqn:Em;
    [discriminate|].
  intros H. cbv zeta. split; [discriminate|].
  destruct pharm as [raw|].
  - destruct (load_pharmacology_excel raw) as [pharm_df|e] eqn:El;
      [|discriminate].
    cbn [bind] in H.
    destruct (with_cas_norm pharm_df) as [df'|e] eqn:Ew; [|discriminate].
    cbn [bind] in H.
    destruct (aggregate_pharmacology_by_cas df') as [agg|e] eqn:Ea;
      [|discriminate].
    cbn [bind] in H.
    destruct (merge_left (Str "cas_norm") "" "_pharm"
                (build_sdf_df (ms :: all_mols)) agg) as [m|e] eqn:Hm;
      [|discriminate].
    cbn [bind] in H.
    destruct (parameter_table (build_sdf_df (ms :: all_mols)) df' sel)
      as [q|e] eqn:Hq; [|discriminate].
    cbn [bind] in H. injection H as <- <-.
    exists pharm_df, df', agg. repeat split; assumption || reflexivity.
  - injection H as <- <-. auto.
Qed.

Lemma pharm_join_keys_loaded raw pharm_df ids :
  load_pharmacology_excel raw = Ok pharm_df ->
  series (Str "Ligand CAS RN") pharm_df = Ok ids ->
  pharm_join_keys (Some raw) = cas_norm_of ids.
Proof.
  intros Hl Hs. unfold pharm_join_keys. rewrite Hl. cbn [bind].
  now rewrite Hs.
Qed.

(** The full merged table of a run with a pharmacology sheet: the SDF
    table, each row followed by the aggregated values of its JoinKey or
    by [nan]s. *)
Lemma full_merge_shape files raw sel merged p pharm_df :
  load_pharmacology_excel raw = Ok pharm_df ->
  well_formed pharm_df = true ->
  main_logic files (Some raw) sel = Ok (Tables merged p) ->
  let sdf_df := build_sdf_df (read_molecules files) in
  let X := filter (fun c => negb (object_eqb c (Str "cas_norm")))
                  (columns pharm_df) in
  exists lk ids (tailf : string -> list object),
    index_of (Str "cas_norm") (columns sdf_df) = Some lk
    /\ series (Str "Ligand CAS RN") pharm_df = Ok ids
    /\ aggregated raw
       = Ok (mkDF (Str "cas_norm" :: X)
               (map (fun k => Str k :: tailf k)
                    (sorted_set (map join_key ids))))
    /\ (forall k, List.length (tailf k) = List.length X)
    /\ columns merged
       = columns sdf_df
         ++ map (fun c => if mem c (columns sdf_df)
                          then Str (str c ++ "_pharm") else c) X
    /\ rows merged
       = map (fun lr =>
                lr ++ match cell lk lr with
                      | Str k =>
                          if existsb (String.eqb k)
                                     (sorted_set (map join_key ids))
                          then tailf k
                          else repeat NaN (List.length X)
                      | _ => repeat NaN (List.length X)
                      end)
             (rows sdf_df).
Proof.
  intros Hl Hwf Hmain sdf_df X.
  destruct (main_logic_tables _ _ _ _ _ Hmain)
    as [_ [pharm_df0 [df' [agg [Hl' [Hw [Hagg [Hmerge _]]]]]]]].
  rewrite Hl in Hl'. injection Hl' as <-.
  destruct (well_formed_true _ Hwf) as [Hnd Hrect].
  destruct (aggregate_after_cas_norm _ _ Hrect Hw)
    as [ids [ki [Hids [Hki [Hcol Hagg']]]]].
  rewrite Hagg in Hagg'. injection Hagg' as ->.
  assert (HX : remove_nth ki (columns df') = X).
  { destruct (with_cas_norm_inv _ _ Hw) as [ids' [_ ->]].
    now apply remove_key_setitem. }
  rewrite HX in Hmerge, Hagg.
  apply merge_left_one_row_per_key in Hmerge; [|apply sorted_set_NoDup].
  destruct Hmerge as [lk [Hlk [Hc Hr]]].
  destruct (build_sdf_df_shape (read_molecules files)) as [_ [_ [Hstr _]]].
  fold sdf_df in Hlk, Hc, Hr, Hstr.
  eexists lk, ids, _. split; [exact Hlk|]. split; [exact Hids|].
  split.
  { unfold aggregated. rewrite Hl. cbn [bind]. rewrite Hw. cbn [bind].
    exact Hagg. }
  split; [|split; [|exact Hr]].
  - intros k. cbv beta.
    pose proof (index_of_Some _ _ _ Hki) as [Hlt _].
    rewrite length_remove_nth by (now rewrite length_map, length_seq).
    rewrite length_map, length_seq, <- HX.
    now rewrite length_remove_nth.
  - rewrite Hc, (rename_empty_suffix _ _ Hstr). f_equal.
    apply map_ext_in. intros c Hc'.
    apply mem_In in Hc'. rewrite Hc'. now rewrite andb_true_r.
Qed.

Lemma firstn_length_app {A} (l l' : list A) :
  firstn (List.length l) (l ++ l') = l.
Proof. induction l as [|x l IH]; simpl; [reflexivity | now rewrite IH]. Qed.

Lemma skipn_length_app {A} (l l' : list A) :
  skipn (List.length l) (l ++ l') = l'.
Proof. induction l as [|x l IH]; simpl; [reflexivity | exact IH]. Qed.

Lemma Forall2_map_r {A B} (R : A -> B -> Prop) (f : A -> B) l :
  (forall x, In x l -> R x (f x)) -> Forall2 R l (map f l).
Proof.
  induction l as [|x l IH]; intros H; simpl; constructor.
  - apply H. now left.
  - apply IH. intros y Hy. apply H. now right.
Qed.

Lemma Forall_repeat {A} (P : A -> Prop) x n : P x -> Forall P (repeat x n).
Proof. intros H. induction n; simpl; constructor; auto. Qed.

(** C6. The full merged table has one row per record row, in the same
    order, whatever the pharmacology sheet holds: each row starts with
    the cells of its record row, and a record row whose JoinKey is the
    JoinKey of no pharmacology row has a null in every pharmacology
    column. *)
Theorem C6_left_join_cardinality :
  forall (files : list upload) (pharm : option sheet)
         (sel : option string) (merged : DataFrame) (p : option DataFrame),
    sheet_well_formed pharm = true ->
    main_logic files pharm sel = Ok (Tables merged p) ->
    let all_mols := read_molecules files in
    let sdf_df := build_sdf_df all_mols in
    List.length (rows merged) = List.length all_mols
    /\ Forall2
         (fun record row =>
            firstn (List.length record) row = record
            /\ (~ In (record_key sdf_df record) (pharm_join_keys pharm) ->
                Forall (fun c => isna c = true)
                       (skipn (List.length record) row)))
         (rows sdf_df) (rows merged)
    /\ rectangular merged.
Proof.
  intros files pharm sel merged p Hwf Hmain all_mols sdf_df.
  destruct (build_sdf_df_shape all_mols) as [Hrect [Hlen [_ _]]].
  fold sdf_df in Hrect, Hlen.
  destruct pharm as [raw|].
  - pose proof (main_logic_tables _ _ _ _ _ Hmain)
      as [_ [pharm_df [df' [agg H]]]].
    destruct H as [Hl _].
    unfold sheet_well_formed in Hwf. rewrite Hl in Hwf.
    destruct (full_merge_shape _ _ _ _ _ _ Hl Hwf Hmain)
      as [lk [ids [tailf [Hlk [Hids [Hagg [Htail [Hc Hr]]]]]]]].
    fold all_mols in Hlk, Hc, Hr. fold sdf_df in Hlk, Hc, Hr.
    rewrite Hr.
    split; [now rewrite length_map|].
    split.
    + apply Forall2_map_r. intros lr Hin.
      rewrite firstn_length_app, skipn_length_app.
      split; [reflexivity|]. intros Hun.
      unfold record_key in Hun. rewrite Hlk in Hun.
      rewrite (pharm_join_keys_loaded _ _ _ Hl Hids), cas_norm_of_map in Hun.
      destruct (cell lk lr) as [| |k|z];
        try (apply Forall_repeat; reflexivity).
      destruct (existsb (String.eqb k) (sorted_set (map join_key ids)))
        eqn:E; [|apply Forall_repeat; reflexivity].
      exfalso. apply Hun.
      apply existsb_eqb_In, in_sorted_set, in_map_iff in E.
      destruct E as [id [<- Hid]].
      apply in_map_iff. exists id. auto.
    + unfold rectangular. rewrite Hc, Hr. apply Forall_forall.
      intros row Hrow. apply in_map_iff in Hrow.
      destruct Hrow as [lr [<- Hin]].
      unfold rectangular in Hrect. rewrite Forall_forall in Hrect.
      rewrite !length_app, length_map, (Hrect _ Hin). f_equal.
      destruct (cell lk lr) as [| |k|z]; try apply repeat_length.
      destruct (existsb (String.eqb k) (sorted_set (map join_key ids)));
        [apply Htail | apply repeat_length].
  - pose proof (main_logic_tables _ _ _ _ _ Hmain) as [_ [-> _]].
    fold all_mols. fold sdf_df.
    split; [exact Hlen|]. split; [|exact Hrect].
    rewrite <- (map_id (rows sdf_df)) at 2.
    apply Forall2_map_r. intros lr _.
    rewrite firstn_all, skipn_all. split; [reflexivity | constructor].
Qed.

(** C9. In the full merged table the columns of the SDF table come first,
    with their labels and cells as they are in the SDF table; the columns
    of the sheet follow, and one whose label is also a label of the SDF
    table carries that label with ["_pharm"] appended. *)
Theorem C9_record_columns_kept :
  forall (files : list upload) (raw : sheet) (sel : option string)
         (merged : DataFrame) (p : option DataFrame) (pharm_df : DataFrame),
    load_pharmacology_excel raw = Ok pharm_df ->
    well_formed pharm_df = true ->
    main_logic files (Some raw) sel = Ok (Tables merged p) ->
    let sdf_df := build_sdf_df (read_molecules files) in
    let n := List.length (columns sdf_df) in
    firstn n (columns merged) = columns sdf_df
    /\ map (firstn n) (rows merged) = rows sdf_df
    /\ skipn n (columns merged)
       = map (fun c => if mem c (columns sdf_df)
                       then Str (str c ++ "_pharm") else c)
             (filter (fun c => negb (object_eqb c (Str "cas_norm")))
                     (columns pharm_df)).
Proof.
  intros files raw sel merged p pharm_df Hl Hwf Hmain sdf_df n.
  destruct (full_merge_shape _ _ _ _ _ _ Hl Hwf Hmain)
    as [lk [ids [tailf [Hlk [Hids [Hagg [Htail [Hc Hr]]]]]]]].
  fold sdf_df in Hlk, Hc, Hr.
  destruct (build_sdf_df_shape (read_molecules files)) as [Hrect _].
  fold sdf_df in Hrect.
  rewrite Hc, Hr. unfold n.
  split; [apply firstn_length_app|].
  split; [|apply skipn_length_app].
  rewrite map_map. rewrite <- (map_id (rows sdf_df)) at 2.
  apply map_ext_in. intros lr Hin.
  unfold rectangular in Hrect. rewrite Forall_forall in Hrect.
  rewrite <- (Hrect _ Hin). apply firstn_length_app.
Qed.

(* ===================================================================== *)
(** ** The parameter-focused table *)
(* ===================================================================== *)

Lemma boolean_index_map (f : list object -> bool) df :
  boolean_index (map f (rows df)) df = mkDF (columns df) (filter f (rows df)).
Proof.
  unfold boolean_index. f_equal.
  induction (rows df) as [|r rs IH]; simpl; [reflexivity|].
  destruct (f r); simpl; now rewrite IH.
Qed.

Lemma combine_map_map {A B C} (f : A -> B) (g : A -> C) l :
  combine (map f l) (map g l) = map (fun x => (f x, g x)) l.
Proof. induction l as [|x l IH]; simpl; [reflexivity | now rewrite IH]. Qed.

Lemma filter_flat_map {A B} (f : B -> bool) (g : A -> list B) l :
  filter f (flat_map g l) = flat_map (fun x => filter f (g x)) l.
Proof.
  induction l as [|x l IH]; simpl; [reflexivity|].
  now rewrite filter_app, IH.
Qed.

Lemma map_flat_map {A B C} (f : B -> C) (g : A -> list B) l :
  map f (flat_map g l) = flat_map (fun x => map f (g x)) l.
Proof.
  induction l as [|x l IH]; simpl; [reflexivity|].
  now rewrite map_app, IH.
Qed.

Lemma filter_filter {A} (f g : A -> bool) l :
  filter f (filter g l) = filter (fun x => g x && f x) l.
Proof.
  induction l as [|x l IH]; simpl; [reflexivity|].
  destruct (g x); simpl; [destruct (f x); simpl|]; now rewrite IH.
Qed.

Lemma flat_map_ext_in {A B} (f g : A -> list B) l :
  (forall x, In x l -> f x = g x) -> flat_map f l = flat_map g l.
Proof.
  induction l as [|x l IH]; intros H; simpl; [reflexivity|].
  rewrite (H x (or_introl eq_refl)), IH; [reflexivity|].
  intros y Hy. apply H. now right.
Qed.

(** [sdf_df[base_cols]] *)
Lemma select_base_cols df left :
  select base_cols df = Ok left ->
  exists i0 i1 i2 i3,
    index_of (Str "SMILES") (columns df) = Some i0
    /\ index_of (Str "cas.index.name") (columns df) = Some i1
    /\ index_of (Str "cas.rn") (columns df) = Some i2
    /\ index_of (Str "cas_norm") (columns df) = Some i3
    /\ left = mkDF base_cols
                (map (fun r => [cell i0 r; cell i1 r; cell i2 r; cell i3 r])
                     (rows df)).
Proof.
  unfold select, base_cols, positions.
  destruct (index_of (Str "SMILES") (columns df)) as [i0|]; [|discriminate].
  destruct (index_of (Str "cas.index.name") (columns df)) as [i1|];
    [|discriminate].
  destruct (index_of (Str "cas.rn") (columns df)) as [i2|]; [|discriminate].
  destruct (index_of (Str "cas_norm") (columns df)) as [i3|]; [|discriminate].
  cbn [bind]. intros [= <-]. exists i0, i1, i2, i3. auto.
Qed.

(** [pharm_param[["cas_norm", "Parameter", "Value"]]] *)
Lemma select_measurement_cols df right :
  select [Str "cas_norm"; Str "Parameter"; Str "Value"] df = Ok right ->
  exists j0 j1 j2,
    index_of (Str "cas_norm") (columns df) = Some j0
    /\ index_of (Str "Parameter") (columns df) = Some j1
    /\ index_of (Str "Value") (columns df) = Some j2
    /\ right = mkDF [Str "cas_norm"; Str "Parameter"; Str "Value"]
                 (map (fun r => [cell j0 r; cell j1 r; cell j2 r]) (rows df)).
Proof.
  unfold select, positions.
  destruct (index_of (Str "cas_norm") (columns df)) as [j0|]; [|discriminate].
  destruct (index_of (Str "Parameter") (columns df)) as [j1|];
    [|discriminate].
  destruct (index_of (Str "Value") (columns df)) as [j2|]; [|discriminate].
  cbn [bind]. intros [= <-]. exists j0, j1, j2. auto.
Qed.

Lemma surviving_pairs a b c d (M : list (list object)) :
  (forall rr, In rr M -> exists k pa va, rr = [k; pa; va]) ->
  filter (fun r => notna (cell 3 r) && notna (cell 4 r))
         (map (remove_nth 3)
              (map (fun rr => [a; b; c; d] ++ remove_nth 0 rr) M))
  = map (fun rr => firstn 3 [a; b; c; d] ++ skipn 1 rr)
        (filter (fun rr => notna (cell 1 rr) && notna (cell 2 rr)) M).
Proof.
  induction M as [|rr M IH]; intros H; [reflexivity|].
  destruct (H rr (or_introl eq_refl)) as [k [pa [va ->]]].
  cbn [map filter].
  change (cell 3 (remove_nth 3 ([a; b; c; d] ++ remove_nth 0 [k; pa; va])))
    with pa.
  change (cell 4 (remove_nth 3 ([a; b; c; d] ++ remove_nth 0 [k; pa; va])))
    with va.
  change (cell 1 [k; pa; va]) with pa.
  change (cell 2 [k; pa; va]) with va.
  rewrite IH by (intros rr' Hrr'; apply H; now right).
  destruct (notna pa && notna va); reflexivity.
Qed.

(** Lines 224-237 on the two projected tables: the rows that survive are
    the pairs of a ligand row and a measurement row with matching keys
    and non-null [Parameter] and [Value]. *)
Lemma join_parameter_rows (A B : Type) (lrows : list A) (rrows : list B)
      (lf : A -> list object) (rf : B -> list object) :
  (forall x, exists a b c d, lf x = [a; b; c; d]) ->
  (forall y, exists k pa va, rf y = [k; pa; va]) ->
  (param_df_export <-
     merge_left (Str "cas_norm") "_x" "_y"
       (mkDF base_cols (map lf lrows))
       (mkDF [Str "cas_norm"; Str "Parameter"; Str "Value"] (map rf rrows)) ;;
   param_df_export <- drop (Str "cas_norm") param_df_export ;;
   parameter <- series (Str "Parameter") param_df_export ;;
   value <- series (Str "Value") param_df_export ;;
   Ok (boolean_index
         (map (fun pv => notna (fst pv) && notna (snd pv))
              (combine parameter value))
         param_df_export))
  = Ok (mkDF [Str "SMILES"; Str "cas.index.name"; Str "cas.rn";
              Str "Parameter"; Str "Value"]
          (flat_map
             (fun lr =>
                map (fun rr => firstn 3 lr ++ skipn 1 rr)
                    (filter (fun rr => key_match (cell 3 lr) (cell 0 rr)
                                       && (notna (cell 1 rr)
                                           && notna (cell 2 rr)))
                            (map rf rrows)))
             (map lf lrows))).
Proof.
  intros Hl Hr.
  unfold merge_left. cbn [columns rows].
  change (index_of (Str "cas_norm") base_cols) with (Some 3).
  change (index_of (Str "cas_norm")
            [Str "cas_norm"; Str "Parameter"; Str "Value"]) with (Some 0).
  cbv iota beta.
  change (remove_nth 0 [Str "cas_norm"; Str "Parameter"; Str "Value"])
    with [Str "Parameter"; Str "Value"].
  cbv zeta.
  match goal with
  | |- context [if ?b then Raise MergeError else _] =>
      change b with false
  end.
  cbv iota. cbn [bind].
  unfold drop. cbn [columns rows].
  match goal with
  | |- context [index_of (Str "cas_norm") ?l] =>
      change (index_of (Str "cas_norm") l) with (Some 3)
  end.
  cbv iota. cbn [bind].
  unfold series. cbn [columns rows].
  match goal with
  | |- context [index_of (Str "Parameter") ?l] =>
      change (index_of (Str "Parameter") l) with (Some 3)
  end.
  cbv iota. cbn [bind].
  match goal with
  | |- context [index_of (Str "Value") ?l] =>
      change (index_of (Str "Value") l) with (Some 4)
  end.
  cbv iota. cbn [bind].
  rewrite combine_map_map, map_map.
  match goal with
  | |- Ok (boolean_index (map ?f ?R) (mkDF ?C ?R)) = _ =>
      change (boolean_index (map f R) (mkDF C R))
        with (boolean_index
                (map (fun r => notna (cell 3 r) && notna (cell 4 r))
                     (rows (mkDF C R)))
                (mkDF C R));
      rewrite (boolean_index_map
                 (fun r => notna (cell 3 r) && notna (cell 4 r)) (mkDF C R))
  end.
  cbn [columns rows]. f_equal. f_equal.
  rewrite map_flat_map, filter_flat_map.
  apply flat_map_ext_in. intros lr Hlr.
  apply in_map_iff in Hlr. destruct Hlr as [x [<- _]].
  destruct (Hl x) as [a [b [c [d ->]]]].
  rewrite <- (filter_filter
                (fun rr => notna (cell 1 rr) && notna (cell 2 rr))
                (fun rr => key_match (cell 3 [a; b; c; d]) (cell 0 rr))).
  assert (Hshape : forall rr,
             In rr (filter (fun rr => key_match (cell 3 [a; b; c; d])
                                                (cell 0 rr))
                           (map rf rrows)) ->
             exists k pa va, rr = [k; pa; va]).
  { intros rr Hrr. apply filter_In in Hrr. destruct Hrr as [Hrr _].
    apply in_map_iff in Hrr. destruct Hrr as [y [<- _]]. apply Hr. }
  rewrite <- (surviving_pairs a b c d _ Hshape).
  destruct (filter (fun rr => key_match (cell 3 [a; b; c; d]) (cell 0 rr))
                   (map rf rrows)) as [|m ms]; reflexivity.
Qed.

Section MissingBaseCols.

Lemma combine_repeat {A B} (l : list A) (v : B) :
  combine l (repeat v (List.length l)) = map (fun x => (x, v)) l.
Proof. induction l as [|x l IH]; simpl; [reflexivity | now rewrite IH]. Qed.

Lemma add_col_new df col :
  mem col (columns df) = false ->
  add_col df col
  = mkDF (columns df ++ [col]) (map (fun r => r ++ [PyNone]) (rows df)).
Proof.
  intros H. unfold add_col. rewrite H.
  unfold setitem_scalar, setitem.
  rewrite index_of_mem in H.
  destruct (index_of col (columns df)); [discriminate|].
  now rewrite combine_repeat, map_map.
Qed.

Lemma add_col_old df col :
  mem col (columns df) = true -> add_col df col = df.
Proof. intros H. unfold add_col. now rewrite H. Qed.

Lemma rectangular_add_col df col :
  rectangular df -> rectangular (add_col df col).
Proof.
  intros H. unfold add_col. destruct (mem col (columns df)); [exact H|].
  now apply rectangular_setitem.
Qed.

Lemma mem_add_col_self df col : mem col (columns (add_col df col)) = true.
Proof.
  destruct (mem col (columns df)) eqn:E.
  - now rewrite add_col_old.
  - rewrite add_col_new by exact E. cbn [columns].
    apply mem_In, in_or_app. right. now left.
Qed.

Lemma mem_add_col_kept df col x :
  mem x (columns df) = true -> mem x (columns (add_col df col)) = true.
Proof.
  intros H. destruct (mem col (columns df)) eqn:E.
  - now rewrite add_col_old.
  - rewrite add_col_new by exact E. cbn [columns].
    apply mem_In, in_or_app. left. now apply mem_In.
Qed.

Lemma mem_add_col_other df col x :
  x <> col -> mem x (columns df) = false ->
  mem x (columns (add_col df col)) = false.
Proof.
  intros Hne H. destruct (mem col (columns df)) eqn:E.
  - now rewrite add_col_old.
  - rewrite add_col_new by exact E. cbn [columns].
    apply mem_false. rewrite in_app_iff. simpl.
    apply mem_false in H. intuition congruence.
Qed.

Lemma column_is_none_created df col :
  rectangular df -> mem col (columns df) = false ->
  column_is_none (add_col df col) col.
Proof.
  intros Hrect H. rewrite add_col_new by exact H.
  exists (List.length (columns df)). cbn [columns rows]. split.
  - apply index_of_app_new. rewrite index_of_mem in H.
    now destruct (index_of col (columns df)).
  - apply Forall_forall. intros r Hr. apply in_map_iff in Hr.
    destruct Hr as [r0 [<- Hin]].
    unfold rectangular in Hrect. rewrite Forall_forall in Hrect.
    rewrite <- (Hrect _ Hin). apply cell_app_last.
Qed.

Lemma column_is_none_kept df col x :
  rectangular df -> column_is_none df x ->
  column_is_none (add_col df col) x.
Proof.
  intros Hrect [i [Hi Hall]]. destruct (mem col (columns df)) eqn:E.
  - rewrite add_col_old by exact E. exists i. auto.
  - rewrite add_col_new by exact E. exists i. cbn [columns rows]. split.
    + now apply index_of_app_l.
    + apply Forall_forall. intros r Hr. apply in_map_iff in Hr.
      destruct Hr as [r0 [<- Hin]].
      unfold rectangular in Hrect. rewrite Forall_forall in Hrect, Hall.
      rewrite cell_app_l; [now apply Hall|].
      rewrite (Hrect _ Hin). now apply index_of_Some in Hi.
Qed.

Lemma rectangular_fold_add_col cs df :
  rectangular df -> rectangular (fold_left add_col cs df).
Proof.
  revert df. induction cs as [|c cs IH]; intros df H; simpl; [exact H|].
  now apply IH, rectangular_add_col.
Qed.

Lemma mem_fold_add_col_kept cs df x :
  mem x (columns df) = true ->
  mem x (columns (fold_left add_col cs df)) = true.
Proof.
  revert df. induction cs as [|c cs IH]; intros df H; simpl; [exact H|].
  now apply IH, mem_add_col_kept.
Qed.

Lemma mem_fold_add_col cs df x :
  In x cs -> mem x (columns (fold_left add_col cs df)) = true.
Proof.
  revert df. induction cs as [|c cs IH]; intros df H; simpl;
    [contradiction|].
  destruct H as [->|H]; [|now apply IH].
  apply mem_fold_add_col_kept, mem_add_col_self.
Qed.

Lemma column_is_none_fold_kept cs df x :
  rectangular df -> column_is_none df x ->
  column_is_none (fold_left add_col cs df) x.
Proof.
  revert df. induction cs as [|c cs IH]; intros df Hr H; simpl; [exact H|].
  apply IH; [now apply rectangular_add_col|].
  now apply column_is_none_kept.
Qed.

Lemma column_is_none_fold cs df x :
  rectangular df -> In x cs -> mem x (columns df) = false ->
  column_is_none (fold_left add_col cs df) x.
Proof.
  revert df. induction cs as [|c cs IH]; intros df Hr Hin Hm; simpl;
    [contradiction|].
  destruct (object_eq_dec c x) as [->|Hne].
  - apply column_is_none_fold_kept; [now apply rectangular_add_col|].
    now apply column_is_none_created.
  - destruct Hin as [->|Hin]; [contradiction|].
    apply IH; [now apply rectangular_add_col | exact Hin|].
    apply mem_add_col_other; [congruence | exact Hm].
Qed.

(** Lines 220-222 give the SDF table every column of [base_cols]; one
    that was missing holds [None] in every row. *)
Lemma add_missing_base_cols_spec sdf_df :
  rectangular sdf_df ->
  rectangular (add_missing_base_cols sdf_df)
  /\ (forall col, In col base_cols ->
                  mem col (columns (add_missing_base_cols sdf_df)) = true)
  /\ (forall col, In col base_cols -> mem col (columns sdf_df) = false ->
                  column_is_none (add_missing_base_cols sdf_df) col).
Proof.
  intros Hrect. unfold add_missing_base_cols.
  split; [now apply rectangular_fold_add_col|].
  split.
  - intros col Hin. now apply mem_fold_add_col.
  - intros col Hin Hm. now apply column_is_none_fold.
Qed.

End MissingBaseCols.

Lemma positions_total ls cols :
  (forall l, In l ls -> mem l cols = true) ->
  exists ps, positions ls cols = Ok ps.
Proof.
  induction ls as [|l ls IH]; intros H; simpl; [eauto|].
  assert (Hl : mem l cols = true) by (apply H; now left).
  rewrite index_of_mem in Hl.
  destruct (index_of l cols) as [i|]; [|discriminate].
  destruct IH as [ps ->]; [intros x Hx; apply H; now right|].
  cbn [bind]. eauto.
Qed.

(** The projection of line 224 never fails, whatever columns the SDF
    table has. *)
Lemma ligand_identity_total sdf_df :
  rectangular sdf_df -> exists left, ligand_identity sdf_df = Ok left.
Proof.
  intros Hrect. unfold ligand_identity, select.
  destruct (add_missing_base_cols_spec sdf_df Hrect) as [_ [Hmem _]].
  destruct (positions_total base_cols _ Hmem) as [ps ->].
  cbn [bind]. eauto.
Qed.

Lemma join_parameter_shape sdf_df pharm_param p :
  join_parameter sdf_df pharm_param = Ok p ->
  exists left right,
    ligand_identity sdf_df = Ok left
    /\ select [Str "cas_norm"; Str "Parameter"; Str "Value"] pharm_param
       = Ok right
    /\ p = mkDF [Str "SMILES"; Str "cas.index.name"; Str "cas.rn";
                 Str "Parameter"; Str "Value"]
             (flat_map
                (fun lr =>
                   map (fun rr => firstn 3 lr ++ skipn 1 rr)
                       (filter (fun rr => key_match (cell 3 lr) (cell 0 rr)
                                          && (notna (cell 1 rr)
                                              && notna (cell 2 rr)))
                               (rows right)))
                (rows left)).
Proof.
  unfold join_parameter, ligand_identity.
  destruct (select base_cols (add_missing_base_cols sdf_df)) as [left|e]
    eqn:El; [|discriminate].
  cbn [bind].
  destruct (select [Str "cas_norm"; Str "Parameter"; Str "Value"] pharm_param)
    as [right|e] eqn:Er; [|discriminate].
  cbn [bind].
  destruct (select_base_cols _ _ El) as [i0 [i1 [i2 [i3 [_ [_ [_ [_ ->]]]]]]]].
  destruct (select_measurement_cols _ _ Er) as [j0 [j1 [j2 [_ [_ [_ ->]]]]]].
  rewrite join_parameter_rows by (intros; eauto).
  intros [= <-]. eauto.
Qed.

Lemma join_parameter_total sdf_df pharm_param right :
  rectangular sdf_df ->
  select [Str "cas_norm"; Str "Parameter"; Str "Value"] pharm_param
  = Ok right ->
  exists p, join_parameter sdf_df pharm_param = Ok p.
Proof.
  intros Hrect Er.
  destruct (ligand_identity_total sdf_df Hrect) as [left El].
  unfold join_parameter. unfold ligand_identity in El. rewrite El, Er.
  cbn [bind].
  destruct (select_base_cols _ _ El) as [i0 [i1 [i2 [i3 [_ [_ [_ [_ ->]]]]]]]].
  destruct (select_measurement_cols _ _ Er) as [j0 [j1 [j2 [_ [_ [_ ->]]]]]].
  rewrite join_parameter_rows by (intros; eauto). eauto.
Qed.

Lemma ligand_identity_rows sdf_df left :
  ligand_identity sdf_df = Ok left ->
  columns left = base_cols
  /\ forall lr, In lr (rows left) -> exists a b c d, lr = [a; b; c; d].
Proof.
  unfold ligand_identity. intros H.
  destruct (select_base_cols _ _ H) as [i0 [i1 [i2 [i3 [_ [_ [_ [_ ->]]]]]]]].
  split; [reflexivity|]. cbn [rows]. intros lr Hlr.
  apply in_map_iff in Hlr. destruct Hlr as [r [<- _]]. eauto.
Qed.

Lemma measurement_rows pharm_param right :
  select [Str "cas_norm"; Str "Parameter"; Str "Value"] pharm_param
  = Ok right ->
  forall rr, In rr (rows right) -> exists k pa va, rr = [k; pa; va].
Proof.
  intros H. destruct (select_measurement_cols _ _ H)
    as [j0 [j1 [j2 [_ [_ [_ ->]]]]]].
  cbn [rows]. intros rr Hrr.
  apply in_map_iff in Hrr. destruct Hrr as [r [<- _]]. eauto.
Qed.

(** A column of [base_cols] that the SDF table lacks is a column of
    [None] in the projection of line 224. *)
Lemma ligand_identity_none sdf_df left i col :
  rectangular sdf_df ->
  ligand_identity sdf_df = Ok left ->
  nth_error base_cols i = Some col ->
  mem col (columns sdf_df) = false ->
  Forall (fun lr => cell i lr = PyNone) (rows left).
Proof.
  intros Hrect Hl Hi Hm.
  destruct (add_missing_base_cols_spec sdf_df Hrect) as [_ [_ Hnone]].
  assert (Hin : In col base_cols) by (eapply nth_error_In; eauto).
  destruct (Hnone col Hin Hm) as [ic [Hic Hall]].
  unfold ligand_identity in Hl.
  destruct (select_base_cols _ _ Hl)
    as [i0 [i1 [i2 [i3 [H0 [H1 [H2 [H3 ->]]]]]]]].
  cbn [rows]. apply Forall_forall. intros lr Hlr.
  apply in_map_iff in Hlr. destruct Hlr as [r [<- Hr]].
  rewrite Forall_forall in Hall. specialize (Hall r Hr).
  destruct i as [|[|[|[|i]]]]; cbn in Hi.
  - injection Hi as <-. rewrite H0 in Hic. injection Hic as <-. exact Hall.
  - injection Hi as <-. rewrite H1 in Hic. injection Hic as <-. exact Hall.
  - injection Hi as <-. rewrite H2 in Hic. injection Hic as <-. exact Hall.
  - injection Hi as <-. rewrite H3 in Hic. injection Hic as <-. exact Hall.
  - destruct i; discriminate.
Qed.

Lemma parameter_table_some sdf_df df' sel p :
  parameter_table sdf_df df' sel = Ok (Some p) ->
  exists s pharm_param,
    sel = Some s
    /\ select_parameter s df' = Ok pharm_param
    /\ rows pharm_param <> []
    /\ join_parameter sdf_df pharm_param = Ok p.
Proof.
  unfold parameter_table. destruct sel as [[|a s]|]; try discriminate.
  destruct (mem (Str "Parameter") (columns df')
            && mem (Str "Value") (columns df')); [|discriminate].
  destruct (select_parameter (String a s) df') as [pharm_param|e] eqn:Es;
    [|discriminate].
  cbn [bind]. destruct (rows pharm_param) as [|r rs] eqn:Er; [discriminate|].
  destruct (join_parameter sdf_df pharm_param) as [q|e] eqn:Ej;
    [|discriminate].
  cbn [bind]. intros [= <-]. exists (String a s), pharm_param.
  rewrite Er. split; [reflexivity|]. split; [exact Es|].
  split; [discriminate | exact Ej].
Qed.

(** The parameter-focused table of a run, in terms of the two tables it
    joins. *)
Lemma parameter_table_of_run files raw sel merged p :
  main_logic files (Some raw) sel = Ok (Tables merged (Some p)) ->
  exists s left right,
    sel = Some s
    /\ ligand_identity (build_sdf_df (read_molecules files)) = Ok left
    /\ measurements raw s = Ok right
    /\ p = mkDF [Str "SMILES"; Str "cas.index.name"; Str "cas.rn";
                 Str "Parameter"; Str "Value"]
             (flat_map
                (fun lr =>
                   map (fun rr => firstn 3 lr ++ skipn 1 rr)
                       (filter (fun rr => key_match (cell 3 lr) (cell 0 rr)
                                          && (notna (cell 1 rr)
                                              && notna (cell 2 rr)))
                               (rows right)))
                (rows left)).
Proof.
  intros Hmain.
  destruct (main_logic_tables _ _ _ _ _ Hmain)
    as [_ [pharm_df [df' [agg [Hl [Hw [_ [_ Hp]]]]]]]].
  destruct (parameter_table_some _ _ _ _ Hp) as [s [pharm_param H]].
  destruct H as [-> [Hsel [_ Hjoin]]].
  destruct (join_parameter_shape _ _ _ Hjoin) as [left [right [Hleft [Hr ->]]]].
  exists s, left, right. split; [reflexivity|]. split; [exact Hleft|].
  split; [|reflexivity].
  unfold measurements. rewrite Hl. cbn [bind]. rewrite Hw. cbn [bind].
  rewrite Hsel. cbn [bind]. exact Hr.
Qed.

(** C1, as the code has it. The parameter-focused table lists, for every
    ligand row in order, the measurement rows of the selected parameter
    whose JoinKey is the ligand's and whose [Parameter] and [Value] are
    not null, one output row per such pair: a measurement without ligand
    gives no row, one shared by several ligands gives several.  No row of
    the table has a null [Parameter] or [Value]. *)
Theorem C1_one_row_per_matching_pair :
  forall (files : list upload) (raw : sheet) (sel : option string)
         (merged p : DataFrame),
    sheet_well_formed (Some raw) = true ->
    main_logic files (Some raw) sel = Ok (Tables merged (Some p)) ->
    exists s left right,
      sel = Some s
      /\ ligand_identity (build_sdf_df (read_molecules files)) = Ok left
      /\ measurements raw s = Ok right
      /\ rows p
         = flat_map
             (fun lr =>
                map (fun rr => firstn 3 lr ++ skipn 1 rr)
                    (filter (fun rr => key_match (cell 3 lr) (cell 0 rr)
                                       && (notna (cell 1 rr)
                                           && notna (cell 2 rr)))
                            (rows right)))
             (rows left)
      /\ Forall (fun row => isna (cell 3 row) = false
                            /\ isna (cell 4 row) = false) (rows p).
Proof.
  intros files raw sel merged p _ Hmain.
  destruct (parameter_table_of_run _ _ _ _ _ Hmain)
    as [s [left [right [-> [Hleft [Hright ->]]]]]].
  exists s, left, right. repeat split; try assumption.
  cbn [rows]. apply Forall_forall. intros row Hrow.
  apply in_flat_map in Hrow. destruct Hrow as [lr [Hlr Hrow]].
  apply in_map_iff in Hrow. destruct Hrow as [rr [<- Hrr]].
  apply filter_In in Hrr. destruct Hrr as [Hrr Hkeep].
  destruct (ligand_identity_rows _ _ Hleft) as [_ Hshape].
  destruct (Hshape lr Hlr) as [a [b [c [d ->]]]].
  assert (Hr : exists k pa va, rr = [k; pa; va]).
  { unfold measurements in Hright.
    destruct (load_pharmacology_excel raw) as [pharm_df|e]; [|discriminate].
    cbn [bind] in Hright.
    destruct (with_cas_norm pharm_df) as [df'|e]; [|discriminate].
    cbn [bind] in Hright.
    destruct (select_parameter s df') as [pharm_param|e]; [|discriminate].
    cbn [bind] in Hright.
    eapply measurement_rows; eauto. }
  destruct Hr as [k [pa [va ->]]].
  apply andb_true_iff in Hkeep. destruct Hkeep as [_ Hkeep].
  apply andb_true_iff in Hkeep. destruct Hkeep as [Hpa Hva].
  change (cell 1 [k; pa; va]) with pa in Hpa.
  change (cell 2 [k; pa; va]) with va in Hva.
  change (cell 3 (firstn 3 [a; b; c; d] ++ skipn 1 [k; pa; va])) with pa.
  change (cell 4 (firstn 3 [a; b; c; d] ++ skipn 1 [k; pa; va])) with va.
  unfold notna in Hpa, Hva. apply negb_true_iff in Hpa, Hva. auto.
Qed.

(** C1, as stated, fails: three rows of the sheet survive the filter on
    ["IC50"], the table for the single ligand has one row; for the files
    with formaldehyde twice it has two. *)
Lemma C1_counterexample :
  (right <- measurements sheet_ic50 "IC50" ;; Ok (List.length (rows right)))
  = Ok 3
  /\ default_param (pharm_param_options (Some sheet_ic50)) = Some "IC50"
  /\ run files_one (Some sheet_ic50)
     = Ok (Tables
             (mkDF [Str "ID"; Str "SourceFile"; Str "SMILES";
                    Str "cas.index.name"; Str "cas.rn"; Str "cas_norm";
                    Str "Ligand CAS RN"; Str "Parameter"; Str "Value"]
                   [[Int 1; Str "ligands.sdf"; Str "C=O"; Str "Formaldehyde";
                     Str "50-00-0"; Str "50-00-0"; Str "50-00-0";
                     Str "IC50 | ic50 | MIC"; Str "10 | 3"]])
             (Some
                (mkDF [Str "SMILES"; Str "cas.index.name"; Str "cas.rn";
                       Str "Parameter"; Str "Value"]
                      [[Str "C=O"; Str "Formaldehyde"; Str "50-00-0";
                        Str "IC50"; Str "10"]])))
  /\ (out <- run files_two (Some sheet_ic50) ;;
      match out with
      | Tables _ (Some p) => Ok (rows p)
      | _ => Ok []
      end)
     = Ok [[Str "C=O"; Str "Formaldehyde"; Str "50-00-0";
            Str "IC50"; Str "10"];
           [PyNone; PyNone; Str "50-00-0"; Str "IC50"; Str "10"]]
  /\ (out <- run files_one (Some sheet_ic50) ;;
      match out with
      | Tables _ (Some p) => Ok (List.length (rows p))
      | _ => Ok 0
      end)
     <> (right <- measurements sheet_ic50 "IC50" ;;
         Ok (List.length (rows right))).
Proof.
  split; [reflexivity|]. split; [reflexivity|]. split; [reflexivity|].
  split; [reflexivity|]. discriminate.
Qed.

(** C10. Whenever the parameter-focused table is produced its columns are
    [SMILES], [cas.index.name], [cas.rn], [Parameter], [Value], in this
    order and without the helper [cas_norm].  A ligand column that the
    SDF table lacks does not make the join fail: it is created, and holds
    [None] in every row of the table. *)
Theorem C10_parameter_table_columns :
  forall (files : list upload) (raw : sheet) (sel : option string)
         (merged p : DataFrame),
    sheet_well_formed (Some raw) = true ->
    main_logic files (Some raw) sel = Ok (Tables merged (Some p)) ->
    let sdf_df := build_sdf_df (read_molecules files) in
    columns p = [Str "SMILES"; Str "cas.index.name"; Str "cas.rn";
                 Str "Parameter"; Str "Value"]
    /\ ~ In (Str "cas_norm") (columns p)
    /\ rectangular p
    /\ (forall i col,
          nth_error [Str "SMILES"; Str "cas.index.name"; Str "cas.rn"] i
          = Some col ->
          mem col (columns sdf_df) = false ->
          Forall (fun row => cell i row = PyNone) (rows p))
    /\ (forall pharm_param right,
          select [Str "cas_norm"; Str "Parameter"; Str "Value"] pharm_param
          = Ok right ->
          exists q, join_parameter sdf_df pharm_param = Ok q).
Proof.
  intros files raw sel merged p _ Hmain sdf_df.
  destruct (build_sdf_df_shape (read_molecules files)) as [Hrect _].
  fold sdf_df in Hrect.
  destruct (parameter_table_of_run _ _ _ _ _ Hmain)
    as [s [left [right [-> [Hleft [Hright ->]]]]]].
  fold sdf_df in Hleft.
  destruct (ligand_identity_rows _ _ Hleft) as [_ Hshape].
  assert (Hr : forall rr, In rr (rows right) -> exists k pa va, rr = [k; pa; va]).
  { unfold measurements in Hright.
    destruct (load_pharmacology_excel raw) as [pharm_df|e]; [|discriminate].
    cbn [bind] in Hright.
    destruct (with_cas_norm pharm_df) as [df'|e]; [|discriminate].
    cbn [bind] in Hright.
    destruct (select_parameter s df') as [pharm_param|e]; [|discriminate].
    cbn [bind] in Hright.
    eapply measurement_rows; eauto. }
  cbn [columns rows].
  split; [reflexivity|].
  split.
  { simpl. intuition discriminate. }
  split.
  { unfold rectangular. cbn [columns rows]. apply Forall_forall.
    intros row Hrow.
    apply in_flat_map in Hrow. destruct Hrow as [lr [Hlr Hrow]].
    apply in_map_iff in Hrow. destruct Hrow as [rr [<- Hrr]].
    apply filter_In in Hrr. destruct Hrr as [Hrr _].
    destruct (Hshape lr Hlr) as [a [b [c [d ->]]]].
    destruct (Hr rr Hrr) as [k [pa [va ->]]]. reflexivity. }
  split.
  { intros i col Hi Hm.
    assert (Hi' : nth_error base_cols i = Some col).
    { destruct i as [|[|[|i]]]; cbn in Hi |- *; try exact Hi.
      destruct i; discriminate. }
    pose proof (ligand_identity_none _ _ _ _ Hrect Hleft Hi' Hm) as Hnone.
    rewrite Forall_forall in Hnone.
    apply Forall_forall. intros row Hrow.
    apply in_flat_map in Hrow. destruct Hrow as [lr [Hlr Hrow]].
    apply in_map_iff in Hrow. destruct Hrow as [rr [<- _]].
    specialize (Hnone lr Hlr).
    destruct (Hshape lr Hlr) as [a [b [c [d ->]]]].
    destruct i as [|[|[|i]]]; cbn in Hi; try exact Hnone.
    destruct i; discriminate. }
  intros pharm_param right' Hsel.
  now apply join_parameter_total with (right := right').
Qed.

(* ===================================================================== *)
(** ** JoinKeys on both sides *)
(* ===================================================================== *)

Lemma lstrip_all_space s : all_space s = true -> lstrip s = EmptyString.
Proof.
  induction s as [|a s IH]; simpl; [reflexivity|].
  intros H. apply andb_true_iff in H. destruct H as [Ha Hs].
  rewrite Ha. auto.
Qed.

Lemma strip_all_space s : all_space s = true -> strip s = EmptyString.
Proof. intros H. unfold strip. now rewrite lstrip_all_space. Qed.

Lemma key_match_join_key a b :
  key_match (Str (join_key a)) (Str (join_key b)) = true
  <-> join_key a = join_key b.
Proof. rewrite key_match_Str. apply String.eqb_eq. Qed.

(* ===================================================================== *)
(** ** A sheet without header row *)
(* ===================================================================== *)

(** Without a row whose first cell is ["Ligand CAS RN"] the loader raises
    [IndexError]; line 186 calls it outside any [try], and the run ends
    there. *)
Lemma header_missing_raises files raw sel :
  header_rows raw = [] ->
  read_molecules files <> [] ->
  main_logic files (Some raw) sel = Raise IndexError.
Proof.
  intros Hh Hm. unfold main_logic.
  destruct files as [|f files]; [contradiction|].
  destruct (read_molecules (f :: files)) as [|ms all_mols]; [contradiction|].
  unfold load_pharmacology_excel. now rewrite Hh.
Qed.

(** C2 on the code: for a sheet without the header label the sidebar
    catches the failure and offers no parameter, the main part raises
    [IndexError] and produces no table; the run without sheet gives the
    table of the records alone. *)
Theorem C2_header_missing_ends_the_run :
  header_rows sheet_no_header = []
  /\ pharm_param_options (Some sheet_no_header) = []
  /\ run files_one (Some sheet_no_header) = Raise IndexError
  /\ run files_one None
     = Ok (Tables
             (mkDF [Str "ID"; Str "SourceFile"; Str "SMILES";
                    Str "cas.index.name"; Str "cas.rn"; Str "cas_norm"]
                   [[Int 1; Str "ligands.sdf"; Str "C=O"; Str "Formaldehyde";
                     Str "50-00-0"; Str "50-00-0"]])
             None).
Proof.
  repeat split; reflexivity.
Qed.

(* ===================================================================== *)
(** ** Runs that produce the tables *)
(* ===================================================================== *)

Lemma in_combine_seq {A} (l : list A) a i r :
  In (i, r) (combine (seq a (List.length l)) l) ->
  a <= i /\ nth_error l (i - a) = Some r.
Proof.
  revert a. induction l as [|x l IH]; intros a; simpl; [contradiction|].
  intros [[= <- <-]|H].
  - split; [lia|]. now rewrite Nat.sub_diag.
  - destruct (IH _ H) as [Hle Hn]. split; [lia|].
    replace (i - a) with (S (i - S a)) by lia. exact Hn.
Qed.

(** The table that the loader returns has ["Ligand CAS RN"] as its first
    label. *)
Lemma load_first_label raw pharm_df :
  load_pharmacology_excel raw = Ok pharm_df ->
  exists rest, columns pharm_df = Str "Ligand CAS RN" :: rest.
Proof.
  unfold load_pharmacology_excel, header_rows.
  destruct (map fst _) as [|i is'] eqn:E; [discriminate|].
  intros [= <-]. cbn [columns].
  assert (Hin : In i (map fst
                  (filter (fun ir => match snd ir with
                                     | c :: _ => object_eqb c (Str "Ligand CAS RN")
                                     | [] => false
                                     end)
                          (combine (seq 0 (List.length raw)) raw))))
    by (rewrite E; now left).
  apply in_map_iff in Hin. destruct Hin as [[j r] [Hj Hin]].
  cbn [fst] in Hj. subst j.
  apply filter_In in Hin. destruct Hin as [Hin Hc]. cbn [snd] in Hc.
  destruct (in_combine_seq _ _ _ _ Hin) as [_ Hn].
  rewrite Nat.sub_0_r in Hn.
  rewrite (nth_error_nth _ _ _ Hn).
  destruct r as [|c rest]; [discriminate|].
  apply object_eqb_eq in Hc. subst c. eauto.
Qed.

Lemma parameter_table_total sdf_df df' sel :
  rectangular sdf_df ->
  mem (Str "cas_norm") (columns df') = true ->
  exists p, parameter_table sdf_df df' sel = Ok p.
Proof.
  intros Hrect Hkey. unfold parameter_table.
  destruct sel as [[|a s]|]; eauto.
  destruct (mem (Str "Parameter") (columns df')) eqn:Hp; cbn [andb]; eauto.
  destruct (mem (Str "Value") (columns df')) eqn:Hv; eauto.
  unfold select_parameter, series.
  pose proof Hp as Hp'. rewrite index_of_mem in Hp'.
  destruct (index_of (Str "Parameter") (columns df')) as [ip|];
    [|discriminate].
  cbn [bind].
  match goal with
  | |- context [boolean_index ?m df'] => set (pharm_param := boolean_index m df')
  end.
  destruct (rows pharm_param) as [|r rs]; eauto.
  destruct (positions_total [Str "cas_norm"; Str "Parameter"; Str "Value"]
              (columns pharm_param)) as [ps Hps].
  { intros l [<-|[<-|[<-|[]]]]; assumption. }
  destruct (join_parameter_total sdf_df pharm_param
              (mkDF [Str "cas_norm"; Str "Parameter"; Str "Value"]
                    (map (fun r => map (fun i => cell i r) ps)
                         (rows pharm_param))) Hrect) as [q Hq].
  { unfold select. now rewrite Hps. }
  rewrite Hq. cbn [bind]. eauto.
Qed.

(** A run with molecules and a well-formed sheet that has its header row
    produces both results unless the suffix makes two sheet columns
    collide. *)
Lemma main_logic_total files raw sel pharm_df :
  read_molecules files <> [] ->
  load_pharmacology_excel raw = Ok pharm_df ->
  well_formed pharm_df = true ->
  suffix_clash (build_sdf_df (read_molecules files)) pharm_df = false ->
  exists merged p, main_logic files (Some raw) sel = Ok (Tables merged p).
Proof.
  intros Hm Hl Hwf Hclash. unfold main_logic.
  destruct files as [|f files]; [contradiction|].
  destruct (read_molecules (f :: files)) as [|ms all_mols] eqn:Em;
    [contradiction|].
  rewrite Hl. cbn [bind].
  destruct (well_formed_true _ Hwf) as [Hnd Hrect].
  destruct (load_first_label _ _ Hl) as [rest Hcols].
  assert (Hw : exists df', with_cas_norm pharm_df = Ok df').
  { unfold with_cas_norm, series. rewrite Hcols. cbn [index_of].
    rewrite object_eqb_refl. cbn [bind]. eauto. }
  destruct Hw as [df' Hw]. rewrite Hw. cbn [bind].
  destruct (aggregate_after_cas_norm _ _ Hrect Hw)
    as [ids [ki [Hids [Hki [Hcol Hagg]]]]].
  rewrite Hagg. cbn [bind].
  assert (HX : remove_nth ki (columns df')
               = filter (fun c => negb (object_eqb c (Str "cas_norm")))
                        (columns pharm_df)).
  { destruct (with_cas_norm_inv _ _ Hw) as [ids' [_ ->]].
    now apply remove_key_setitem. }
  destruct (build_sdf_df_shape (ms :: all_mols)) as [Hsr [_ [Hstr Hin]]].
  destruct (index_of_In _ _ Hin) as [lk Hlk].
  assert (Hmerge : exists merged,
             merge_left (Str "cas_norm") "" "_pharm"
               (build_sdf_df (ms :: all_mols))
               (mkDF (Str "cas_norm" :: remove_nth ki (columns df'))
                  (map (fun k =>
                          Str k ::
                            remove_nth ki
                              (map (fun j =>
                                      agg_unique
                                        (map (cell j)
                                           (filter
                                              (fun r =>
                                                 object_eqb (cell ki r) (Str k))
                                              (rows df'))))
                                 (seq 0 (List.length (columns df')))))
                       (sorted_set (map join_key ids))))
             = Ok merged).
  { unfold merge_left. cbn [columns rows index_of].
    rewrite Hlk, object_eqb_refl. cbn [remove_nth].
    rewrite (rename_empty_suffix _ _ Hstr), new_duplicates_same.
    cbn [orb]. rewrite HX.
    unfold suffix_clash in Hclash. cbv zeta in Hclash. rewrite Hclash.
    eauto. }
  destruct Hmerge as [merged ->]. cbn [bind].
  destruct (parameter_table_total (build_sdf_df (ms :: all_mols)) df' sel
              Hsr) as [p ->].
  { rewrite index_of_mem, Hki. reflexivity. }
  cbn [bind]. eauto.
Qed.

(** Without a sheet a run with molecules shows the SDF table alone. *)
Lemma main_logic_no_sheet files sel :
  read_molecules files <> [] ->
  main_logic files None sel
  = Ok (Tables (build_sdf_df (read_molecules files)) None).
Proof.
  intros Hm. unfold main_logic.
  destruct files as [|f files]; [contradiction|].
  destruct (read_molecules (f :: files)); [contradiction | reflexivity].
Qed.

(* ===================================================================== *)
(** ** The theorems on the sample inputs *)
(* ===================================================================== *)

(** C8 on the three molecules of [files_two]: the row of the second one,
    which has the property [mw] only. *)
Lemma C8_witness :
  let row := [("ID", Int 2); ("SourceFile", Str "first set.sdf");
              ("SMILES", Str "CCO"); ("cas.index.name", PyNone);
              ("cas.rn", PyNone); ("mw", Str "46.07")] in
  In row (sdf_rows (read_molecules files_two))
  /\ all_props (read_molecules files_two) = ["cas.index.name"; "cas.rn"; "mw"]
  /\ keys row = ["ID"; "SourceFile"; "SMILES"; "cas.index.name"; "cas.rn"; "mw"]
  /\ NoDup (keys row).
Proof.
  intros row.
  assert (Hin : In row (sdf_rows (read_molecules files_two)))
    by (right; left; reflexivity).
  destruct (C8_column_universe (read_molecules files_two) row Hin)
    as [_ [_ [Hkeys [Hnd _]]]].
  split; [exact Hin|]. split; [reflexivity|]. split; [exact Hkeys | exact Hnd].
Defined.

(** C4 on the table of [sheet_ic50]. *)
Lemma C4_witness :
  well_formed pharm_ic50 = true
  /\ with_cas_norm pharm_ic50 = Ok pharm_ic50_keyed
  /\ exists agg ids keys,
      series (Str "Ligand CAS RN") pharm_ic50 = Ok ids
      /\ aggregate_pharmacology_by_cas pharm_ic50_keyed = Ok agg
      /\ series (Str "cas_norm") agg = Ok (map Str keys)
      /\ StronglySorted str_lt keys
      /\ (forall k, In k keys <-> exists id, In id ids /\ join_key id = k).
Proof.
  split; [reflexivity|]. split; [reflexivity|].
  apply (C4_groups_in_ascending_key_order pharm_ic50 pharm_ic50_keyed);
    reflexivity.
Defined.

(** C5 on the table of [sheet_ic50]. *)
Lemma C5_witness :
  well_formed pharm_ic50 = true
  /\ with_cas_norm pharm_ic50 = Ok pharm_ic50_keyed
  /\ exists agg,
      aggregate_pharmacology_by_cas pharm_ic50_keyed = Ok agg
      /\ columns agg = [Str "cas_norm"; Str "Ligand CAS RN"; Str "Parameter";
                        Str "Value"]
      /\ List.length (rows agg) = 3.
Proof.
  split; [reflexivity|]. split; [reflexivity|].
  destruct (C5_aggregated_shape pharm_ic50 pharm_ic50_keyed eq_refl eq_refl)
    as [agg [ids [Hids [Hagg [Hcols [_ [_ [_ [_ Hlen]]]]]]]]].
  exists agg. split; [exact Hagg|]. split; [exact Hcols|].
  injection Hids as <-. exact Hlen.
Defined.

(** C6 on [files_two] and [sheet_ic50]: three record rows, three rows in
    the merged table. *)
Lemma C6_witness :
  sheet_well_formed (Some sheet_ic50) = true
  /\ main_logic files_two (Some sheet_ic50) (Some "IC50")
     = Ok (Tables merged_two (Some param_two))
  /\ List.length (rows merged_two) = 3
  /\ rectangular merged_two.
Proof.
  split; [reflexivity|]. split; [reflexivity|].
  destruct (C6_left_join_cardinality files_two (Some sheet_ic50)
              (Some "IC50") merged_two (Some param_two) eq_refl eq_refl)
    as [Hlen [_ Hrect]].
  split; [exact Hlen | exact Hrect].
Defined.

(** C9 on [files_no_name] and [sheet_blank], which both have a column
    [Value]. *)
Lemma C9_witness :
  load_pharmacology_excel sheet_blank = Ok pharm_blank
  /\ well_formed pharm_blank = true
  /\ main_logic files_no_name (Some sheet_blank) (Some "IC50")
     = Ok (Tables merged_no_name (Some param_no_name))
  /\ firstn 6 (columns merged_no_name)
     = [Str "ID"; Str "SourceFile"; Str "SMILES"; Str "Value"; Str "cas.rn";
        Str "cas_norm"]
  /\ skipn 6 (columns merged_no_name)
     = [Str "Ligand CAS RN"; Str "Value_pharm"; Str "Parameter"].
Proof.
  split; [reflexivity|]. split; [reflexivity|]. split; [reflexivity|].
  destruct (C9_record_columns_kept files_no_name sheet_blank (Some "IC50")
              merged_no_name (Some param_no_name) pharm_blank
              eq_refl eq_refl eq_refl)
    as [Hfirst [_ Hskip]].
  split; [exact Hfirst | exact Hskip].
Defined.

(** C10 on [files_no_name], whose molecules have no [cas.index.name]. *)
Lemma C10_witness :
  sheet_well_formed (Some sheet_blank) = true
  /\ main_logic files_no_name (Some sheet_blank) (Some "IC50")
     = Ok (Tables merged_no_name (Some param_no_name))
  /\ mem (Str "cas.index.name")
         (columns (build_sdf_df (read_molecules files_no_name))) = false
  /\ columns param_no_name
     = [Str "SMILES"; Str "cas.index.name"; Str "cas.rn"; Str "Parameter";
        Str "Value"]
  /\ Forall (fun row => cell 1 row = PyNone) (rows param_no_name).
Proof.
  split; [reflexivity|]. split; [reflexivity|]. split; [reflexivity|].
  destruct (C10_parameter_table_columns files_no_name sheet_blank
              (Some "IC50") merged_no_name param_no_name eq_refl eq_refl)
    as [Hcols [_ [_ [Hnone _]]]].
  split; [exact Hcols|].
  exact (Hnone 1 (Str "cas.index.name") eq_refl eq_refl).
Defined.

(** C1 on [files_two] and [sheet_ic50]. *)
Lemma C1_witness :
  sheet_well_formed (Some sheet_ic50) = true
  /\ main_logic files_two (Some sheet_ic50) (Some "IC50")
     = Ok (Tables merged_two (Some param_two))
  /\ Forall (fun row => isna (cell 3 row) = false /\ isna (cell 4 row) = false)
            (rows param_two).
Proof.
  split; [reflexivity|]. split; [reflexivity|].
  destruct (C1_one_row_per_matching_pair files_two sheet_ic50 (Some "IC50")
              merged_two param_two eq_refl eq_refl)
    as [s [left [right [_ [_ [_ [_ Hall]]]]]]].
  exact Hall.
Defined.

(* ===================================================================== *)
(** ** The loader *)
(* ===================================================================== *)

Lemma header_filter_from a (above : sheet) header below :
  forallb (fun r => negb (is_header_row r)) above = true ->
  is_header_row header = true ->
  map fst
      (filter (fun ir => is_header_row (snd ir))
              (combine (seq a (List.length (above ++ header :: below)))
                       (above ++ header :: below)))
  = (a + List.length above)
      :: map fst
           (filter (fun ir => is_header_row (snd ir))
                   (combine (seq (S (a + List.length above))
                                 (List.length below)) below)).
Proof.
  revert a. induction above as [|r above IH]; intros a Ha Hh.
  - cbn [app List.length seq combine filter snd]. rewrite Hh.
    cbn [map fst]. now rewrite Nat.add_0_r.
  - cbn [forallb] in Ha. apply andb_true_iff in Ha. destruct Ha as [Hr Ha].
    cbn [app List.length seq combine filter snd].
    apply negb_true_iff in Hr. rewrite Hr.
    rewrite (IH (S a) Ha Hh). f_equal; [lia|].
    replace (S (S a + List.length above))
      with (S (a + S (List.length above))) by lia.
    reflexivity.
Qed.

Lemma header_filter_none a (raw : sheet) :
  forallb (fun r => negb (is_header_row r)) raw = true ->
  filter (fun ir => is_header_row (snd ir))
         (combine (seq a (List.length raw)) raw) = [].
Proof.
  revert a. induction raw as [|r raw IH]; intros a H; [reflexivity|].
  cbn [forallb] in H. apply andb_true_iff in H. destruct H as [Hr H].
  cbn [List.length seq combine filter snd].
  apply negb_true_iff in Hr. rewrite Hr. now apply IH.
Qed.

(** A sheet either has no header row or splits at its first one. *)
Lemma split_at_first_header (raw : sheet) :
  forallb (fun r => negb (is_header_row r)) raw = true
  \/ exists above header below,
      raw = above ++ header :: below
      /\ forallb (fun r => negb (is_header_row r)) above = true
      /\ is_header_row header = true.
Proof.
  induction raw as [|r raw IH]; [now left|].
  destruct (is_header_row r) eqn:Hr.
  - right. exists [], r, raw. auto.
  - destruct IH as [IH|[above [header [below [-> [Ha Hh]]]]]].
    + left. cbn [forallb]. now rewrite Hr.
    + right. exists (r :: above), header, below.
      split; [reflexivity|]. split; [|exact Hh].
      cbn [forallb]. now rewrite Hr.
Qed.

Lemma load_at_first_header (above : sheet) header below :
  forallb (fun r => negb (is_header_row r)) above = true ->
  is_header_row header = true ->
  load_pharmacology_excel (above ++ header :: below) = Ok (mkDF header below).
Proof.
  intros Ha Hh. unfold load_pharmacology_excel, header_rows.
  change (fun ir : nat * list object =>
            match snd ir with
            | c :: _ => object_eqb c (Str "Ligand CAS RN")
            | [] => false
            end)
    with (fun ir : nat * list object => is_header_row (snd ir)).
  rewrite (header_filter_from 0 above header below Ha Hh).
  cbn [Nat.add]. f_equal. f_equal.
  - rewrite app_nth2 by lia. now rewrite Nat.sub_diag.
  - rewrite Nat.add_1_r.
    change (above ++ header :: below) with (above ++ [header] ++ below).
    rewrite app_assoc.
    replace (S (List.length above)) with (List.length (above ++ [header]))
      by (rewrite length_app; simpl; lia).
    apply skipn_length_app.
Qed.

Lemma load_without_header (raw : sheet) :
  forallb (fun r => negb (is_header_row r)) raw = true ->
  load_pharmacology_excel raw = Raise IndexError.
Proof.
  intros H. unfold load_pharmacology_excel, header_rows.
  change (fun ir : nat * list object =>
            match snd ir with
            | c :: _ => object_eqb c (Str "Ligand CAS RN")
            | [] => false
            end)
    with (fun ir : nat * list object => is_header_row (snd ir)).
  now rewrite (header_filter_none 0 raw H).
Qed.

(** X1. The loader cuts the sheet at the first row whose first cell is
    ["Ligand CAS RN"]: that row gives the labels, the rows below it are
    the data in their order, the rows above it are dropped; a later row
    that repeats the label stays a data row. *)
Theorem X1_load_splits_at_first_header :
  forall (raw : sheet) (pharm_df : DataFrame),
    load_pharmacology_excel raw = Ok pharm_df <->
    exists above,
      raw = above ++ columns pharm_df :: rows pharm_df
      /\ forallb (fun r => negb (is_header_row r)) above = true
      /\ is_header_row (columns pharm_df) = true.
Proof.
  intros raw pharm_df. split.
  - intros H. destruct (split_at_first_header raw)
      as [Hn|[above [header [below [-> [Ha Hh]]]]]].
    + rewrite (load_without_header raw Hn) in H. discriminate.
    + rewrite (load_at_first_header above header below Ha Hh) in H.
      injection H as <-. exists above. auto.
  - intros [above [-> [Ha Hh]]]. destruct pharm_df as [header below].
    now apply load_at_first_header.
Qed.

(** X2. The loader fails exactly when no row of the sheet has
    ["Ligand CAS RN"] as its first cell (an empty sheet included), and
    then with [IndexError]; it raises nothing else. *)
Theorem X2_load_fails_without_header :
  forall (raw : sheet) (e : exn),
    load_pharmacology_excel raw = Raise e <->
    e = IndexError
    /\ forallb (fun r => negb (is_header_row r)) raw = true.
Proof.
  intros raw e. split.
  - intros H. destruct (split_at_first_header raw)
      as [Hn|[above [header [below [-> [Ha Hh]]]]]].
    + rewrite (load_without_header raw Hn) in H. injection H as <-. auto.
    + rewrite (load_at_first_header above header below Ha Hh) in H.
      discriminate.
  - intros [-> H]. now apply load_without_header.
Qed.

(* ===================================================================== *)
(** ** Molecules, tags and the fixed columns *)
(* ===================================================================== *)

Lemma combine_app_same {A B} (a b : list A) (c d : list B) :
  List.length a = List.length c ->
  combine (a ++ b) (c ++ d) = combine a c ++ combine b d.
Proof.
  revert c. induction a as [|x a IH]; intros [|y c]; simpl; try discriminate;
    [reflexivity|].
  intros [= H]. now rewrite IH.
Qed.

Lemma map_fst_combine_eq {A B} (la : list A) (lb : list B) :
  List.length lb = List.length la -> map fst (combine la lb) = la.
Proof.
  revert lb. induction la as [|a la IH]; intros [|b lb]; simpl;
    try discriminate; [reflexivity|].
  intros [= H]. now rewrite IH.
Qed.

Lemma length_file_tags files :
  List.length (file_tags files) = List.length (all_mols_of files).
Proof.
  unfold file_tags, all_mols_of.
  induction files as [|f files IH]; [reflexivity|].
  cbn [flat_map]. rewrite !length_app, repeat_length, IH. reflexivity.
Qed.

Lemma tagged_one_file (n : string) (recs : list (option Mol)) :
  flat_map (fun m => match m with
                     | Some m => [(m, n)]
                     | None => []
                     end) recs
  = combine (parsed recs) (repeat n (List.length (parsed recs))).
Proof.
  unfold parsed. induction recs as [|[m|] recs IH]; [reflexivity| |exact IH].
  cbn [flat_map app List.length repeat combine]. now rewrite IH.
Qed.

(** X3. The pairs of line 155, [zip(all_mols, file_tags)], give every
    molecule that parses, in upload and file order, with the name of the
    file it came from: the two lists have the same length, so [zip]
    drops nothing, and a record that does not parse leaves no trace in
    either. *)
Theorem X3_zip_of_molecules_and_tags :
  forall files : list upload,
    read_molecules files = combine (all_mols_of files) (file_tags files)
    /\ List.length (all_mols_of files) = List.length (file_tags files)
    /\ map fst (read_molecules files) = all_mols_of files
    /\ map snd (read_molecules files) = file_tags files.
Proof.
  intros files.
  assert (H : read_molecules files
              = combine (all_mols_of files) (file_tags files)).
  { unfold read_molecules, all_mols_of, file_tags.
    induction files as [|f files IH]; [reflexivity|].
    cbn [flat_map]. rewrite combine_app_same by (now rewrite repeat_length).
    now rewrite IH, tagged_one_file. }
  pose proof (length_file_tags files) as L.
  split; [exact H|]. split; [now symmetry|].
  rewrite H. split.
  - now apply map_fst_combine_eq.
  - now apply map_snd_combine.
Qed.

Lemma map_combine_r {A B C} (f : A * B -> C) (g : B -> C) la lb :
  List.length la = List.length lb ->
  (forall a b, f (a, b) = g b) ->
  map f (combine la lb) = map g lb.
Proof.
  intros Hlen H. revert lb Hlen.
  induction la as [|a la IH]; intros [|b lb]; simpl; try discriminate;
    [reflexivity|].
  intros [= Hlen]. now rewrite H, IH.
Qed.

Lemma map_combine_l {A B C} (f : A * B -> C) (g : A -> C) la lb :
  List.length la = List.length lb ->
  (forall a b, f (a, b) = g a) ->
  map f (combine la lb) = map g la.
Proof.
  intros Hlen H. revert lb Hlen.
  induction la as [|a la IH]; intros [|b lb]; simpl; try discriminate;
    [reflexivity|].
  intros [= Hlen]. now rewrite H, IH.
Qed.

Lemma fixed_columns_free_spec universe k :
  fixed_columns_free universe = true ->
  In k ["ID"; "SourceFile"; "SMILES"] -> ~ In k universe.
Proof.
  unfold fixed_columns_free. rewrite forallb_forall. intros H Hk Hin.
  specialize (H k Hk). apply negb_true_iff in H.
  apply existsb_eqb_In in Hin. congruence.
Qed.

(** X4. When no SDF property is called [ID], [SourceFile] or [SMILES],
    the rows carry the numbers 1, 2, ... in collection order as [ID], the
    name of the molecule's file as [SourceFile], and the SMILES string,
    or [None] where [MolToSmiles] failed, as [SMILES]. *)
Theorem X4_fixed_columns :
  forall all_mols : list (Mol * string),
    fixed_columns_free (all_props all_mols) = true ->
    map (dict_get "ID") (sdf_rows all_mols)
    = map (fun i => Some (Int (Z.of_nat i))) (seq 1 (List.length all_mols))
    /\ map (dict_get "SourceFile") (sdf_rows all_mols)
       = map (fun ms => Some (Str (snd ms))) all_mols
    /\ map (dict_get "SMILES") (sdf_rows all_mols)
       = map (fun ms => Some (match smiles (fst ms) with
                              | Some s => Str s
                              | None => PyNone
                              end)) all_mols.
Proof.
  intros all_mols Hfree.
  assert (Hget : forall k idx ms,
             In k ["ID"; "SourceFile"; "SMILES"] ->
             dict_get k (sdf_row (all_props all_mols) idx ms)
             = dict_get k [("ID", Int (Z.of_nat idx));
                           ("SourceFile", Str (snd ms));
                           ("SMILES", match smiles (fst ms) with
                                      | Some s => Str s
                                      | None => PyNone
                                      end)]).
  { intros k idx ms Hk. unfold sdf_row.
    apply (dict_get_fold_other
             (fun p => if HasProp (fst ms) p then Str (GetProp (fst ms) p)
                       else PyNone)).
    now apply fixed_columns_free_spec. }
  assert (Hlen : List.length (seq 1 (List.length all_mols))
                 = List.length all_mols)
    by apply length_seq.
  unfold sdf_rows. rewrite !map_map.
  split; [|split].
  - apply map_combine_l; [exact Hlen|]. intros idx ms. cbn [fst snd].
    rewrite Hget by (simpl; tauto). reflexivity.
  - apply map_combine_r; [exact Hlen|]. intros idx ms. cbn [fst snd].
    rewrite Hget by (simpl; tauto). reflexivity.
  - apply map_combine_r; [exact Hlen|]. intros idx ms. cbn [fst snd].
    rewrite Hget by (simpl; tauto). reflexivity.
Qed.

(* ===================================================================== *)
(** ** The names of the downloads *)
(* ===================================================================== *)

Lemma has_space_replace_space s : has_space (replace_space s) = false.
Proof.
  induction s as [|a s IH]; [reflexivity|].
  cbn [replace_space has_space]. rewrite IH, orb_false_r.
  destruct (Ascii.eqb a " ") eqn:E; [reflexivity | exact E].
Qed.

Lemma has_space_app s t :
  has_space (s ++ t) = has_space s || has_space t.
Proof.
  induction s as [|a s IH]; [reflexivity|].
  cbn [append has_space]. now rewrite IH, orb_assoc.
Qed.

Lemma replace_space_app s t :
  replace_space (s ++ t) = (replace_space s ++ replace_space t)%string.
Proof.
  induction s as [|a s IH]; [reflexivity|].
  cbn [append replace_space]. now rewrite IH.
Qed.

Lemma replace_space_id s : has_space s = false -> replace_space s = s.
Proof.
  induction s as [|a s IH]; [reflexivity|].
  cbn [has_space replace_space]. intros H.
  apply orb_false_iff in H. destruct H as [Ha Hs].
  now rewrite Ha, IH.
Qed.

Lemma length_replace_space s :
  String.length (replace_space s) = String.length s.
Proof.
  induction s as [|a s IH]; [reflexivity|].
  cbn [replace_space String.length]. now rewrite IH.
Qed.

(** X5. Whatever the names of the uploaded files and whatever
    [Path.stem] returns for them, the prefix and the two download names
    contain no space; sanitising changes a stem without space in
    nothing, and a run with several files is named after the first file
    alone, with ["_and_others"] appended. *)
Theorem X5_download_names_without_space :
  forall (stem : string -> string) (files : list upload) (p : string),
    prefix stem files = Some p ->
    has_space p = false
    /\ has_space (full_csv_name p) = false
    /\ (forall selected_param,
          has_space (param_csv_name p selected_param) = false)
    /\ (forall up_file others,
          files = up_file :: others ->
          p = (replace_space (stem (name up_file))
               ++ match others with
                  | [] => ""
                  | _ :: _ => "_and_others"
                  end)%string)
    /\ (forall up_file,
          files = [up_file] ->
          has_space (stem (name up_file)) = false ->
          p = stem (name up_file)).
Proof.
  intros stem files p Hp.
  assert (Hns : has_space p = false).
  { destruct files as [|f [|g files]]; cbn in Hp; try discriminate;
      injection Hp as <-; apply has_space_replace_space. }
  split; [exact Hns|].
  split.
  { unfold full_csv_name. rewrite has_space_app, Hns. reflexivity. }
  split.
  { intros sel. apply has_space_replace_space. }
  split.
  - intros f others ->. destruct others as [|g others]; cbn in Hp;
      injection Hp as <-.
    + now rewrite append_empty_r.
    + now rewrite replace_space_app.
  - intros f -> Hs. cbn in Hp. injection Hp as <-.
    now apply replace_space_id.
Qed.

(* ===================================================================== *)
(** ** Trimming and lower case *)
(* ===================================================================== *)

Lemma rstrip_all_space s : all_space s = true -> rstrip s = EmptyString.
Proof.
  induction s as [|a s IH]; [reflexivity|].
  cbn [all_space rstrip]. intros H.
  apply andb_true_iff in H. destruct H as [Ha Hs].
  now rewrite (IH Hs), Ha.
Qed.

Lemma rstrip_app_space s b :
  all_space b = true -> rstrip (s ++ b) = rstrip s.
Proof.
  intros Hb. induction s as [|a s IH].
  - now apply rstrip_all_space.
  - cbn [append rstrip]. now rewrite IH.
Qed.

Lemma lstrip_app_space a s :
  all_space a = true -> lstrip (a ++ s) = lstrip s.
Proof.
  induction a as [|c a IH]; [reflexivity|].
  cbn [all_space append lstrip]. intros H.
  apply andb_true_iff in H. destruct H as [Hc Ha].
  rewrite Hc. auto.
Qed.

Lemma lstrip_app s b :
  lstrip (s ++ b)
  = if all_space s then lstrip b else (lstrip s ++ b)%string.
Proof.
  induction s as [|c s IH]; [reflexivity|].
  cbn [append lstrip all_space].
  destruct (is_space c); [exact IH | reflexivity].
Qed.

Lemma strip_padded a s b :
  all_space a = true -> all_space b = true ->
  strip (a ++ s ++ b) = strip s.
Proof.
  intros Ha Hb. unfold strip.
  rewrite (lstrip_app_space a _ Ha), lstrip_app.
  destruct (all_space s) eqn:Hs.
  - rewrite (lstrip_all_space b Hb), (lstrip_all_space s Hs). reflexivity.
  - now apply rstrip_app_space.
Qed.

Lemma lstripped_lstrip s : lstripped (lstrip s) = true.
Proof.
  induction s as [|c s IH]; [reflexivity|].
  cbn [lstrip]. destruct (is_space c) eqn:E; [exact IH|].
  cbn [lstripped]. now rewrite E.
Qed.

Lemma lstripped_rstrip s : lstripped s = true -> lstripped (rstrip s) = true.
Proof.
  destruct s as [|c s]; [reflexivity|].
  cbn [lstripped rstrip]. intros H.
  destruct (rstrip s); [|exact H].
  apply negb_true_iff in H. rewrite H. cbn [lstripped]. now rewrite H.
Qed.

Lemma lstrip_lstripped s : lstripped s = true -> lstrip s = s.
Proof.
  destruct s as [|c s]; [reflexivity|].
  cbn [lstripped lstrip]. intros H. apply negb_true_iff in H.
  now rewrite H.
Qed.

Lemma rstrip_cons c s :
  rstrip (String c s)
  = match rstrip s with
    | EmptyString => if is_space c then EmptyString else String c EmptyString
    | String d r => String c (String d r)
    end.
Proof. reflexivity. Qed.

Lemma rstrip_rstrip s : rstrip (rstrip s) = rstrip s.
Proof.
  induction s as [|c s IH]; [reflexivity|].
  rewrite rstrip_cons. destruct (rstrip s) as [|d r] eqn:E.
  - destruct (is_space c) eqn:Hc; [reflexivity|].
    rewrite rstrip_cons. cbn [rstrip]. now rewrite Hc.
  - rewrite rstrip_cons, IH. reflexivity.
Qed.

Lemma strip_strip s : strip (strip s) = strip s.
Proof.
  unfold strip.
  rewrite (lstrip_lstripped (rstrip (lstrip s)))
    by apply lstripped_rstrip, lstripped_lstrip.
  apply rstrip_rstrip.
Qed.

(** X6. Identifiers that differ by surrounding white space only have
    the same JoinKey, on either side of the join; a JoinKey begins with
    no white space and normalising it again changes nothing. *)
Theorem X6_join_key_ignores_padding :
  forall (a s b : string),
    all_space a = true ->
    all_space b = true ->
    cas_norm_of [Str (a ++ s ++ b)] = cas_norm_of [Str s]
    /\ join_key (Str (a ++ s ++ b)) = join_key (Str s)
    /\ lstripped (join_key (Str s)) = true
    /\ cas_norm_of (cas_norm_of [Str s]) = cas_norm_of [Str s].
Proof.
  intros a s b Ha Hb.
  assert (H : strip (a ++ s ++ b) = strip s) by now apply strip_padded.
  split.
  { rewrite !cas_norm_of_map. cbn [map str]. now rewrite H. }
  split; [exact H|].
  split.
  { unfold join_key. cbn [str]. unfold strip.
    apply lstripped_rstrip, lstripped_lstrip. }
  rewrite !cas_norm_of_map. cbn [map str]. now rewrite strip_strip.
Qed.

Lemma lower_char_idem a : lower_char (lower_char a) = lower_char a.
Proof.
  destruct a as [[] [] [] [] [] [] [] []]; reflexivity.
Qed.

Lemma lower_idem s : lower (lower s) = lower s.
Proof.
  induction s as [|a s IH]; [reflexivity|].
  cbn [lower]. now rewrite lower_char_idem, IH.
Qed.

Lemma parameter_table_case sdf_df pharm_df s t :
  lower s = lower t ->
  parameter_table sdf_df pharm_df (Some s)
  = parameter_table sdf_df pharm_df (Some t).
Proof.
  intros H. unfold parameter_table.
  destruct s as [|a s], t as [|b t]; try reflexivity;
    try (cbn [lower] in H; discriminate).
  unfold select_parameter. now rewrite H.
Qed.

(** X7. The results of a run do not depend on the case of the selected
    parameter: two selections with the same lower-case form, such as a
    selection and its lower-case form, give the same two tables or the
    same exception. *)
Theorem X7_selection_case_insensitive :
  forall (files : list upload) (pharm : option sheet) (s t : string),
    lower s = lower t ->
    main_logic files pharm (Some s) = main_logic files pharm (Some t)
    /\ main_logic files pharm (Some (lower s)) = main_logic files pharm (Some s).
Proof.
  assert (G : forall files pharm s t,
             lower s = lower t ->
             main_logic files pharm (Some s) = main_logic files pharm (Some t)).
  { intros files pharm s t H. unfold main_logic.
    destruct files as [|f files]; [reflexivity|].
    destruct (read_molecules (f :: files)) as [|ms all_mols]; [reflexivity|].
    destruct pharm as [raw|]; [|reflexivity].
    destruct (load_pharmacology_excel raw) as [pharm_df|e]; [|reflexivity].
    cbn [bind].
    destruct (with_cas_norm pharm_df) as [df'|e]; [|reflexivity].
    cbn [bind].
    destruct (aggregate_pharmacology_by_cas df') as [agg|e]; [|reflexivity].
    cbn [bind].
    destruct (merge_left (Str "cas_norm") "" "_pharm"
                (build_sdf_df (ms :: all_mols)) agg) as [m|e]; [|reflexivity].
    cbn [bind]. now rewrite (parameter_table_case _ _ s t H). }
  intros files pharm s t H. split; [now apply G|].
  apply G. apply lower_idem.
Qed.

(* ===================================================================== *)
(** ** The sidebar and the selected parameter *)
(* ===================================================================== *)

Lemma in_pharm_param_options raw s :
  In s (pharm_param_options (Some raw)) <->
  exists pharm_df col c,
    load_pharmacology_excel raw = Ok pharm_df
    /\ series (Str "Parameter") pharm_df = Ok col
    /\ In c col /\ isna c = false /\ str c = s.
Proof.
  unfold pharm_param_options. split.
  - destruct (load_pharmacology_excel raw) as [pharm_df|e] eqn:El;
      [|contradiction].
    destruct (series (Str "Parameter") pharm_df) as [col|e] eqn:Es;
      [|contradiction].
    intros H. apply in_sorted_set, in_map_iff in H.
    destruct H as [c [Hc Hin]]. apply filter_In in Hin.
    destruct Hin as [Hin Hn]. unfold notna in Hn. apply negb_true_iff in Hn.
    exists pharm_df, col, c. repeat split; assumption || reflexivity.
  - intros [pharm_df [col [c [-> [-> [Hin [Hn <-]]]]]]].
    apply in_sorted_set, in_map_iff. exists c. split; [reflexivity|].
    apply filter_In. split; [exact Hin|]. unfold notna. now rewrite Hn.
Qed.


Lemma cell_replace_nth_other i j v r :
  i <> j -> cell j (replace_nth i v r) = cell j r.
Proof.
  unfold cell. revert i j. induction r as [|x r IH]; intros [|i] [|j] H;
    simpl; try reflexivity; try lia.
  apply IH. lia.
Qed.

Lemma index_of_app_other l l' ls :
  l <> l' -> index_of l' ls = None -> index_of l' (ls ++ [l]) = None.
Proof.
  intros Hne. induction ls as [|x ls IH]; simpl.
  - intros _. apply object_eqb_neq in Hne. now rewrite Hne.
  - destruct (object_eqb x l'); [discriminate|].
    destruct (index_of l' ls); [discriminate|].
    intros _. now rewrite IH.
Qed.

(** Writing column [l] leaves every other column as it is. *)
Lemma series_setitem_other l l' vals df :
  rectangular df ->
  List.length vals = List.length (rows df) ->
  l <> l' ->
  series l' (setitem l vals df) = series l' df.
Proof.
  intros Hrect Hlen Hne. unfold series, setitem.
  destruct (index_of l (columns df)) as [i|] eqn:Ei; cbn [columns rows].
  - destruct (index_of l' (columns df)) as [j|] eqn:Ej; [|reflexivity].
    f_equal. rewrite map_map.
    rewrite <- (map_fst_combine_eq (rows df) vals Hlen) at 2.
    rewrite map_map. apply map_ext. intros [r v]. cbn [fst snd].
    apply cell_replace_nth_other. intros ->.
    apply index_of_Some in Ei, Ej. destruct Ei as [_ Ei], Ej as [_ Ej].
    congruence.
  - destruct (index_of l' (columns df)) as [j|] eqn:Ej.
    + rewrite (index_of_app_l _ _ [l] _ Ej). f_equal. rewrite map_map.
      rewrite <- (map_fst_combine_eq (rows df) vals Hlen) at 2.
      rewrite map_map. apply map_ext_in. intros [r v] Hin. cbn [fst snd].
      apply cell_app_l. apply in_combine_l in Hin.
      unfold rectangular in Hrect. rewrite Forall_forall in Hrect.
      rewrite (Hrect _ Hin). now apply index_of_Some in Ej.
    + now rewrite (index_of_app_other l l' _ Hne Ej).
Qed.

Lemma filter_snd_nonempty {A} (l : list A) (mask : list bool) :
  List.length l = List.length mask ->
  In true mask ->
  map fst (filter (fun rb => snd rb) (combine l mask)) <> [].
Proof.
  revert mask. induction l as [|x l IH]; intros [|b mask]; simpl;
    try discriminate; try contradiction.
  intros [= Hlen] [->|Hin]; [discriminate|].
  destruct b; [discriminate|]. now apply IH.
Qed.

(** A parameter that the sidebar offers selects at least one row. *)
Lemma offered_parameter_selects_rows raw pharm_df df' s :
  load_pharmacology_excel raw = Ok pharm_df ->
  well_formed pharm_df = true ->
  with_cas_norm pharm_df = Ok df' ->
  In s (pharm_param_options (Some raw)) ->
  exists pharm_param,
    select_parameter s df' = Ok pharm_param /\ rows pharm_param <> [].
Proof.
  intros Hl Hwf Hw Hin.
  destruct (well_formed_true _ Hwf) as [_ Hrect].
  apply in_pharm_param_options in Hin.
  destruct Hin as [pharm_df0 [col [c [Hl' [Hcol [Hc [Hn Hs]]]]]]].
  rewrite Hl in Hl'. injection Hl' as <-.
  destruct (with_cas_norm_inv _ _ Hw) as [ids [Hids ->]].
  assert (Hlen : List.length (cas_norm_of ids) = List.length (rows pharm_df)).
  { rewrite length_cas_norm_of. now apply length_series in Hids. }
  unfold select_parameter.
  rewrite series_setitem_other by (assumption || discriminate).
  rewrite Hcol. cbn [bind]. eexists. split; [reflexivity|].
  unfold boolean_index. cbn [rows]. apply filter_snd_nonempty.
  - rewrite length_map, length_rows_setitem by exact Hlen.
    symmetry. now apply length_series in Hcol.
  - apply in_map_iff. exists c. split; [|exact Hc].
    rewrite Hs. apply String.eqb_refl.
Qed.

(** X9. A selection taken from the sidebar always finds rows: when the
    sheet has a [Value] column and the selected text is one of the offered
    choices (and not the empty text), a run that produces the tables
    produces the parameter-focused table too; the branch for a parameter
    without rows is not taken. *)
Theorem X9_offered_parameter_gives_table :
  forall (files : list upload) (raw : sheet) (s : string)
         (merged : DataFrame) (p : option DataFrame) (pharm_df : DataFrame),
    load_pharmacology_excel raw = Ok pharm_df ->
    well_formed pharm_df = true ->
    mem (Str "Value") (columns pharm_df) = true ->
    In s (pharm_param_options (Some raw)) ->
    s <> EmptyString ->
    main_logic files (Some raw) (Some s) = Ok (Tables merged p) ->
    exists pharm_param q,
      (df' <- with_cas_norm pharm_df ;; select_parameter s df')
      = Ok pharm_param
      /\ rows pharm_param <> []
      /\ p = Some q.
Proof.
  intros files raw s merged p pharm_df Hl Hwf Hv Hin Hne Hmain.
  destruct (main_logic_tables _ _ _ _ _ Hmain)
    as [_ [pharm_df0 [df' [agg [Hl' [Hw [_ [_ Hp]]]]]]]].
  rewrite Hl in Hl'. injection Hl' as <-.
  destruct (offered_parameter_selects_rows _ _ _ _ Hl Hwf Hw Hin)
    as [pharm_param [Hsel Hrows]].
  assert (Hpar : mem (Str "Parameter") (columns df') = true).
  { unfold select_parameter, series in Hsel. rewrite index_of_mem.
    destruct (index_of (Str "Parameter") (columns df')); [reflexivity|].
    discriminate. }
  assert (Hval : mem (Str "Value") (columns df') = true).
  { destruct (with_cas_norm_inv _ _ Hw) as [ids [_ ->]].
    rewrite columns_setitem.
    destruct (mem (Str "cas_norm") (columns pharm_df)); [exact Hv|].
    apply mem_In, in_or_app. left. now apply mem_In. }
  unfold parameter_table in Hp. destruct s as [|a s]; [congruence|].
  rewrite Hpar, Hval, Hsel in Hp. cbn [andb bind] in Hp.
  destruct (rows pharm_param) as [|r rs] eqn:Er; [congruence|].
  destruct (join_parameter (build_sdf_df (read_molecules files)) pharm_param)
    as [q|e]; [|discriminate].
  cbn [bind] in Hp. injection Hp as <-.
  exists pharm_param, q. rewrite Hw. cbn [bind]. rewrite Er.
  split; [exact Hsel|]. split; [discriminate | reflexivity].
Qed.

(* ===================================================================== *)
(** ** Records without [cas.rn] *)
(* ===================================================================== *)

Lemma map_eq_repeat {A B} (f : A -> B) (v : B) l n :
  map f l = repeat v n -> Forall (fun x => f x = v) l.
Proof.
  revert n. induction l as [|x l IH]; intros [|n]; simpl; try discriminate;
    [constructor|].
  intros [= Hx Hl]. constructor; eauto.
Qed.

Lemma index_of_map_Str_None k ks :
  ~ In k ks -> index_of (Str k) (map Str ks) = None.
Proof.
  intros H. apply index_of_None. rewrite in_map_iff.
  intros [k' [[= ->] Hin]]. contradiction.
Qed.

(** A column of [base_cols] that holds [None] after lines 220-222 is a
    column of [None] in the projection of line 224. *)
Lemma ligand_identity_column_none sdf_df left i col :
  ligand_identity sdf_df = Ok left ->
  nth_error base_cols i = Some col ->
  column_is_none (add_missing_base_cols sdf_df) col ->
  Forall (fun lr => cell i lr = PyNone) (rows left).
Proof.
  intros Hl Hi [ic [Hic Hall]].
  unfold ligand_identity in Hl.
  destruct (select_base_cols _ _ Hl)
    as [i0 [i1 [i2 [i3 [H0 [H1 [H2 [H3 ->]]]]]]]].
  cbn [rows]. apply Forall_forall. intros lr Hlr.
  apply in_map_iff in Hlr. destruct Hlr as [r [<- Hr]].
  rewrite Forall_forall in Hall. specialize (Hall r Hr).
  destruct i as [|[|[|[|i]]]]; cbn in Hi.
  - injection Hi as <-. rewrite H0 in Hic. injection Hic as <-. exact Hall.
  - injection Hi as <-. rewrite H1 in Hic. injection Hic as <-. exact Hall.
  - injection Hi as <-. rewrite H2 in Hic. injection Hic as <-. exact Hall.
  - injection Hi as <-. rewrite H3 in Hic. injection Hic as <-. exact Hall.
  - destruct i; discriminate.
Qed.

Lemma in_rows_boolean_index mask df r :
  In r (rows (boolean_index mask df)) -> In r (rows df).
Proof.
  unfold boolean_index. cbn [rows]. intros H.
  apply in_map_iff in H. destruct H as [[r' b] [<- Hin]].
  apply filter_In in Hin. destruct Hin as [Hin _].
  now apply in_combine_l in Hin.
Qed.

Lemma flat_map_nil {A B} (f : A -> list B) l :
  (forall x, In x l -> f x = []) -> flat_map f l = [].
Proof.
  induction l as [|x l IH]; intros H; [reflexivity|].
  cbn [flat_map]. rewrite (H x (or_introl eq_refl)), IH; [reflexivity|].
  intros y Hy. apply H. now right.
Qed.

Lemma filter_nil {A} (f : A -> bool) l :
  (forall x, In x l -> f x = false) -> filter f l = [].
Proof.
  induction l as [|x l IH]; intros H; [reflexivity|].
  cbn [filter]. rewrite (H x (or_introl eq_refl)). apply IH.
  intros y Hy. apply H. now right.
Qed.

(* ===================================================================== *)
(** ** The outcomes of a run *)
(* ===================================================================== *)

Lemma main_logic_clash files raw sel pharm_df :
  read_molecules files <> [] ->
  load_pharmacology_excel raw = Ok pharm_df ->
  well_formed pharm_df = true ->
  suffix_clash (build_sdf_df (read_molecules files)) pharm_df = true ->
  main_logic files (Some raw) sel = Raise MergeError.
Proof.
  intros Hm Hl Hwf Hclash. unfold main_logic.
  destruct files as [|f files]; [contradiction|].
  destruct (read_molecules (f :: files)) as [|ms all_mols] eqn:Em;
    [contradiction|].
  rewrite Hl. cbn [bind].
  destruct (well_formed_true _ Hwf) as [Hnd Hrect].
  destruct (load_first_label _ _ Hl) as [rest Hcols].
  assert (Hw : exists df', with_cas_norm pharm_df = Ok df').
  { unfold with_cas_norm, series. rewrite Hcols. cbn [index_of].
    rewrite object_eqb_refl. cbn [bind]. eauto. }
  destruct Hw as [df' Hw]. rewrite Hw. cbn [bind].
  destruct (aggregate_after_cas_norm _ _ Hrect Hw)
    as [ids [ki [Hids [Hki [Hcol Hagg]]]]].
  rewrite Hagg. cbn [bind].
  assert (HX : remove_nth ki (columns df')
               = filter (fun c => negb (object_eqb c (Str "cas_norm")))
                        (columns pharm_df)).
  { destruct (with_cas_norm_inv _ _ Hw) as [ids' [_ ->]].
    now apply remove_key_setitem. }
  destruct (build_sdf_df_shape (ms :: all_mols)) as [Hsr [_ [Hstr Hin]]].
  destruct (index_of_In _ _ Hin) as [lk Hlk].
  unfold merge_left. cbn [columns rows index_of].
  rewrite Hlk, object_eqb_refl. cbn [remove_nth].
  rewrite (rename_empty_suffix _ _ Hstr), new_duplicates_same.
  cbn [orb]. rewrite HX.
  unfold suffix_clash in Hclash. cbv zeta in Hclash. rewrite Hclash.
  reflexivity.
Qed.

(** X11. A run with at least one molecule and a well-formed sheet ends
    in one of three ways: [IndexError] when the sheet has no header
    row; [MergeError] when the suffix ["_pharm"] makes two columns of
    the sheet collide; the two results otherwise.  No [KeyError] is
    raised: the guards of the script cover every column it reads. *)
Theorem X11_outcomes_of_a_run_with_sheet :
  forall (files : list upload) (raw : sheet) (sel : option string),
    read_molecules files <> [] ->
    sheet_well_formed (Some raw) = true ->
    let sdf_df := build_sdf_df (read_molecules files) in
    (forallb (fun r => negb (is_header_row r)) raw = true
     /\ main_logic files (Some raw) sel = Raise IndexError)
    \/ (exists pharm_df,
          load_pharmacology_excel raw = Ok pharm_df
          /\ suffix_clash sdf_df pharm_df = true
          /\ main_logic files (Some raw) sel = Raise MergeError)
    \/ (exists pharm_df merged p,
          load_pharmacology_excel raw = Ok pharm_df
          /\ suffix_clash sdf_df pharm_df = false
          /\ main_logic files (Some raw) sel = Ok (Tables merged p)).
Proof.
  intros files raw sel Hm Hwf sdf_df.
  unfold sheet_well_formed in Hwf.
  destruct (load_pharmacology_excel raw) as [pharm_df|e] eqn:Hl.
  - destruct (suffix_clash sdf_df pharm_df) eqn:Hc.
    + right. left. exists pharm_df. split; [reflexivity|].
      split; [exact Hc|]. now apply main_logic_clash with (pharm_df := pharm_df).
    + right. right.
      destruct (main_logic_total files raw sel pharm_df Hm Hl Hwf Hc)
        as [merged [p H]].
      exists pharm_df, merged, p. auto.
  - left. destruct (split_at_first_header raw)
      as [Hn|[above [header [below [-> [Ha Hh]]]]]].
    + split; [exact Hn|]. apply header_missing_raises; [|exact Hm].
      unfold header_rows.
      change (fun ir : nat * list object =>
                match snd ir with
                | c :: _ => object_eqb c (Str "Ligand CAS RN")
                | [] => false
                end)
        with (fun ir : nat * list object => is_header_row (snd ir)).
      now rewrite (header_filter_none 0 raw Hn).
    + rewrite (load_at_first_header above header below Ha Hh) in Hl.
      discriminate.
Qed.

Lemma read_molecules_nil files :
  read_molecules files = [] <->
  Forall (fun up_file => Forall (fun r => r = None) (records up_file)) files.
Proof.
  unfold read_molecules. induction files as [|f files IH].
  - split; [constructor | reflexivity].
  - cbn [flat_map]. split.
    + intros H. apply app_eq_nil in H. destruct H as [Hf Hr].
      constructor; [|now apply IH].
      induction (records f) as [|[m|] recs IHr]; [constructor| |].
      * discriminate.
      * constructor; [reflexivity|]. now apply IHr.
    + intros H. inversion H as [|? ? Hf Hr]; subst.
      rewrite (proj2 IH Hr), app_nil_r.
      induction Hf as [|r recs Hr' Hf IHf]; [reflexivity|].
      subst r. exact IHf.
Qed.

(** X12. The run asks for files exactly when none is uploaded, and
    reports that no valid molecule was found exactly when files are
    uploaded and none of their records parses; in both cases the sheet
    is not read, so that even a sheet without header row raises
    nothing. *)
Theorem X12_runs_without_molecules :
  forall (files : list upload) (pharm : option sheet) (sel : option string),
    (main_logic files pharm sel = Ok PleaseUpload <-> files = [])
    /\ (main_logic files pharm sel = Ok NoValidMolecules <->
        files <> []
        /\ Forall (fun up_file => Forall (fun r => r = None) (records up_file))
                  files).
Proof.
  intros files pharm sel.
  assert (Htab : forall f fs ms all_mols,
             read_molecules (f :: fs) = ms :: all_mols ->
             forall o, main_logic (f :: fs) pharm sel = Ok o ->
                       exists merged p, o = Tables merged p).
  { intros f fs ms all_mols Em o. unfold main_logic. rewrite Em.
    destruct pharm as [raw|]; [|intros [= <-]; eauto].
    destruct (load_pharmacology_excel raw) as [pharm_df|e]; [|discriminate].
    cbn [bind].
    destruct (with_cas_norm pharm_df) as [df'|e]; [|discriminate].
    cbn [bind].
    destruct (aggregate_pharmacology_by_cas df') as [agg|e]; [|discriminate].
    cbn [bind].
    destruct (merge_left (Str "cas_norm") "" "_pharm"
                (build_sdf_df (ms :: all_mols)) agg) as [m|e]; [|discriminate].
    cbn [bind].
    destruct (parameter_table (build_sdf_df (ms :: all_mols)) df' sel)
      as [q|e]; [|discriminate].
    cbn [bind]. intros [= <-]. eauto. }
  split.
  - split.
    + destruct files as [|f fs]; [reflexivity|]. intros H.
      destruct (read_molecules (f :: fs)) as [|ms all_mols] eqn:Em.
      * unfold main_logic in H. rewrite Em in H. discriminate.
      * destruct (Htab _ _ _ _ Em _ H) as [? [? ?]]. discriminate.
    + intros ->. reflexivity.
  - split.
    + destruct files as [|f fs]; [discriminate|]. intros H.
      split; [discriminate|]. apply read_molecules_nil.
      destruct (read_molecules (f :: fs)) as [|ms all_mols] eqn:Em;
        [reflexivity|].
      destruct (Htab _ _ _ _ Em _ H) as [? [? ?]]. discriminate.
    + intros [Hne Hall]. apply read_molecules_nil in Hall.
      destruct files as [|f fs]; [contradiction|].
      unfold main_logic. now rewrite Hall.
Qed.

(* ===================================================================== *)
(** ** The aggregation helper on its own, and a sheet without rows *)
(* ===================================================================== *)

(** X13. Called on a table without [cas_norm] column, the helper
    computes that column itself, by the same normalisation as line 189,
    and gives what the script gets by adding the column before the
    call. *)
Theorem X13_aggregate_adds_missing_key :
  forall pharm_df : DataFrame,
    mem (Str "cas_norm") (columns pharm_df) = false ->
    aggregate_pharmacology_by_cas pharm_df
    = (keyed <- with_cas_norm pharm_df ;;
       aggregate_pharmacology_by_cas keyed).
Proof.
  intros pharm_df H.
  unfold aggregate_pharmacology_by_cas at 1. rewrite H.
  unfold with_cas_norm.
  destruct (series (Str "Ligand CAS RN") pharm_df) as [ids|e];
    [|reflexivity].
  cbn [bind]. unfold aggregate_pharmacology_by_cas.
  rewrite columns_setitem, H.
  assert (E : mem (Str "cas_norm") (columns pharm_df ++ [Str "cas_norm"])
              = true).
  { apply mem_In, in_or_app. right. now left. }
  rewrite E. reflexivity.
Qed.

Lemma rows_setitem_nil l vals df :
  rows df = [] -> rows (setitem l vals df) = [].
Proof.
  intros H. unfold setitem.
  destruct (index_of l (columns df)); cbn [rows]; now rewrite H.
Qed.

(** X14. A sheet that ends with its header row offers no parameter and
    gives no parameter-focused table, whatever is selected; the full
    merged table still gets the columns of the sheet, with [nan] in
    every row. *)
Theorem X14_sheet_without_data_rows :
  forall (files : list upload) (raw : sheet) (sel : option string)
         (merged : DataFrame) (p : option DataFrame) (pharm_df : DataFrame),
    load_pharmacology_excel raw = Ok pharm_df ->
    well_formed pharm_df = true ->
    rows pharm_df = [] ->
    main_logic files (Some raw) sel = Ok (Tables merged p) ->
    let sdf_df := build_sdf_df (read_molecules files) in
    pharm_param_options (Some raw) = []
    /\ p = None
    /\ columns merged
       = columns sdf_df
         ++ map (fun c => if mem c (columns sdf_df)
                          then Str (str c ++ "_pharm") else c)
                (filter (fun c => negb (object_eqb c (Str "cas_norm")))
                        (columns pharm_df))
    /\ rows merged
       = map (fun r =>
                r ++ repeat NaN
                       (List.length
                          (filter (fun c => negb (object_eqb c (Str "cas_norm")))
                                  (columns pharm_df))))
             (rows sdf_df).
Proof.
  intros files raw sel merged p pharm_df Hl Hwf Hrows Hmain sdf_df.
  split.
  { unfold pharm_param_options. rewrite Hl. unfold series. rewrite Hrows.
    now destruct (index_of (Str "Parameter") (columns pharm_df)). }
  split.
  { destruct p as [q|]; [|reflexivity]. exfalso.
    destruct (main_logic_tables _ _ _ _ _ Hmain)
      as [_ [pharm_df0 [df' [agg [Hl' [Hw [_ [_ Hp]]]]]]]].
    rewrite Hl in Hl'. injection Hl' as <-.
    destruct (parameter_table_some _ _ _ _ Hp)
      as [s [pharm_param [_ [Hsel [Hne _]]]]].
    apply Hne. unfold select_parameter in Hsel.
    destruct (series (Str "Parameter") df') as [col|e]; [|discriminate].
    cbn [bind] in Hsel. injection Hsel as <-.
    destruct (with_cas_norm_inv _ _ Hw) as [ids [_ ->]].
    unfold boolean_index. cbn [rows].
    now rewrite (rows_setitem_nil _ _ _ Hrows). }
  destruct (full_merge_shape _ _ _ _ _ _ Hl Hwf Hmain)
    as [lk [ids [tailf [Hlk [Hids [_ [_ [Hc Hr]]]]]]]].
  fold sdf_df in Hlk, Hc, Hr.
  split; [exact Hc|].
  rewrite Hr. apply map_ext. intros lr.
  assert (Hnil : ids = []).
  { unfold series in Hids. rewrite Hrows in Hids.
    destruct (index_of (Str "Ligand CAS RN") (columns pharm_df));
      [|discriminate].
    now injection Hids as <-. }
  rewrite Hnil. cbn [map sorted_set fold_right existsb].
  now destruct (cell lk lr).
Qed.

(* ===================================================================== *)
(** ** What the aggregated cells hold *)
(* ===================================================================== *)

(** X15. Nulls and values that the group has already shown do not
    change the aggregated cell: extra rows that repeat earlier values of
    the column, or leave it empty, give the same text. *)
Theorem X15_agg_unique_ignores_repeats_and_nulls :
  forall series more : list object,
    (forall v, In v more ->
               isna v = true
               \/ exists w, In w series /\ isna w = false /\ str w = str v) ->
    agg_unique (series ++ more) = agg_unique series
    /\ agg_unique (filter notna series) = agg_unique series.
Proof.
  intros series more H. split.
  - unfold agg_unique, unique.
    rewrite filter_app, map_app, unique_from_app.
    rewrite (unique_from_all_seen _ (map str (filter notna more))).
    + now rewrite app_nil_r.
    + intros x Hx. apply in_map_iff in Hx. destruct Hx as [v [<- Hv]].
      apply filter_In in Hv. destruct Hv as [Hv Hn].
      unfold notna in Hn. apply negb_true_iff in Hn.
      destruct (H v Hv) as [Hna|[w [Hw [Hwn Hws]]]]; [congruence|].
      rewrite app_nil_r. rewrite <- Hws. apply in_map.
      apply filter_In. split; [exact Hw|]. unfold notna. now rewrite Hwn.
  - unfold agg_unique. f_equal.
    assert (E : filter notna (filter notna series) = filter notna series).
    { rewrite filter_filter. apply filter_ext. intros v.
      now destruct (notna v). }
    now rewrite E.
Qed.

Lemma filter_map_swap {A B} (f : B -> bool) (g : A -> B) l :
  filter f (map g l) = map g (filter (fun x => f (g x)) l).
Proof.
  induction l as [|x l IH]; simpl; [reflexivity|].
  destruct (f (g x)); simpl; now rewrite IH.
Qed.

Lemma remove_nth_map_seq {A} (F : nat -> A) n :
  remove_nth n (map F (seq 0 (S n))) = map F (seq 0 n).
Proof.
  rewrite seq_S, map_app. cbn [Nat.add map].
  assert (H : List.length (map F (seq 0 n)) = n)
    by now rewrite length_map, length_seq.
  rewrite <- H at 1. apply remove_nth_app_last.
Qed.

Lemma existsb_map_comp {A B} (f : B -> bool) (g : A -> B) l :
  existsb f (map g l) = existsb (fun x => f (g x)) l.
Proof. induction l as [|x l IH]; simpl; [reflexivity | now rewrite IH]. Qed.

Lemma existsb_sorted_set_keys (ids : list object) k :
  existsb (String.eqb k) (sorted_set (map join_key ids))
  = existsb (fun c => String.eqb (join_key c) k) ids.
Proof.
  apply eq_true_iff_eq. rewrite existsb_eqb_In, in_sorted_set, in_map_iff.
  rewrite existsb_exists. split.
  - intros [c [Hc Hin]]. exists c. split; [exact Hin|].
    now apply String.eqb_eq.
  - intros [c [Hin Hc]]. exists c. apply String.eqb_eq in Hc. auto.
Qed.

(** The table after line 189 when the sheet has no [cas_norm] column:
    every row with its JoinKey appended. *)
Lemma with_cas_norm_appends pharm_df df' rest :
  columns pharm_df = Str "Ligand CAS RN" :: rest ->
  mem (Str "cas_norm") (columns pharm_df) = false ->
  with_cas_norm pharm_df = Ok df' ->
  df' = mkDF (columns pharm_df ++ [Str "cas_norm"])
             (map (fun r => r ++ [Str (join_key (cell 0 r))]) (rows pharm_df)).
Proof.
  intros Hcols Hmem Hw. unfold with_cas_norm, series in Hw.
  rewrite Hcols in Hw. cbn [index_of] in Hw.
  rewrite object_eqb_refl in Hw. cbn [bind] in Hw. injection Hw as <-.
  unfold setitem. rewrite index_of_mem in Hmem.
  destruct (index_of (Str "cas_norm") (columns pharm_df)); [discriminate|].
  f_equal. rewrite cas_norm_of_map, map_map.
  induction (rows pharm_df) as [|r rs IH]; [reflexivity|].
  cbn [map combine fst snd]. now rewrite IH.
Qed.

(** X16. The pharmacology cells of the full merged table, end to end
    (for a sheet without a column named [cas_norm]): a record whose
    JoinKey is the normalised identifier of some rows of the sheet gets,
    in every sheet column, [agg_unique] of the cells that these rows
    have in that column, in sheet order; any other record gets [nan] in
    every sheet column. *)
Theorem X16_merged_cells_from_the_sheet :
  forall (files : list upload) (raw : sheet) (sel : option string)
         (merged : DataFrame) (p : option DataFrame) (pharm_df : DataFrame),
    load_pharmacology_excel raw = Ok pharm_df ->
    well_formed pharm_df = true ->
    mem (Str "cas_norm") (columns pharm_df) = false ->
    main_logic files (Some raw) sel = Ok (Tables merged p) ->
    let sdf_df := build_sdf_df (read_molecules files) in
    let n := List.length (columns pharm_df) in
    rows merged
    = map (fun record =>
             record
             ++ match record_key sdf_df record with
                | Str k =>
                    let same_key r := String.eqb (join_key (cell 0 r)) k in
                    if existsb same_key (rows pharm_df)
                    then map (fun j =>
                                agg_unique
                                  (map (cell j)
                                       (filter same_key (rows pharm_df))))
                             (seq 0 n)
                    else repeat NaN n
                | _ => repeat NaN n
                end)
          (rows sdf_df).
Proof.
  intros files raw sel merged p pharm_df Hl Hwf Hmem Hmain sdf_df n.
  destruct (main_logic_tables _ _ _ _ _ Hmain)
    as [_ [pharm_df0 [df' [agg [Hl' [Hw [Hagg [Hmerge _]]]]]]]].
  rewrite Hl in Hl'. injection Hl' as <-.
  destruct (well_formed_true _ Hwf) as [Hnd Hrect].
  destruct (load_first_label _ _ Hl) as [rest Hcols].
  pose proof (with_cas_norm_appends _ _ _ Hcols Hmem Hw) as Hdf'.
  destruct (aggregate_after_cas_norm _ _ Hrect Hw)
    as [ids [ki [Hids [Hki [Hcol Hagg']]]]].
  rewrite Hagg in Hagg'. injection Hagg' as ->.
  assert (Hids' : ids = map (cell 0) (rows pharm_df)).
  { unfold series in Hids. rewrite Hcols in Hids. cbn [index_of] in Hids.
    rewrite object_eqb_refl in Hids. now injection Hids as <-. }
  assert (Hki' : ki = n).
  { rewrite Hdf' in Hki. cbn [columns] in Hki.
    rewrite index_of_mem in Hmem.
    destruct (index_of (Str "cas_norm") (columns pharm_df)) eqn:E;
      [discriminate|].
    rewrite (index_of_app_new _ _ E) in Hki. now injection Hki as <-. }
  apply merge_left_one_row_per_key in Hmerge; [|apply sorted_set_NoDup].
  destruct Hmerge as [lk [Hlk [_ Hr]]]. fold sdf_df in Hlk, Hr.
  rewrite Hr. apply map_ext. intros lr. f_equal.
  unfold record_key. rewrite Hlk.
  assert (Hlen : List.length (remove_nth ki (columns df')) = n).
  { rewrite Hki', Hdf'. cbn [columns]. fold n.
    unfold n. now rewrite remove_nth_app_last. }
  rewrite Hlen.
  destruct (cell lk lr) as [| |k|z]; try reflexivity.
  cbv zeta. rewrite existsb_sorted_set_keys, Hids', existsb_map_comp.
  destruct (existsb (fun r => String.eqb (join_key (cell 0 r)) k)
                    (rows pharm_df)); [|reflexivity].
  rewrite Hki', Hdf'. cbn [columns rows].
  rewrite length_app. cbn [List.length]. fold n.
  rewrite Nat.add_1_r, remove_nth_map_seq.
  apply map_ext_in. intros j Hj. apply in_seq in Hj. f_equal.
  rewrite filter_map_swap, map_map.
  assert (Hf : filter
                 (fun r => object_eqb
                             (cell n (r ++ [Str (join_key (cell 0 r))]))
                             (Str k)) (rows pharm_df)
               = filter (fun r => String.eqb (join_key (cell 0 r)) k)
                        (rows pharm_df)).
  { apply filter_ext_in. intros r Hin.
    unfold rectangular in Hrect. rewrite Forall_forall in Hrect.
    unfold n. rewrite <- (Hrect r Hin), cell_app_last.
    apply object_eqb_Str. }
  rewrite Hf. apply map_ext_in. intros r Hin.
  apply filter_In in Hin. destruct Hin as [Hin _].
  apply cell_app_l.
  unfold rectangular in Hrect. rewrite Forall_forall in Hrect.
  rewrite (Hrect r Hin). fold n. lia.
Qed.

Lemma mem_map_Str k ks :
  mem (Str k) (map Str ks) = existsb (String.eqb k) ks.
Proof.
  unfold mem. induction ks as [|x ks IH]; [reflexivity|].
  cbn [map existsb]. now rewrite object_eqb_Str, IH.
Qed.

(** X17. Without a sheet the run shows the SDF table alone and no
    parameter-focused table: one row per molecule that parses, under the
    columns [ID], [SourceFile], [SMILES], the sorted property names and
    [cas_norm] (in the place of a property of that name, if there is
    one). *)
Theorem X17_run_without_sheet :
  forall (files : list upload) (sel : option string),
    read_molecules files <> [] ->
    let all_mols := read_molecules files in
    let sdf_df := build_sdf_df all_mols in
    main_logic files None sel = Ok (Tables sdf_df None)
    /\ columns sdf_df
       = map Str (add_key (record_columns (all_props all_mols)) "cas_norm")
    /\ List.length (rows sdf_df) = List.length all_mols
    /\ rectangular sdf_df.
Proof.
  intros files sel Hne all_mols sdf_df.
  destruct (build_sdf_df_shape all_mols) as [Hrect [Hlen _]].
  split; [now apply main_logic_no_sheet|].
  split; [|split; [exact Hlen | exact Hrect]].
  assert (G : forall vals,
             columns (setitem (Str "cas_norm") vals
                        (from_records (sdf_rows all_mols)))
             = map Str (add_key (record_columns (all_props all_mols))
                                "cas_norm")).
  { intros vals. rewrite columns_setitem.
    rewrite (from_records_sdf_rows all_mols Hne). cbn [columns].
    rewrite mem_map_Str. unfold add_key.
    destruct (existsb (String.eqb "cas_norm")
                      (record_columns (all_props all_mols)));
      [reflexivity|].
    now rewrite map_app. }
  unfold sdf_df, build_sdf_df.
  destruct (series (Str "cas.rn") (from_records (sdf_rows all_mols)));
    apply G.
Qed.

(* ===================================================================== *)
(** ** More runs on the sample inputs *)
(* ===================================================================== *)

(** X4 on [files_two]. *)
Lemma X4_witness :
  fixed_columns_free (all_props (read_molecules files_two)) = true
  /\ map (dict_get "ID") (sdf_rows (read_molecules files_two))
     = [Some (Int 1); Some (Int 2); Some (Int 3)]
  /\ map (dict_get "SourceFile") (sdf_rows (read_molecules files_two))
     = [Some (Str "first set.sdf"); Some (Str "first set.sdf");
        Some (Str "second.sdf")].
Proof.
  split; [reflexivity|].
  destruct (X4_fixed_columns (read_molecules files_two) eq_refl)
    as [Hid [Hsrc _]].
  split; [exact Hid | exact Hsrc].
Defined.

(** X5 on [files_two], with the stem of its first name. *)
Lemma X5_witness :
  prefix (fun _ => "first set") files_two = Some "first_set_and_others"
  /\ has_space (full_csv_name "first_set_and_others") = false
  /\ has_space (param_csv_name "first_set_and_others" "EC 50") = false.
Proof.
  split; [reflexivity|].
  destruct (X5_download_names_without_space
              (fun _ => "first set") files_two "first_set_and_others" eq_refl)
    as [_ [Hfull [Hparam _]]].
  split; [exact Hfull | exact (Hparam "EC 50")].
Defined.

(** X6 on a padded CAS number. *)
Lemma X6_witness :
  all_space "  " = true
  /\ all_space " " = true
  /\ join_key (Str ("  " ++ "64-17-5" ++ " ")) = join_key (Str "64-17-5").
Proof.
  split; [reflexivity|]. split; [reflexivity|].
  exact (proj1 (proj2 (X6_join_key_ignores_padding "  " "64-17-5" " "
                         eq_refl eq_refl))).
Defined.

(** X7 on [files_two] and [sheet_ic50]. *)
Lemma X7_witness :
  lower "Ic50" = lower "IC50"
  /\ main_logic files_two (Some sheet_ic50) (Some "Ic50")
     = main_logic files_two (Some sheet_ic50) (Some "IC50").
Proof.
  split; [reflexivity|].
  exact (proj1 (X7_selection_case_insensitive files_two (Some sheet_ic50)
                  "Ic50" "IC50" eq_refl)).
Defined.

(** X9 on [files_two] and [sheet_ic50], with the offered ["MIC"]. *)
Lemma X9_witness :
  load_pharmacology_excel sheet_ic50 = Ok pharm_ic50
  /\ well_formed pharm_ic50 = true
  /\ mem (Str "Value") (columns pharm_ic50) = true
  /\ In "MIC" (pharm_param_options (Some sheet_ic50))
  /\ "MIC" <> EmptyString
  /\ exists q, param_of (main_logic files_two (Some sheet_ic50) (Some "MIC"))
               = Some q.
Proof.
  assert (Hin : In "MIC" (pharm_param_options (Some sheet_ic50)))
    by (right; left; reflexivity).
  assert (Hne : "MIC" <> EmptyString) by discriminate.
  split; [reflexivity|]. split; [reflexivity|]. split; [reflexivity|].
  split; [exact Hin|]. split; [exact Hne|].
  destruct (X9_offered_parameter_gives_table files_two sheet_ic50 "MIC"
              (merged_of (main_logic files_two (Some sheet_ic50) (Some "MIC")))
              (param_of (main_logic files_two (Some sheet_ic50) (Some "MIC")))
              pharm_ic50 eq_refl eq_refl eq_refl Hin Hne eq_refl)
    as [pharm_param [q [_ [_ Hq]]]].
  exists q. exact Hq.
Defined.

(** X11 on [files_no_name] and [sheet_clash]: the run ends with
    [MergeError]. *)
Lemma X11_witness :
  read_molecules files_no_name <> []
  /\ sheet_well_formed (Some sheet_clash) = true
  /\ main_logic files_no_name (Some sheet_clash) (Some "IC50")
     = Raise MergeError.
Proof.
  assert (Hne : read_molecules files_no_name <> []) by discriminate.
  split; [exact Hne|]. split; [reflexivity|].
  destruct (X11_outcomes_of_a_run_with_sheet files_no_name sheet_clash
              (Some "IC50") Hne eq_refl)
    as [[_ H]|[[pharm_df [_ [_ H]]]|[pharm_df [merged [p [_ [_ H]]]]]]].
  - discriminate H.
  - exact H.
  - discriminate H.
Defined.

(** X13 on the table of [sheet_ic50]. *)
Lemma X13_witness :
  mem (Str "cas_norm") (columns pharm_ic50) = false
  /\ aggregate_pharmacology_by_cas pharm_ic50
     = aggregate_pharmacology_by_cas pharm_ic50_keyed.
Proof.
  split; [reflexivity|].
  exact (X13_aggregate_adds_missing_key pharm_ic50 eq_refl).
Defined.

(** X14 on [files_one] and [sheet_header_only]. *)
Lemma X14_witness :
  load_pharmacology_excel sheet_header_only = Ok pharm_header_only
  /\ well_formed pharm_header_only = true
  /\ rows pharm_header_only = []
  /\ main_logic files_one (Some sheet_header_only) (Some "IC50")
     = Ok (Tables
             (mkDF [Str "ID"; Str "SourceFile"; Str "SMILES";
                    Str "cas.index.name"; Str "cas.rn"; Str "cas_norm";
                    Str "Ligand CAS RN"; Str "Parameter"; Str "Value"]
                   [[Int 1; Str "ligands.sdf"; Str "C=O"; Str "Formaldehyde";
                     Str "50-00-0"; Str "50-00-0"; NaN; NaN; NaN]])
             None)
  /\ pharm_param_options (Some sheet_header_only) = [].
Proof.
  split; [reflexivity|]. split; [reflexivity|]. split; [reflexivity|].
  split; [reflexivity|].
  exact (proj1 (X14_sheet_without_data_rows files_one sheet_header_only
                  (Some "IC50") _ None pharm_header_only
                  eq_refl eq_refl eq_refl eq_refl)).
Defined.

(** X16 on [files_two] and [sheet_ic50]. *)
Lemma X16_witness :
  load_pharmacology_excel sheet_ic50 = Ok pharm_ic50
  /\ well_formed pharm_ic50 = true
  /\ mem (Str "cas_norm") (columns pharm_ic50) = false
  /\ main_logic files_two (Some sheet_ic50) (Some "IC50")
     = Ok (Tables merged_two (Some param_two))
  /\ nth 0 (rows merged_two) []
     = [Int 1; Str "first set.sdf"; Str "C=O"; Str "Formaldehyde";
        Str "50-00-0"; PyNone; Str "50-00-0";
        Str "50-00-0"; Str "IC50 | ic50 | MIC"; Str "10 | 3"].
Proof.
  split; [reflexivity|]. split; [reflexivity|]. split; [reflexivity|].
  split; [reflexivity|].
  rewrite (X16_merged_cells_from_the_sheet files_two sheet_ic50 (Some "IC50")
             merged_two (Some param_two) pharm_ic50
             eq_refl eq_refl eq_refl eq_refl).
  reflexivity.
Defined.

(** X17 on [files_one]. *)
Lemma X17_witness :
  read_molecules files_one <> []
  /\ columns (build_sdf_df (read_molecules files_one))
     = [Str "ID"; Str "SourceFile"; Str "SMILES"; Str "cas.index.name";
        Str "cas.rn"; Str "cas_norm"].
Proof.
  assert (Hne : read_molecules files_one <> []) by discriminate.
  split; [exact Hne|].
  destruct (X17_run_without_sheet files_one None Hne) as [_ [Hcols _]].
  exact Hcols.
Defined.

(** X15 on the values ["5"], ["7"] followed by a repeated ["5"] (as a
    number) and an empty cell. *)
Lemma X15_witness :
  agg_unique ([Str "5"; Str "7"] ++ [Int 5; NaN]) = agg_unique [Str "5"; Str "7"].
Proof.
  refine (proj1 (X15_agg_unique_ignores_repeats_and_nulls
                   [Str "5"; Str "7"] [Int 5; NaN] _)).
  intros v [<-|[<-|[]]].
  - right. exists (Str "5"). split; [now left|]. split; reflexivity.
  - left. reflexivity.
Defined.

(* ===================================================================== *)
(** ** JoinKeys under either pandas *)
(* ===================================================================== *)

Lemma key_match_refl a : key_match a a = true.
Proof. unfold key_match. now rewrite object_eqb_refl. Qed.

Lemma key_match_sym a b : key_match a b = key_match b a.
Proof.
  unfold key_match. rewrite (andb_comm (isna a)). f_equal.
  destruct (object_eqb a b) eqn:E.
  - apply object_eqb_eq in E. subst. symmetry. apply object_eqb_refl.
  - apply object_eqb_neq in E. symmetry. apply object_eqb_neq. congruence.
Qed.

(** Keys that match are equal, or both null. *)
Lemma key_match_true a b :
  key_match a b = true <-> a = b \/ (isna a = true /\ isna b = true).
Proof.
  unfold key_match. rewrite orb_true_iff, andb_true_iff, object_eqb_eq.
  tauto.
Qed.

Lemma key_match_trans a b c :
  key_match a b = true -> key_match b c = true -> key_match a c = true.
Proof.
  rewrite !key_match_true.
  intros [->|[Ha Hb]] [<-|[Hb' Hc]]; intuition congruence.
Qed.

(** Among keys other than [None], matching is equality. *)
Lemma key_match_eq a b :
  a <> PyNone -> b <> PyNone -> key_match a b = true -> a = b.
Proof.
  intros Ha Hb H. apply key_match_true in H. destruct H as [H|[Hna Hnb]];
    [exact H|].
  destruct a, b; try discriminate; congruence.
Qed.

Lemma cas_norm_of_key v col :
  ByVersion.cas_norm_of v col = map (key_of v) col.
Proof.
  unfold ByVersion.cas_norm_of, str_strip, ByVersion.astype_str, astype_str.
  destruct v; rewrite map_map; apply map_ext; intros c; cbn [key_of].
  - reflexivity.
  - now destruct (isna c).
Qed.

Lemma length_cas_norm_of_at v col :
  List.length (ByVersion.cas_norm_of v col) = List.length col.
Proof. rewrite cas_norm_of_key. apply length_map. Qed.

(** A JoinKey is a [str] or, under pandas 3, [nan]. *)
Lemma key_of_cases v c :
  (exists s, key_of v c = Str s) \/ (key_of v c = NaN /\ v = pandas3
                                     /\ isna c = true).
Proof.
  destruct v; cbn [key_of]; [eauto|].
  destruct (isna c); [right; auto | eauto].
Qed.

Lemma key_of_not_none v c : key_of v c <> PyNone.
Proof.
  destruct (key_of_cases v c) as [[s ->]|[-> _]]; discriminate.
Qed.

Lemma isna_key_of v c :
  isna (key_of v c) = match v with pandas2 => false | pandas3 => isna c end.
Proof. destruct v; cbn [key_of]; [reflexivity|]. now destruct (isna c). Qed.

(** When the keys of two identifier cells match. *)
Lemma key_match_key_of v a b :
  key_match (key_of v a) (key_of v b) = true
  <-> match v with
      | pandas2 => join_key a = join_key b
      | pandas3 =>
          (isna a = true /\ isna b = true)
          \/ (isna a = false /\ isna b = false /\ join_key a = join_key b)
      end.
Proof.
  destruct v; cbn [key_of].
  - apply key_match_join_key.
  - destruct (isna a) eqn:Ea, (isna b) eqn:Eb.
    + split; [auto | reflexivity].
    + rewrite key_match_Str. split; [discriminate|].
      intros [[_ H]|[H _]]; discriminate.
    + split; [discriminate|]. intros [[H _]|[_ [H _]]]; discriminate.
    + rewrite key_match_join_key. split; [auto|].
      intros [[H _]|[_ [_ H]]]; [discriminate | exact H].
Qed.

(* ===================================================================== *)
(** ** The inferred [str] columns of pandas 3 *)
(* ===================================================================== *)

Lemma columns_infer_string v df :
  columns (ByVersion.infer_string v df) = columns df.
Proof. now destruct v. Qed.

Lemma length_rows_infer_string v df :
  List.length (rows (ByVersion.infer_string v df)) = List.length (rows df).
Proof. destruct v; cbn; [reflexivity | apply length_map]. Qed.

Lemma rectangular_infer_string v df :
  rectangular df -> rectangular (ByVersion.infer_string v df).
Proof.
  destruct v; [auto|]. unfold rectangular.
  cbn [ByVersion.infer_string columns rows]. intros H.
  apply Forall_forall. intros r Hr. apply in_map_iff in Hr.
  destruct Hr as [r0 [<- Hin]].
  rewrite length_map, length_combine, length_map, length_seq.
  rewrite Forall_forall in H. rewrite (H _ Hin). lia.
Qed.

(** The inference leaves the key column of a keyed table as it is, when
    no key is [None]. *)
Lemma infer_string_keyed v c0 X (t : object -> list object) gkeys :
  (forall k, In k gkeys -> k <> PyNone) ->
  exists t',
    ByVersion.infer_string v (mkDF (c0 :: X) (map (fun k => k :: t k) gkeys))
    = mkDF (c0 :: X) (map (fun k => k :: t' k) gkeys)
    /\ forall k, List.length (t k) = List.length X ->
                 List.length (t' k) = List.length X.
Proof.
  intros Hk. destruct v.
  - exists t. split; [reflexivity | auto].
  - cbn [ByVersion.infer_string columns rows List.length seq map].
    set (f0 := ByVersion.str_column _). set (flags := map _ (seq 1 _)).
    exists (fun k => map (fun fc => ByVersion.infer_cell (fst fc) (snd fc))
                         (combine flags (t k))).
    split.
    + f_equal. rewrite map_map. apply map_ext_in. intros k Hin.
      cbn [combine map fst snd]. f_equal. unfold ByVersion.infer_cell.
      specialize (Hk k Hin).
      destruct k, f0; try reflexivity; congruence.
    + intros k Hl. rewrite length_map, length_combine. unfold flags.
      rewrite length_map, length_seq. lia.
Qed.

(* ===================================================================== *)
(** ** The aggregated table under either pandas *)
(* ===================================================================== *)

Lemma str_keys_of_keys v ids :
  exists ks,
    str_keys (filter notna (map (key_of v) ids)) = Ok ks
    /\ forall s, In s ks <-> In (Str s) (map (key_of v) ids).
Proof.
  induction ids as [|id ids [ks [E H]]]; cbn [map filter].
  - exists []. split; [reflexivity|]. intros s. simpl. tauto.
  - destruct (key_of_cases v id) as [[s0 ->]|[-> _]]; cbn [notna isna negb].
    + exists (s0 :: ks). cbn [str_keys]. rewrite E. split; [reflexivity|].
      intros s. simpl. rewrite H. split; intros [Hs|Hs]; auto.
      * left. congruence.
      * left. congruence.
    + exists ks. split; [exact E|]. intros s. simpl. rewrite H.
      split; [auto|]. intros [Hs|Hs]; [discriminate | exact Hs].
Qed.

Lemma existsb_isna_keys v ids :
  existsb isna (map (key_of v) ids) = true <-> In NaN (map (key_of v) ids).
Proof.
  rewrite existsb_exists. split.
  - intros [k [Hin Hna]]. apply in_map_iff in Hin.
    destruct Hin as [id [<- Hid]].
    destruct (key_of_cases v id) as [[s E]|[E _]]; rewrite E in Hna;
      [discriminate|].
    rewrite <- E. now apply in_map.
  - intros H. exists NaN. split; [exact H | reflexivity].
Qed.

(** The keys of the groups: each key of the column once, none of them
    [None]. *)
Lemma group_keys v ids ks :
  (forall s, In s ks <-> In (Str s) (map (key_of v) ids)) ->
  let gkeys := map Str (sorted_set ks)
               ++ (if existsb isna (map (key_of v) ids) then [NaN] else []) in
  NoDup gkeys
  /\ (forall k, In k gkeys <-> In k (map (key_of v) ids))
  /\ (forall k, In k gkeys -> k <> PyNone).
Proof.
  intros Hks gkeys.
  assert (Hin : forall k, In k gkeys <-> In k (map (key_of v) ids)).
  { intros k. unfold gkeys. rewrite in_app_iff, in_map_iff. split.
    - intros [[s [<- Hs]]|Hn].
      + rewrite in_sorted_set in Hs. now apply Hks.
      + destruct (existsb isna (map (key_of v) ids)) eqn:E;
          [|contradiction].
        destruct Hn as [<-|[]]. now apply existsb_isna_keys.
    - intros Hk. pose proof Hk as Hk'. apply in_map_iff in Hk'.
      destruct Hk' as [id [<- _]].
      destruct (key_of_cases v id) as [[s E]|[E _]]; rewrite E in Hk |- *.
      + left. exists s. split; [reflexivity|].
        rewrite in_sorted_set. now apply Hks.
      + right. apply existsb_isna_keys in Hk. rewrite Hk. now left. }
  split; [|split; [exact Hin|]].
  - unfold gkeys. apply NoDup_app.
    + apply NoDup_map_Str, sorted_set_NoDup.
    + destruct (existsb isna (map (key_of v) ids));
        constructor; [intros [] | constructor].
    + intros k Hk. apply in_map_iff in Hk. destruct Hk as [s [<- _]].
      destruct (existsb isna (map (key_of v) ids)); [|intros []].
      intros [H|[]]. discriminate.
  - intros k Hk. apply Hin, in_map_iff in Hk. destruct Hk as [id [<- _]].
    apply key_of_not_none.
Qed.

Lemma with_cas_norm_at_inv v pharm_df df' :
  ByVersion.with_cas_norm v pharm_df = Ok df' ->
  exists ids,
    series (Str "Ligand CAS RN") pharm_df = Ok ids
    /\ df' = setitem (Str "cas_norm") (ByVersion.cas_norm_of v ids) pharm_df.
Proof.
  unfold ByVersion.with_cas_norm.
  destruct (series (Str "Ligand CAS RN") pharm_df) as [ids|e]; simpl;
    [|discriminate].
  intros [= <-]. eauto.
Qed.

(** The aggregated table of a pharmacology table that has just received
    its [cas_norm] column: one row per key of the column. *)
Lemma aggregate_at_shape v pharm_df df' :
  well_formed pharm_df = true ->
  ByVersion.with_cas_norm v pharm_df = Ok df' ->
  let X := filter (fun c => negb (object_eqb c (Str "cas_norm")))
                  (columns pharm_df) in
  exists ids gkeys (tailf : object -> list object),
    series (Str "Ligand CAS RN") pharm_df = Ok ids
    /\ series (Str "cas_norm") df' = Ok (map (key_of v) ids)
    /\ NoDup gkeys
    /\ (forall k, In k gkeys <-> In k (map (key_of v) ids))
    /\ (forall k, List.length (tailf k) = List.length X)
    /\ ByVersion.aggregate_pharmacology_by_cas v df'
       = Ok (mkDF (Str "cas_norm" :: X) (map (fun k => k :: tailf k) gkeys)).
Proof.
  intros Hwf Hw X.
  destruct (well_formed_true _ Hwf) as [Hnd Hrect].
  destruct (with_cas_norm_at_inv _ _ _ Hw) as [ids [Hids Hdf']].
  assert (Hlen : List.length (ByVersion.cas_norm_of v ids)
                 = List.length (rows pharm_df)).
  { rewrite length_cas_norm_of_at. now apply length_series in Hids. }
  destruct (series_setitem (Str "cas_norm") _ _ Hrect Hlen)
    as [Hser [ki [Hki Hcol]]].
  rewrite <- Hdf' in Hser, Hki, Hcol. rewrite cas_norm_of_key in Hser, Hcol.
  assert (HX : remove_nth ki (columns df') = X).
  { subst df'. now apply remove_key_setitem. }
  destruct (str_keys_of_keys v ids) as [ks [Eks Hks]].
  destruct (group_keys v ids ks Hks) as [Hgnd [Hgin Hgnone]].
  set (gkeys := map Str (sorted_set ks)
                ++ (if existsb isna (map (key_of v) ids) then [NaN] else []))
    in *.
  set (t := fun k : object =>
              remove_nth ki
                (map (fun j =>
                        agg_unique
                          (map (cell j)
                               (filter (fun r => key_match (cell ki r) k)
                                       (rows df'))))
                     (seq 0 (List.length (columns df'))))).
  destruct (infer_string_keyed v (Str "cas_norm") X t gkeys Hgnone)
    as [t' [Einf Ht']].
  assert (Hlt : forall k, List.length (t k) = List.length X).
  { intros k. unfold t. pose proof (index_of_Some _ _ _ Hki) as [Hlt _].
    rewrite length_remove_nth by (now rewrite length_map, length_seq).
    rewrite length_map, length_seq, <- HX. now rewrite length_remove_nth. }
  exists ids, gkeys, t'.
  split; [exact Hids|]. split; [exact Hser|]. split; [exact Hgnd|].
  split; [exact Hgin|]. split; [intros k; apply Ht', Hlt|].
  unfold ByVersion.aggregate_pharmacology_by_cas.
  rewrite index_of_mem, Hki. cbn [bind].
  unfold ByVersion.groupby_agg. rewrite Hki, Hcol, Eks. cbn [bind].
  rewrite HX. fold gkeys. exact (f_equal Ok Einf).
Qed.

(* ===================================================================== *)
(** ** The full merged table under either pandas *)
(* ===================================================================== *)

(** In a table with one row per key, a key selects at most one row: the
    row of the key it matches. *)
Lemma filter_keyed c (tailf : object -> list object) gkeys :
  NoDup gkeys ->
  (forall k, In k gkeys -> k <> PyNone) ->
  filter (fun rr => key_match c (cell 0 rr)) (map (fun k => k :: tailf k) gkeys)
  = match find (fun k => key_match c k) gkeys with
    | Some k => [k :: tailf k]
    | None => []
    end.
Proof.
  induction 1 as [|k ks Hk Hnd IH]; intros Hnone; cbn [map filter find];
    [reflexivity|].
  change (cell 0 (k :: tailf k)) with k.
  destruct (key_match c k) eqn:E.
  - f_equal. apply filter_nil. intros rr Hrr. apply in_map_iff in Hrr.
    destruct Hrr as [k' [<- Hk']]. change (cell 0 (k' :: tailf k')) with k'.
    destruct (key_match c k') eqn:E'; [|reflexivity].
    exfalso. apply Hk.
    assert (Heq : k = k').
    { apply key_match_eq; [apply Hnone; now left | apply Hnone; now right|].
      apply key_match_trans with c; [|exact E'].
      now rewrite key_match_sym. }
    now rewrite Heq.
  - apply IH. intros k' Hk'. apply Hnone. now right.
Qed.

(** The part of a merged row that comes from a table with one row per
    key. *)
Lemma merge_left_keyed on lsuffix rsuffix left X
      (tailf : object -> list object) gkeys merged :
  NoDup gkeys ->
  (forall k, In k gkeys -> k <> PyNone) ->
  merge_left on lsuffix rsuffix left
             (mkDF (on :: X) (map (fun k => k :: tailf k) gkeys))
  = Ok merged ->
  exists lk,
    index_of on (columns left) = Some lk
    /\ columns merged
       = map (fun c => if mem c (columns left) && mem c X
                       then Str (str c ++ lsuffix) else c) (columns left)
         ++ map (fun c => if mem c (columns left) && mem c X
                          then Str (str c ++ rsuffix) else c) X
    /\ rows merged
       = map (fun lr =>
                lr ++ match find (fun k => key_match (cell lk lr) k) gkeys with
                      | Some k => tailf k
                      | None => repeat NaN (List.length X)
                      end)
             (rows left).
Proof.
  intros Hnd Hnone. unfold merge_left. cbn [columns rows index_of].
  rewrite object_eqb_refl. cbn [remove_nth].
  destruct (index_of on (columns left)) as [lk|]; [|discriminate].
  match goal with
  | |- (if ?b then _ else _) = _ -> _ => destruct b; [discriminate|]
  end.
  intros [= <-]. exists lk. cbn [columns rows].
  split; [reflexivity|]. split; [reflexivity|].
  induction (rows left) as [|lr lrs IH]; [reflexivity|].
  cbn [flat_map map]. rewrite IH, (filter_keyed _ tailf _ Hnd Hnone).
  destruct (find (fun k => key_match (cell lk lr) k) gkeys); reflexivity.
Qed.

Lemma build_sdf_df_at_shape v all_mols :
  let sdf_df := ByVersion.build_sdf_df v all_mols in
  rectangular sdf_df
  /\ List.length (rows sdf_df) = List.length all_mols
  /\ Forall (fun c => exists s, c = Str s) (columns sdf_df)
  /\ In (Str "cas_norm") (columns sdf_df).
Proof.
  set (df0 := ByVersion.from_records v (sdf_rows all_mols)).
  assert (H0 : rectangular df0)
    by apply rectangular_infer_string, rectangular_from_records.
  assert (L0 : List.length (rows df0) = List.length all_mols).
  { unfold df0, ByVersion.from_records. rewrite length_rows_infer_string.
    unfold from_records. cbn [rows].
    now rewrite length_map, length_sdf_rows. }
  assert (S0 : Forall (fun c => exists s, c = Str s) (columns df0)).
  { unfold df0, ByVersion.from_records. rewrite columns_infer_string.
    unfold from_records. cbn [columns]. apply Forall_forall.
    intros c Hc. apply in_map_iff in Hc. destruct Hc as [s [<- _]]. eauto. }
  assert (G : forall vals,
             List.length vals = List.length (rows df0) ->
             let df := setitem (Str "cas_norm") vals df0 in
             rectangular df
             /\ List.length (rows df) = List.length all_mols
             /\ Forall (fun c => exists s, c = Str s) (columns df)
             /\ In (Str "cas_norm") (columns df)).
  { intros vals Hlen df. unfold df.
    split; [now apply rectangular_setitem|].
    split; [now rewrite length_rows_setitem|].
    rewrite columns_setitem.
    destruct (mem (Str "cas_norm") (columns df0)) eqn:E.
    - split; [exact S0 | now apply mem_In].
    - split.
      + apply Forall_app. split; [exact S0|]. repeat constructor. eauto.
      + apply in_or_app. right. now left. }
  cbv zeta. unfold ByVersion.build_sdf_df. fold df0.
  destruct (series (Str "cas.rn") df0) as [cas_rn|e] eqn:E.
  - apply G. rewrite length_cas_norm_of_at. now apply length_series in E.
  - apply G. apply repeat_length.
Qed.

(** The JoinKeys of the records: the keys of the cells of [cas.rn], or
    [None] throughout when no record has the property. *)
Lemma record_keys_at v all_mols :
  let sdf_df := ByVersion.build_sdf_df v all_mols in
  match series (Str "cas.rn") sdf_df with
  | Ok cas_rn =>
      map (record_key sdf_df) (rows sdf_df) = map (key_of v) cas_rn
  | Raise _ =>
      Forall (fun r => record_key sdf_df r = PyNone) (rows sdf_df)
  end.
Proof.
  cbv zeta. unfold ByVersion.build_sdf_df.
  set (df0 := ByVersion.from_records v (sdf_rows all_mols)).
  assert (H0 : rectangular df0)
    by apply rectangular_infer_string, rectangular_from_records.
  destruct (series (Str "cas.rn") df0) as [cas_rn|e] eqn:E.
  - assert (Hlen : List.length (ByVersion.cas_norm_of v cas_rn)
                   = List.length (rows df0)).
    { rewrite length_cas_norm_of_at. now apply length_series in E. }
    rewrite series_setitem_other, E by (assumption || discriminate).
    destruct (series_setitem (Str "cas_norm") _ _ H0 Hlen)
      as [_ [i [Hi Hcol]]].
    rewrite <- cas_norm_of_key. etransitivity; [|exact Hcol].
    apply map_ext. intros r. unfold record_key. now rewrite Hi.
  - unfold setitem_scalar.
    rewrite series_setitem_other, E
      by (assumption || discriminate || apply repeat_length).
    destruct (series_setitem (Str "cas_norm")
                (repeat PyNone (List.length (rows df0)))
                _ H0 (repeat_length _ _))
      as [_ [i [Hi Hcol]]].
    apply map_eq_repeat in Hcol.
    eapply Forall_impl; [|exact Hcol]. intros r Hr. cbv beta in Hr.
    unfold record_key. now rewrite Hi.
Qed.

Lemma main_logic_at_tables v files pharm sel merged p :
  ByVersion.main_logic v files pharm sel = Ok (Tables merged p) ->
  let sdf_df := ByVersion.build_sdf_df v (read_molecules files) in
  read_molecules files <> []
  /\ match pharm with
     | None => merged = sdf_df /\ p = None
     | Some raw =>
         exists pharm_df df' agg,
           load_pharmacology_excel raw = Ok pharm_df
           /\ ByVersion.with_cas_norm v pharm_df = Ok df'
           /\ ByVersion.aggregate_pharmacology_by_cas v df' = Ok agg
           /\ merge_left (Str "cas_norm") "" "_pharm" sdf_df agg = Ok merged
           /\ ByVersion.parameter_table v sdf_df df' sel = Ok p
     end.
Proof.
  unfold ByVersion.main_logic. destruct files as [|f files]; [discriminate|].
  destruct (read_molecules (f :: files)) as [|ms all_mols] eqn:Em;
    [discriminate|].
  intros H. cbv zeta. split; [discriminate|].
  destruct pharm as [raw|].
  - destruct (load_pharmacology_excel raw) as [pharm_df|e] eqn:El;
      [|discriminate].
    cbn [bind] in H.
    destruct (ByVersion.with_cas_norm v pharm_df) as [df'|e] eqn:Ew;
      [|discriminate].
    cbn [bind] in H.
    destruct (ByVersion.aggregate_pharmacology_by_cas v df') as [agg|e] eqn:Ea;
      [|discriminate].
    cbn [bind] in H.
    destruct (merge_left (Str "cas_norm") "" "_pharm"
                (ByVersion.build_sdf_df v (ms :: all_mols)) agg)
      as [m|e] eqn:Hm; [|discriminate].
    cbn [bind] in H.
    destruct (ByVersion.parameter_table v
                (ByVersion.build_sdf_df v (ms :: all_mols)) df' sel)
      as [q|e] eqn:Hq; [|discriminate].
    cbn [bind] in H. injection H as <- <-.
    exists pharm_df, df', agg. repeat split; assumption || reflexivity.
  - injection H as <- <-. auto.
Qed.

(** The full merged table of a run with a pharmacology sheet: the SDF
    table, each row followed by the aggregated values of the group whose
    key matches its JoinKey, or by [nan]s when no key does. *)
Lemma full_merge_at_shape v files raw sel merged p pharm_df :
  load_pharmacology_excel raw = Ok pharm_df ->
  well_formed pharm_df = true ->
  ByVersion.main_logic v files (Some raw) sel = Ok (Tables merged p) ->
  let sdf_df := ByVersion.build_sdf_df v (read_molecules files) in
  let X := filter (fun c => negb (object_eqb c (Str "cas_norm")))
                  (columns pharm_df) in
  exists lk ids gkeys (tailf : object -> list object),
    index_of (Str "cas_norm") (columns sdf_df) = Some lk
    /\ series (Str "Ligand CAS RN") pharm_df = Ok ids
    /\ ByVersion.pharm_keys v raw = Ok (map (key_of v) ids)
    /\ NoDup gkeys
    /\ (forall k, In k gkeys <-> In k (map (key_of v) ids))
    /\ ByVersion.aggregated v raw
       = Ok (mkDF (Str "cas_norm" :: X) (map (fun k => k :: tailf k) gkeys))
    /\ (forall k, List.length (tailf k) = List.length X)
    /\ columns merged
       = columns sdf_df
         ++ map (fun c => if mem c (columns sdf_df)
                          then Str (str c ++ "_pharm") else c) X
    /\ rows merged
       = map (fun lr =>
                lr ++ match find (fun k => key_match (cell lk lr) k) gkeys with
                      | Some k => tailf k
                      | None => repeat NaN (List.length X)
                      end)
             (rows sdf_df).
Proof.
  intros Hl Hwf Hmain sdf_df X.
  destruct (main_logic_at_tables _ _ _ _ _ _ Hmain)
    as [_ [pharm_df0 [df' [agg [Hl' [Hw [Hagg [Hmerge _]]]]]]]].
  rewrite Hl in Hl'. injection Hl' as <-.
  destruct (aggregate_at_shape _ _ _ Hwf Hw)
    as [ids [gkeys [tailf [Hids [Hser [Hgnd [Hgin [Htail Hagg']]]]]]]].
  fold X in Htail, Hagg'.
  rewrite Hagg in Hagg'. injection Hagg' as ->.
  assert (Hnone : forall k, In k gkeys -> k <> PyNone).
  { intros k Hk. apply Hgin, in_map_iff in Hk. destruct Hk as [id [<- _]].
    apply key_of_not_none. }
  apply merge_left_keyed in Hmerge; [|exact Hgnd | exact Hnone].
  destruct Hmerge as [lk [Hlk [Hc Hr]]].
  destruct (build_sdf_df_at_shape v (read_molecules files))
    as [_ [_ [Hstr _]]].
  fold sdf_df in Hlk, Hc, Hr, Hstr.
  exists lk, ids, gkeys, tailf.
  split; [exact Hlk|]. split; [exact Hids|].
  split.
  { unfold ByVersion.pharm_keys. rewrite Hl. cbn [bind]. rewrite Hw.
    cbn [bind]. exact Hser. }
  split; [exact Hgnd|]. split; [exact Hgin|].
  split.
  { unfold ByVersion.aggregated. rewrite Hl. cbn [bind]. rewrite Hw.
    cbn [bind]. exact Hagg. }
  split; [exact Htail|]. split; [|exact Hr].
  rewrite Hc, (rename_empty_suffix _ _ Hstr). f_equal.
  apply map_ext_in. intros c Hc'.
  apply mem_In in Hc'. rewrite Hc'. now rewrite andb_true_r.
Qed.

Lemma map_eq_Forall {A B} (f g : A -> B) l :
  map f l = map g l -> Forall (fun x => f x = g x) l.
Proof.
  induction l as [|x l IH]; simpl; [constructor|].
  intros [= Hx Hl]. constructor; auto.
Qed.

(** The JoinKey of a record is the key of its identifier cell; it is
    [None] when the SDF table has no column [cas.rn]. *)
Lemma record_key_of_identifier v all_mols :
  let sdf_df := ByVersion.build_sdf_df v all_mols in
  Forall (fun record =>
            record_key sdf_df record
            = match record_identifier sdf_df record with
              | Some c => key_of v c
              | None => PyNone
              end)
         (rows sdf_df).
Proof.
  intros sdf_df. pose proof (record_keys_at v all_mols) as H.
  cbv zeta in H. fold sdf_df in H.
  unfold record_identifier. unfold series in H.
  destruct (index_of (Str "cas.rn") (columns sdf_df)) as [i|].
  - rewrite map_map in H. exact (map_eq_Forall _ _ _ H).
  - exact H.
Qed.

(** The group that a JoinKey finds is the one its key matches. *)
Lemma find_group c gkeys k :
  NoDup gkeys ->
  (forall k, In k gkeys -> k <> PyNone) ->
  In k gkeys ->
  key_match c k = true ->
  find (fun k => key_match c k) gkeys = Some k.
Proof.
  intros Hnd Hnone Hin Hm.
  destruct (find (fun k => key_match c k) gkeys) as [k'|] eqn:E.
  - apply find_some in E. destruct E as [Hin' Hm']. f_equal.
    apply key_match_eq; [now apply Hnone | now apply Hnone|].
    apply key_match_trans with c; [|exact Hm].
    now rewrite key_match_sym.
  - apply (find_none _ _ E) in Hin. congruence.
Qed.

(** C3, as the code has it. The same normalisation, the cast to [str]
    then [strip], gives the JoinKeys of both sides, and the aggregated
    table has one group per JoinKey of the sheet.  A record row carries
    the aggregated values of the group whose key matches its JoinKey,
    and [nan] in every pharmacology column when no key does; keys match
    when they are the same text, or both null.

    What a missing identifier becomes depends on the pandas in use.
    Under pandas 1.x / 2.x the cast turns a null into its text, ["None"]
    for a property that a record lacks and ["nan"] for an empty cell of
    the sheet: the two differ, and a record without identifier gets the
    values of no sheet row without identifier.  Under pandas 3 the cast
    leaves a null a null, not a text, and null keys match: a record
    without identifier gets the values of the sheet rows without
    identifier.  Under both, identifiers made of white space only give
    the empty text on both sides, and match. *)
Theorem C3_rows_match_on_equal_join_keys :
  forall (v : pandas) (files : list upload) (raw : sheet)
         (sel : option string) (merged : DataFrame) (p : option DataFrame)
         (pharm_df : DataFrame),
    load_pharmacology_excel raw = Ok pharm_df ->
    well_formed pharm_df = true ->
    ByVersion.main_logic v files (Some raw) sel = Ok (Tables merged p) ->
    let sdf_df := ByVersion.build_sdf_df v (read_molecules files) in
    exists agg ids,
      ByVersion.aggregated v raw = Ok agg
      /\ series (Str "Ligand CAS RN") pharm_df = Ok ids
      /\ ByVersion.pharm_keys v raw = Ok (map (key_of v) ids)
      /\ Forall (fun record =>
                   record_key sdf_df record
                   = match record_identifier sdf_df record with
                     | Some c => key_of v c
                     | None => PyNone
                     end)
                (rows sdf_df)
      /\ NoDup (map (cell 0) (rows agg))
      /\ (forall k, In k (map (cell 0) (rows agg))
                    <-> In k (map (key_of v) ids))
      /\ Forall2
           (fun record row =>
              firstn (List.length record) row = record
              /\ (forall group,
                    In group (rows agg) ->
                    key_match (record_key sdf_df record) (cell 0 group) = true ->
                    skipn (List.length record) row = skipn 1 group)
              /\ ((forall group,
                     In group (rows agg) ->
                     key_match (record_key sdf_df record) (cell 0 group)
                     = false) ->
                  skipn (List.length record) row
                  = repeat NaN (List.length (columns agg) - 1)))
           (rows sdf_df) (rows merged)
      /\ (forall a b,
            key_match (key_of v a) (key_of v b) = true
            <-> match v with
                | pandas2 => join_key a = join_key b
                | pandas3 =>
                    (isna a = true /\ isna b = true)
                    \/ (isna a = false /\ isna b = false
                        /\ join_key a = join_key b)
                end)
      /\ match v with
         | pandas2 =>
             key_of v PyNone = Str "None"
             /\ key_of v NaN = Str "nan"
             /\ key_match (key_of v PyNone) (key_of v NaN) = false
         | pandas3 =>
             (forall c, isna c = true -> key_of v c = NaN)
             /\ key_match (key_of v PyNone) (key_of v NaN) = true
         end
      /\ (forall s, all_space s = true -> key_of v (Str s) = Str EmptyString)
      /\ Forall2
           (fun record row =>
              match v with
              | pandas2 =>
                  record_identifier sdf_df record = Some PyNone ->
                  (forall id, In id ids -> join_key id <> "None") ->
                  skipn (List.length record) row
                  = repeat NaN (List.length (columns agg) - 1)
              | pandas3 =>
                  isna (record_key sdf_df record) = true ->
                  (exists id, In id ids /\ isna id = true) ->
                  exists group,
                    In group (rows agg)
                    /\ cell 0 group = NaN
                    /\ skipn (List.length record) row = skipn 1 group
              end)
           (rows sdf_df) (rows merged).
Proof.
  intros v files raw sel merged p pharm_df Hl Hwf Hmain sdf_df.
  destruct (full_merge_at_shape _ _ _ _ _ _ _ Hl Hwf Hmain)
    as [lk [ids [gkeys [tailf H]]]].
  destruct H as [Hlk [Hids [Hpk [Hgnd [Hgin [Hagg [Htail [Hc Hr]]]]]]]].
  fold sdf_df in Hlk, Hc, Hr.
  assert (Hnone : forall k, In k gkeys -> k <> PyNone).
  { intros k Hk. apply Hgin, in_map_iff in Hk. destruct Hk as [id [<- _]].
    apply key_of_not_none. }
  pose proof (record_key_of_identifier v (read_molecules files)) as Hrk.
  cbv zeta in Hrk. fold sdf_df in Hrk.
  assert (Hkeys : map (cell 0) (map (fun k => k :: tailf k) gkeys) = gkeys).
  { rewrite map_map. apply map_id. }
  eexists. exists ids.
  split; [exact Hagg|]. split; [exact Hids|]. split; [exact Hpk|].
  split; [exact Hrk|].
  cbn [rows columns List.length Nat.sub]. rewrite Hkeys, !Nat.sub_0_r.
  split; [exact Hgnd|]. split; [exact Hgin|].
  split.
  { rewrite Hr. apply Forall2_map_r. intros lr _.
    rewrite firstn_length_app, skipn_length_app.
    unfold record_key. rewrite Hlk.
    split; [reflexivity|]. split.
    - intros group Hg Hm. apply in_map_iff in Hg.
      destruct Hg as [k [<- Hk]].
      cbv beta in Hm. change (cell 0 (k :: tailf k)) with k in Hm.
      now rewrite (find_group _ _ _ Hgnd Hnone Hk Hm).
    - intros Hno.
      destruct (find (fun k => key_match (cell lk lr) k) gkeys) as [k|] eqn:E;
        [|reflexivity].
      apply find_some in E. destruct E as [Hk Hm].
      assert (Hg : In (k :: tailf k) (map (fun k => k :: tailf k) gkeys))
        by (apply in_map_iff; eauto).
      apply Hno in Hg. change (cell 0 (k :: tailf k)) with k in Hg.
      congruence. }
  split; [apply key_match_key_of|].
  split.
  { destruct v; cbn [key_of isna].
    - repeat split; reflexivity.
    - split; [|reflexivity]. intros c Hc'. now rewrite Hc'. }
  split.
  { intros s Hs. unfold key_of, join_key. cbn [str isna].
    rewrite (strip_all_space s Hs). now destruct v. }
  rewrite Hr. apply Forall2_map_r. intros lr Hin.
  rewrite skipn_length_app.
  rewrite Forall_forall in Hrk. specialize (Hrk lr Hin).
  unfold record_key in Hrk |- *. rewrite Hlk in Hrk |- *.
  destruct v.
  - intros Hid Hall. rewrite Hid in Hrk. cbn [key_of] in Hrk.
    destruct (find (fun k => key_match (cell lk lr) k) gkeys) as [k|] eqn:E;
      [|reflexivity].
    exfalso. apply find_some in E. destruct E as [Hk Hm].
    rewrite Hrk in Hm. apply Hgin, in_map_iff in Hk.
    destruct Hk as [id [<- Hid']]. cbn [key_of] in Hm.
    apply key_match_join_key in Hm. apply (Hall id Hid'). now rewrite <- Hm.
  - intros Hna [id [Hid Hnid]].
    assert (Hk : In NaN gkeys).
    { apply Hgin, in_map_iff. exists id. split; [|exact Hid].
      cbn [key_of]. now rewrite Hnid. }
    assert (Hm : key_match (cell lk lr) NaN = true).
    { apply key_match_true. right. auto. }
    exists (NaN :: tailf NaN). split; [apply in_map_iff; eauto|].
    split; [reflexivity|].
    now rewrite (find_group _ _ _ Hgnd Hnone Hk Hm).
Qed.

(* ===================================================================== *)
(** ** Records without [cas.rn], under either pandas *)
(* ===================================================================== *)

(** Lines 177-178: without a property [cas.rn] the JoinKey of every
    record is [None]. *)
Lemma no_cas_rn_keys_at v all_mols :
  all_mols <> [] ->
  existsb (String.eqb "cas.rn") (all_props all_mols) = false ->
  column_is_none (ByVersion.build_sdf_df v all_mols) (Str "cas_norm")
  /\ Forall (fun r => record_key (ByVersion.build_sdf_df v all_mols) r = PyNone)
            (rows (ByVersion.build_sdf_df v all_mols)).
Proof.
  intros Hne Hno. unfold ByVersion.build_sdf_df.
  set (df0 := ByVersion.from_records v (sdf_rows all_mols)).
  assert (H0 : rectangular df0)
    by apply rectangular_infer_string, rectangular_from_records.
  assert (Hs : series (Str "cas.rn") df0 = Raise KeyError).
  { unfold series, df0, ByVersion.from_records.
    rewrite columns_infer_string, (from_records_sdf_rows all_mols Hne).
    cbn [columns]. rewrite index_of_map_Str_None; [reflexivity|].
    unfold record_columns. rewrite in_fold_add_key.
    intros [H|H].
    - simpl in H. intuition discriminate.
    - apply existsb_eqb_In in H. congruence. }
  rewrite Hs. unfold setitem_scalar.
  destruct (series_setitem (Str "cas_norm")
              (repeat PyNone (List.length (rows df0)))
              _ H0 (repeat_length _ _))
    as [_ [i [Hi Hcol]]].
  apply map_eq_repeat in Hcol.
  split.
  - exists i. auto.
  - eapply Forall_impl; [|exact Hcol]. intros r Hr. cbv beta in Hr.
    unfold record_key. now rewrite Hi.
Qed.

Lemma parameter_table_at_some v sdf_df df' sel p :
  ByVersion.parameter_table v sdf_df df' sel = Ok (Some p) ->
  exists s pharm_param,
    sel = Some s
    /\ ByVersion.select_parameter v s df' = Ok pharm_param
    /\ rows pharm_param <> []
    /\ join_parameter sdf_df pharm_param = Ok p.
Proof.
  unfold ByVersion.parameter_table. destruct sel as [[|a s]|];
    try discriminate.
  destruct (mem (Str "Parameter") (columns df')
            && mem (Str "Value") (columns df')); [|discriminate].
  destruct (ByVersion.select_parameter v (String a s) df')
    as [pharm_param|e] eqn:Es; [|discriminate].
  cbn [bind]. destruct (rows pharm_param) as [|r rs] eqn:Er; [discriminate|].
  destruct (join_parameter sdf_df pharm_param) as [q|e] eqn:Ej;
    [|discriminate].
  cbn [bind]. intros [= <-]. exists (String a s), pharm_param.
  rewrite Er. split; [reflexivity|]. split; [exact Es|].
  split; [discriminate | exact Ej].
Qed.

(** The JoinKey of every measurement row is the key of an identifier of
    the sheet. *)
Lemma measurement_keys_at v pharm_df df' ids s pharm_param right :
  well_formed pharm_df = true ->
  series (Str "Ligand CAS RN") pharm_df = Ok ids ->
  ByVersion.with_cas_norm v pharm_df = Ok df' ->
  ByVersion.select_parameter v s df' = Ok pharm_param ->
  select [Str "cas_norm"; Str "Parameter"; Str "Value"] pharm_param
  = Ok right ->
  forall rr, In rr (rows right) -> In (cell 0 rr) (map (key_of v) ids).
Proof.
  intros Hwf Hids Hw Hsel Hr rr Hrr.
  destruct (aggregate_at_shape _ _ _ Hwf Hw)
    as [ids' [_ [_ [Hids' [Hser _]]]]].
  rewrite Hids in Hids'. injection Hids' as <-.
  unfold ByVersion.select_parameter in Hsel.
  destruct (series (Str "Parameter") df') as [col|e]; [|discriminate].
  cbn [bind] in Hsel. injection Hsel as <-.
  destruct (select_measurement_cols _ _ Hr) as [j0 [j1 [j2 [Hj0 [_ [_ ->]]]]]].
  cbn [columns boolean_index] in Hj0.
  unfold series in Hser. rewrite Hj0 in Hser. injection Hser as Hser.
  cbn [rows] in Hrr. apply in_map_iff in Hrr. destruct Hrr as [r [<- Hin]].
  change (cell 0 [cell j0 r; cell j1 r; cell j2 r]) with (cell j0 r).
  rewrite <- Hser. apply in_map. eapply in_rows_boolean_index. exact Hin.
Qed.

(** X10. When no molecule has the property [cas.rn], the JoinKey of
    every record is [None].  Under pandas 1.x / 2.x, and under pandas 3
    when every row of the sheet has an identifier, no key of the sheet
    matches it: the full merged table is the SDF table with [nan] in
    every pharmacology column, and the parameter-focused table, when it
    is produced, has no row.  Under pandas 3 the null key of the sheet
    rows without identifier matches it: every record then carries the
    aggregated values of these rows. *)
Theorem X10_without_cas_rn_nothing_matches :
  forall (v : pandas) (files : list upload) (raw : sheet)
         (sel : option string) (merged : DataFrame) (p : option DataFrame)
         (pharm_df : DataFrame) (ids : list object),
    load_pharmacology_excel raw = Ok pharm_df ->
    well_formed pharm_df = true ->
    series (Str "Ligand CAS RN") pharm_df = Ok ids ->
    existsb (String.eqb "cas.rn") (all_props (read_molecules files)) = false ->
    ByVersion.main_logic v files (Some raw) sel = Ok (Tables merged p) ->
    let sdf_df := ByVersion.build_sdf_df v (read_molecules files) in
    let n := List.length
               (filter (fun c => negb (object_eqb c (Str "cas_norm")))
                       (columns pharm_df)) in
    Forall (fun r => record_key sdf_df r = PyNone) (rows sdf_df)
    /\ (v = pandas2 \/ Forall (fun id => isna id = false) ids ->
        rows merged = map (fun r => r ++ repeat NaN n) (rows sdf_df)
        /\ forall q, p = Some q -> rows q = [])
    /\ (v = pandas3 ->
        (exists id, In id ids /\ isna id = true) ->
        exists agg tail,
          ByVersion.aggregated v raw = Ok agg
          /\ In (NaN :: tail) (rows agg)
          /\ rows merged = map (fun r => r ++ tail) (rows sdf_df)).
Proof.
  intros v files raw sel merged p pharm_df ids Hl Hwf Hids Hno Hmain sdf_df n.
  destruct (main_logic_at_tables _ _ _ _ _ _ Hmain)
    as [Hne [pharm_df0 [df' [agg0 [Hl' [Hw [_ [_ Hp]]]]]]]].
  rewrite Hl in Hl'. injection Hl' as <-.
  destruct (no_cas_rn_keys_at v _ Hne Hno) as [Hnone Hkeys].
  fold sdf_df in Hnone, Hkeys, Hp.
  destruct (full_merge_at_shape _ _ _ _ _ _ _ Hl Hwf Hmain)
    as [lk [ids' [gkeys [tailf H]]]].
  destruct H as [Hlk [Hids' [_ [Hgnd [Hgin [Hagg [_ [_ Hr]]]]]]]].
  rewrite Hids in Hids'. injection Hids' as <-.
  fold sdf_df in Hlk, Hr. fold n in Hr.
  assert (Hgnone : forall k, In k gkeys -> k <> PyNone).
  { intros k Hk. apply Hgin, in_map_iff in Hk. destruct Hk as [id [<- _]].
    apply key_of_not_none. }
  assert (Hcell : forall lr, In lr (rows sdf_df) -> cell lk lr = PyNone).
  { intros lr Hin. rewrite Forall_forall in Hkeys. specialize (Hkeys lr Hin).
    unfold record_key in Hkeys. now rewrite Hlk in Hkeys. }
  split; [exact Hkeys|].
  split.
  - intros Hv.
    assert (Hkk : forall id, In id ids -> isna (key_of v id) = false).
    { intros id Hid. rewrite isna_key_of. destruct Hv as [->|Hall];
        [reflexivity|].
      destruct v; [reflexivity|]. rewrite Forall_forall in Hall. auto. }
    assert (Hnm : forall k, In k (map (key_of v) ids) ->
                            key_match PyNone k = false).
    { intros k Hk. apply in_map_iff in Hk. destruct Hk as [id [<- Hid]].
      unfold key_match. rewrite (Hkk id Hid), andb_false_r, orb_false_r.
      apply object_eqb_neq. intros E. symmetry in E.
      now apply key_of_not_none in E. }
    split.
    + rewrite Hr. apply map_ext_in. intros lr Hin. rewrite (Hcell lr Hin).
      destruct (find (fun k => key_match PyNone k) gkeys) as [k|] eqn:E;
        [|reflexivity].
      apply find_some in E. destruct E as [Hk Hm].
      rewrite (Hnm k) in Hm; [discriminate | now apply Hgin].
    + intros q ->.
      destruct (parameter_table_at_some _ _ _ _ _ Hp)
        as [s [pharm_param [_ [Hsel [_ Hjoin]]]]].
      destruct (join_parameter_shape _ _ _ Hjoin)
        as [left [right [Hleft [Hright ->]]]].
      cbn [rows].
      destruct (build_sdf_df_at_shape v (read_molecules files)) as [Hrect _].
      fold sdf_df in Hrect.
      assert (Hn3 : Forall (fun lr => cell 3 lr = PyNone) (rows left)).
      { apply (ligand_identity_column_none sdf_df left 3 (Str "cas_norm")
                 Hleft eq_refl).
        unfold add_missing_base_cols.
        now apply column_is_none_fold_kept. }
      rewrite Forall_forall in Hn3.
      apply flat_map_nil. intros lr Hlr. rewrite (Hn3 lr Hlr).
      rewrite filter_nil; [reflexivity|].
      intros rr Hrr.
      rewrite (Hnm (cell 0 rr)); [reflexivity|].
      exact (measurement_keys_at _ _ _ _ _ _ _ Hwf Hids Hw Hsel Hright rr Hrr).
  - intros Hv [id [Hid Hnid]].
    assert (Hk : In NaN gkeys).
    { apply Hgin, in_map_iff. exists id. split; [|exact Hid].
      rewrite Hv. cbn [key_of]. now rewrite Hnid. }
    eexists. exists (tailf NaN). split; [exact Hagg|].
    split; [cbn [rows]; apply in_map_iff; eauto|].
    rewrite Hr. apply map_ext_in. intros lr Hin. rewrite (Hcell lr Hin).
    now rewrite (find_group PyNone gkeys NaN Hgnd Hgnone Hk eq_refl).
Qed.

(* ===================================================================== *)
(** ** Under pandas 1.x / 2.x the two pipelines are one *)
(* ===================================================================== *)

Lemma key_match_Str_eqb c k : key_match c (Str k) = object_eqb c (Str k).
Proof.
  unfold key_match. cbn [isna]. now rewrite andb_false_r, orb_false_r.
Qed.

Lemma existsb_isna_Str ks : existsb isna (map Str ks) = false.
Proof. induction ks as [|k ks IH]; [reflexivity | exact IH]. Qed.

Lemma filter_notna_Str ks : filter notna (map Str ks) = map Str ks.
Proof.
  induction ks as [|k ks IH]; [reflexivity|]. cbn [map filter notna isna negb].
  now rewrite IH.
Qed.

(** On keys that are all [str] the grouping is the one of [Pd]. *)
Lemma groupby_agg_pandas2 key f df ki ks :
  index_of key (columns df) = Some ki ->
  map (cell ki) (rows df) = map Str ks ->
  ByVersion.groupby_agg pandas2 key f df = groupby_agg key f df.
Proof.
  intros Hki Hcol. unfold ByVersion.groupby_agg, groupby_agg.
  rewrite Hki, Hcol, filter_notna_Str, existsb_isna_Str, str_keys_map_Str.
  cbn [bind ByVersion.infer_string]. rewrite app_nil_r, map_map.
  f_equal. f_equal. apply map_ext. intros k. f_equal. f_equal.
  apply map_ext. intros j. f_equal. f_equal.
  apply filter_ext. intros r. apply key_match_Str_eqb.
Qed.

Lemma select_parameter_pandas2 s df :
  ByVersion.select_parameter pandas2 s df = select_parameter s df.
Proof.
  unfold ByVersion.select_parameter, select_parameter.
  destruct (series (Str "Parameter") df) as [col|e]; [|reflexivity].
  cbn [bind ByVersion.astype_str]. unfold astype_str. now rewrite map_map.
Qed.

Lemma parameter_table_pandas2 sdf_df df sel :
  ByVersion.parameter_table pandas2 sdf_df df sel
  = parameter_table sdf_df df sel.
Proof.
  unfold ByVersion.parameter_table, parameter_table.
  destruct sel as [[|a s]|]; try reflexivity.
  now rewrite select_parameter_pandas2.
Qed.

Lemma aggregate_pandas2 pharm_df df' :
  rectangular pharm_df ->
  with_cas_norm pharm_df = Ok df' ->
  ByVersion.aggregate_pharmacology_by_cas pandas2 df'
  = aggregate_pharmacology_by_cas df'.
Proof.
  intros Hrect Hw.
  destruct (aggregate_after_cas_norm _ _ Hrect Hw)
    as [ids [ki [_ [Hki [Hcol _]]]]].
  unfold ByVersion.aggregate_pharmacology_by_cas,
    aggregate_pharmacology_by_cas.
  rewrite index_of_mem, Hki. cbn [bind].
  apply groupby_agg_pandas2 with (ki := ki) (ks := map join_key ids);
    [exact Hki|].
  rewrite Hcol, cas_norm_of_map, map_map. reflexivity.
Qed.

(** For a well-formed sheet the pipeline of [ByVersion] at [pandas2] is
    the pipeline of the first part: what is proved of [main_logic] is
    proved of the script under pandas 1.x / 2.x. *)
Lemma main_logic_pandas2 files pharm sel :
  sheet_well_formed pharm = true ->
  ByVersion.main_logic pandas2 files pharm sel = main_logic files pharm sel.
Proof.
  intros Hwf. unfold ByVersion.main_logic, main_logic.
  destruct files as [|f files]; [reflexivity|].
  destruct (read_molecules (f :: files)) as [|ms all_mols]; [reflexivity|].
  cbv zeta. destruct pharm as [raw|]; [|reflexivity].
  unfold sheet_well_formed in Hwf.
  destruct (load_pharmacology_excel raw) as [pharm_df|e]; [|reflexivity].
  cbn [bind].
  change (ByVersion.with_cas_norm pandas2 pharm_df)
    with (with_cas_norm pharm_df).
  destruct (with_cas_norm pharm_df) as [df'|e] eqn:Hw; [|reflexivity].
  cbn [bind].
  destruct (well_formed_true _ Hwf) as [_ Hrect].
  rewrite (aggregate_pandas2 _ _ Hrect Hw).
  destruct (aggregate_pharmacology_by_cas df') as [agg|e]; [|reflexivity].
  cbn [bind].
  change (ByVersion.build_sdf_df pandas2 (ms :: all_mols))
    with (build_sdf_df (ms :: all_mols)).
  now rewrite parameter_table_pandas2.
Qed.

(* ===================================================================== *)
(** ** The two pandas on the sample inputs *)
(* ===================================================================== *)

(** C3, as stated, fails under either pandas.  Under none do the two
    missing identifiers become the same text: under pandas 1.x / 2.x
    they become ["None"] and ["nan"], and the second molecule of
    [files_two], which has no [cas.rn], gets [nan] in the three
    pharmacology columns although the last row of [sheet_ic50] has no
    identifier either; under pandas 3 they stay null, and no text stands
    for them. *)
Lemma C3_counterexample :
  (forall v, ~ exists s,
        ByVersion.cas_norm_of v [PyNone; NaN] = [Str s; Str s])
  /\ ByVersion.cas_norm_of pandas2 [PyNone; NaN] = [Str "None"; Str "nan"]
  /\ ByVersion.cas_norm_of pandas3 [PyNone; NaN] = [NaN; NaN]
  /\ (agg <- ByVersion.aggregated pandas2 sheet_ic50 ;; Ok (rows agg))
     = Ok [[Str "50-00-0"; Str "50-00-0"; Str "IC50 | ic50 | MIC";
            Str "10 | 3"];
           [Str "64-17-5"; Str "64-17-5"; Str "IC50"; Str "20"];
           [Str "nan"; PyNone; Str "MIC"; Str "7"]]
  /\ (out <- ByVersion.run pandas2 files_two (Some sheet_ic50) ;;
      match out with
      | Tables merged _ => Ok (columns merged, nth 1 (rows merged) [])
      | _ => Raise NotModelled
      end)
     = Ok ([Str "ID"; Str "SourceFile"; Str "SMILES"; Str "cas.index.name";
            Str "cas.rn"; Str "mw"; Str "cas_norm"; Str "Ligand CAS RN";
            Str "Parameter"; Str "Value"],
           [Int 2; Str "first set.sdf"; Str "CCO"; PyNone; PyNone;
            Str "46.07"; Str "None"; NaN; NaN; NaN])
  /\ run files_two (Some sheet_ic50)
     = ByVersion.run pandas2 files_two (Some sheet_ic50).
Proof.
  split.
  { intros v [s H]. destruct v; cbn in H; [|discriminate].
    injection H as H1 H2. congruence. }
  repeat split; reflexivity.
Qed.

(** C3 on [files_two] and [sheet_ic50], whose last row has no
    identifier, under both pandas: the keys of the sheet rows, and the
    key of each record from its identifier cell. *)
Lemma C3_witness :
  load_pharmacology_excel sheet_ic50 = Ok pharm_ic50
  /\ well_formed pharm_ic50 = true
  /\ ByVersion.main_logic pandas2 files_two (Some sheet_ic50) (Some "IC50")
     = Ok (Tables merged_two (Some param_two))
  /\ ByVersion.main_logic pandas3 files_two (Some sheet_ic50) (Some "IC50")
     = Ok (Tables merged_two3 (Some param_two3))
  /\ ByVersion.pharm_keys pandas2 sheet_ic50
     = Ok [Str "50-00-0"; Str "64-17-5"; Str "50-00-0"; Str "50-00-0";
           Str "nan"]
  /\ ByVersion.pharm_keys pandas3 sheet_ic50
     = Ok [Str "50-00-0"; Str "64-17-5"; Str "50-00-0"; Str "50-00-0"; NaN]
  /\ (let sdf_df := ByVersion.build_sdf_df pandas3 (read_molecules files_two) in
      Forall (fun record =>
                record_key sdf_df record
                = match record_identifier sdf_df record with
                  | Some c => key_of pandas3 c
                  | None => PyNone
                  end)
             (rows sdf_df)).
Proof.
  split; [reflexivity|]. split; [reflexivity|].
  split; [reflexivity|]. split; [reflexivity|].
  destruct (C3_rows_match_on_equal_join_keys pandas2 files_two sheet_ic50
              (Some "IC50") merged_two (Some param_two) pharm_ic50
              eq_refl eq_refl eq_refl)
    as [agg2 [ids2 [_ [Hids2 [Hkeys2 _]]]]].
  destruct (C3_rows_match_on_equal_join_keys pandas3 files_two sheet_ic50
              (Some "IC50") merged_two3 (Some param_two3) pharm_ic50
              eq_refl eq_refl eq_refl)
    as [agg3 [ids3 [_ [Hids3 [Hkeys3 [Hrec3 _]]]]]].
  injection Hids2 as <-. injection Hids3 as <-.
  split; [exact Hkeys2|]. split; [exact Hkeys3|].
  exact Hrec3.
Defined.

(** X10 on [files_no_cas] and [sheet_ic50], whose last row has no
    identifier: [nan] in the pharmacology columns under pandas 1.x / 2.x,
    the values of that row under pandas 3. *)
Lemma X10_witness :
  load_pharmacology_excel sheet_ic50 = Ok pharm_ic50
  /\ well_formed pharm_ic50 = true
  /\ existsb (String.eqb "cas.rn") (all_props (read_molecules files_no_cas))
     = false
  /\ rows (merged_of
             (ByVersion.main_logic pandas2 files_no_cas (Some sheet_ic50)
                                   (Some "IC50")))
     = [[Int 1; Str "no cas.sdf"; Str "C=O"; Str "30.03"; PyNone;
         NaN; NaN; NaN];
        [Int 2; Str "no cas.sdf"; Str "CCO"; PyNone; PyNone;
         NaN; NaN; NaN]]
  /\ (forall q,
        param_of (ByVersion.main_logic pandas2 files_no_cas (Some sheet_ic50)
                                       (Some "IC50"))
        = Some q ->
        rows q = [])
  /\ exists agg tail,
       ByVersion.aggregated pandas3 sheet_ic50 = Ok agg
       /\ In (NaN :: tail) (rows agg)
       /\ rows (merged_of
                  (ByVersion.main_logic pandas3 files_no_cas (Some sheet_ic50)
                                        (Some "IC50")))
          = map (fun r => r ++ tail)
                (rows (ByVersion.build_sdf_df pandas3
                         (read_molecules files_no_cas))).
Proof.
  split; [reflexivity|]. split; [reflexivity|]. split; [reflexivity|].
  destruct (X10_without_cas_rn_nothing_matches pandas2 files_no_cas
              sheet_ic50 (Some "IC50")
              (merged_of
                 (ByVersion.main_logic pandas2 files_no_cas (Some sheet_ic50)
                                       (Some "IC50")))
              (param_of
                 (ByVersion.main_logic pandas2 files_no_cas (Some sheet_ic50)
                                       (Some "IC50")))
              pharm_ic50 _ eq_refl eq_refl eq_refl eq_refl eq_refl)
    as [_ [H2 _]].
  destruct (H2 (or_introl eq_refl)) as [Hrows Hq].
  split; [exact Hrows|]. split; [exact Hq|].
  destruct (X10_without_cas_rn_nothing_matches pandas3 files_no_cas
              sheet_ic50 (Some "IC50")
              (merged_of
                 (ByVersion.main_logic pandas3 files_no_cas (Some sheet_ic50)
                                       (Some "IC50")))
              (param_of
                 (ByVersion.main_logic pandas3 files_no_cas (Some sheet_ic50)
                                       (Some "IC50")))
              pharm_ic50 _ eq_refl eq_refl eq_refl eq_refl eq_refl)
    as [_ [_ H3]].
  apply (H3 eq_refl). exists NaN. split; [|reflexivity].
  right. right. right. right. now left.
Defined.
